(** * oa-quiz-game: the session engine of [main.go]

    A shallow embedding of the quiz program's question generator
    ([generateQuestion]), its event handler ([Update]) and its countdown
    bar ([renderCountdownBar]), with the properties of the specification
    stated and settled against them.

    Conventions.
    - Go's [int] and [time.Duration] are 64-bit signed integers: values
      are in [Z] and every arithmetic operation of the source is written
      with its wrap-around ([Int64.add], [Int64.sub], [Int64.mul]).
    - [math/rand] and [time.Now] are read from tapes held in the [World];
      a theorem quantified over the world holds for every sequence of
      random draws and clock readings.
    - The Bubble Tea widgets ([list.Model], [textinput.Model]),
      [fmt.Sscanf] and float64 arithmetic are collaborators outside the
      repository: they are interfaces ([Collaborators], [Float64]) and
      the theorems hold for every implementation of them. *)

From Stdlib Require Import ZArith Lia List QArith Ascii.
From stdpp Require Import base option gmap strings pretty list.

Local Open Scope string_scope.
Local Open Scope Z_scope.

(** ** 64-bit signed integers *)

Module Int64.

Definition min_int : Z := - 2 ^ 63.
Definition max_int : Z := 2 ^ 63 - 1.

Definition in_range (z : Z) : Prop := min_int <= z <= max_int.

(** Two's-complement reduction of a mathematical integer. *)
Definition wrap (z : Z) : Z := (z + 2 ^ 63) mod 2 ^ 64 - 2 ^ 63.

Definition add (x y : Z) : Z := wrap (x + y).
Definition sub (x y : Z) : Z := wrap (x - y).
Definition mul (x y : Z) : Z := wrap (x * y).

End Int64.

(** ** Results of running a handler

    [Panic] is a Go run-time panic, [OutOfFuel] is the bound put on the
    unbounded retry loop of [generateQuestion]. *)

Inductive result (A : Type) : Type :=
| Ok (a : A)
| Panic (why : string)
| OutOfFuel.

Arguments Ok {A} a.
Arguments Panic {A} why.
Arguments OutOfFuel {A}.

(** ** The world: random source, clock, standard output *)

Record World : Type := mkWorld {
  rand_tape : nat -> Z;      (* raw outputs of the global math/rand source *)
  rand_next : nat;           (* how many of them were consumed *)
  clock_tape : nat -> Z;     (* successive readings of time.Now, in ns *)
  clock_next : nat;
  stdout : list string       (* what fmt.Print wrote, oldest first *)
}.

(** [rand.Intn(n)]: a draw in [0, n); panics when [n <= 0]. *)
Definition Intn (n : Z) (w : World) : result (Z * World) :=
  if n <=? 0 then Panic "invalid argument to Intn"
  else Ok (rand_tape w (rand_next w) mod n,
           mkWorld (rand_tape w) (S (rand_next w))
                   (clock_tape w) (clock_next w) (stdout w)).

(** [rand.Int()]: a non-negative [int]. *)
Definition Int (w : World) : result (Z * World) :=
  Ok (rand_tape w (rand_next w) mod 2 ^ 63,
      mkWorld (rand_tape w) (S (rand_next w))
              (clock_tape w) (clock_next w) (stdout w)).

(** [time.Now()]. *)
Definition Now (w : World) : Z * World :=
  (clock_tape w (clock_next w),
   mkWorld (rand_tape w) (rand_next w)
           (clock_tape w) (S (clock_next w)) (stdout w)).

(** [fmt.Print(s)]. *)
Definition Print (s : string) (w : World) : World :=
  mkWorld (rand_tape w) (rand_next w) (clock_tape w) (clock_next w)
          (stdout w ++ [s])%list.

(** A small state-and-error monad for the code that draws random numbers. *)
Definition Gen (A : Type) : Type := World -> result (A * World).

Definition gret {A} (a : A) : Gen A := fun w => Ok (a, w).

Definition gbind {A B} (c : Gen A) (k : A -> Gen B) : Gen B :=
  fun w =>
    match c w with
    | Ok (a, w') => k a w'
    | Panic why => Panic why
    | OutOfFuel => OutOfFuel
    end.

(** A computation that does not touch the world. *)
Definition glift {A} (r : result A) : Gen A :=
  fun w =>
    match r with
    | Ok a => Ok (a, w)
    | Panic why => Panic why
    | OutOfFuel => OutOfFuel
    end.

Notation "'do' x <- c ; k" := (gbind c (fun x => k))
  (at level 10, x name, c at level 100, k at level 200).

(** ** Questions *)

Record Question : Type := mkQuestion {
  Text : string;
  Answer : Z;
  OpType : string;
  UniqueID : string
}.

(** [fmt.Sprintf("%d", n)]. *)
Definition itoa (n : Z) : string := pretty n.

(** [fmt.Sprintf("%d %s %d = ?", a, op, b)]. *)
Definition sprintf_binop (a : Z) (op : string) (b : Z) : string :=
  itoa a +:+ " " +:+ op +:+ " " +:+ itoa b +:+ " = ?".

(** Indexing a map literal [map[string]string{...}[op]]: the zero value
    [""] when the key is absent. *)
Definition map_index (tbl : gmap string string) (k : string) : string :=
  default "" (tbl !! k).

(** Indexing a slice literal [ops[i]]; the index comes from
    [rand.Intn(len(ops))] and is always in range. *)
Definition slice_index (ops : list string) (i : Z) : result string :=
  match ops !! Z.to_nat i with
  | Some s => Ok s
  | None => Panic "index out of range"
  end.

(** The local variables of one iteration of the loop of
    [generateQuestion], as they stand when the [switch] is left. *)
Record Locals : Type := mkLocals {
  l_a : Z;
  l_b : Z;
  l_answer : Z;
  l_text : string;
  l_op : string;
  l_opType : string
}.

Definition gen1stGrade : Gen Locals :=
  do a <- Intn 11;
  do b <- Intn 11;
  do c <- Intn 2;
  if c =? 0 then
    let op := "+" in
    gret (mkLocals a b (Int64.add a b) (sprintf_binop a op b) op
            (map_index (list_to_map [("+", "addition"); ("-", "subtraction")]) op))
  else
    let '(a, b) := if a <? b then (b, a) else (a, b) in
    let op := "-" in
    gret (mkLocals a b (Int64.sub a b) (sprintf_binop a op b) op
            (map_index (list_to_map [("+", "addition"); ("-", "subtraction")]) op)).

Definition gen3rdGrade : Gen Locals :=
  do a <- Intn 21;
  do b <- Intn 21;
  let ops := ["+"; "-"; "*"] in
  do i <- Intn (Z.of_nat (length ops));
  do op <- glift (slice_index ops i);
  let tbl : gmap string string :=
    list_to_map [("+", "addition"); ("-", "subtraction"); ("*", "multiplication")] in
  if decide (op = "+") then
    gret (mkLocals a b (Int64.add a b) (sprintf_binop a op b) op (map_index tbl op))
  else if decide (op = "-") then
    gret (mkLocals a b (Int64.sub a b) (sprintf_binop a op b) op (map_index tbl op))
  else if decide (op = "*") then
    do a <- Intn 10;
    do b <- Intn 10;
    gret (mkLocals a b (Int64.mul a b) (sprintf_binop a op b) op (map_index tbl op))
  else
    gret (mkLocals a b 0 (sprintf_binop a op b) op (map_index tbl op)).

Definition gen5thGrade : Gen Locals :=
  let ops := ["+"; "-"; "*"; "/"] in
  do i <- Intn (Z.of_nat (length ops));
  do op <- glift (slice_index ops i);
  let tbl : gmap string string :=
    list_to_map [("+", "addition"); ("-", "subtraction");
                 ("*", "multiplication"); ("/", "division")] in
  if decide (op = "+") then
    do r1 <- Intn 90;
    do r2 <- Intn 90;
    let a := Int64.add r1 10 in
    let b := Int64.add r2 10 in
    gret (mkLocals a b (Int64.add a b) (sprintf_binop a op b) op (map_index tbl op))
  else if decide (op = "-") then
    do r1 <- Intn 90;
    do r2 <- Intn 90;
    let a := Int64.add r1 10 in
    let b := Int64.add r2 10 in
    gret (mkLocals a b (Int64.sub a b) (sprintf_binop a op b) op (map_index tbl op))
  else if decide (op = "*") then
    do r1 <- Intn 15;
    do r2 <- Intn 15;
    let a := Int64.add r1 1 in
    let b := Int64.add r2 1 in
    gret (mkLocals a b (Int64.mul a b) (sprintf_binop a op b) op (map_index tbl op))
  else if decide (op = "/") then
    do r1 <- Intn 15;
    let b := Int64.add r1 1 in
    do r2 <- Intn 20;
    let answer := Int64.add r2 1 in
    let a := Int64.mul b answer in
    gret (mkLocals a b answer (sprintf_binop a op b) op (map_index tbl op))
  else
    gret (mkLocals 0 0 0 (sprintf_binop 0 op 0) op (map_index tbl op)).

Definition genAlgebra : Gen Locals :=
  do format <- Intn 7;
  if format =? 0 then                                   (* x + n = m *)
    do r1 <- Intn 41;
    let x := Int64.sub r1 20 in
    do r2 <- Intn 10;
    let n := Int64.add r2 1 in
    gret (mkLocals 0 0 x
            ("x + " +:+ itoa n +:+ " = " +:+ itoa (Int64.add x n) +:+ ". What is x?")
            "" "algebra_addition")
  else if format =? 1 then                              (* x - n = m *)
    do r1 <- Intn 41;
    let x := Int64.sub r1 20 in
    do r2 <- Intn 5;
    let n := Int64.add r2 1 in
    gret (mkLocals 0 0 x
            ("x - " +:+ itoa n +:+ " = " +:+ itoa (Int64.sub x n) +:+ ". What is x?")
            "" "algebra_subtraction")
  else if format =? 2 then                              (* n + x = m *)
    do r1 <- Intn 41;
    let x := Int64.sub r1 20 in
    do r2 <- Intn 10;
    let n := Int64.add r2 1 in
    gret (mkLocals 0 0 x
            (itoa n +:+ " + x = " +:+ itoa (Int64.add x n) +:+ ". What is x?")
            "" "algebra_addition")
  else if format =? 3 then                              (* n - x = m *)
    do r1 <- Intn 41;
    let x := Int64.sub r1 20 in
    do r2 <- Intn 10;
    let n := Int64.add r2 x in
    gret (mkLocals 0 0 x
            (itoa n +:+ " - x = " +:+ itoa (Int64.sub n x) +:+ ". What is x?")
            "" "algebra_subtraction")
  else if format =? 4 then                              (* x * n = m *)
    do r1 <- Intn 41;
    let x := Int64.sub r1 20 in
    do r2 <- Intn 6;
    let n := Int64.add r2 1 in
    gret (mkLocals 0 0 x
            ("x * " +:+ itoa n +:+ " = " +:+ itoa (Int64.mul x n) +:+ ". What is x?")
            "" "algebra_multiplication")
  else if format =? 5 then                              (* x / n = m *)
    do r1 <- Intn 5;
    let n := Int64.add r1 1 in
    do r2 <- Intn 21;
    let m := Int64.sub r2 10 in
    let m := if m =? 0 then 1 else m in
    gret (mkLocals 0 0 (Int64.mul n m)
            ("x ÷ " +:+ itoa n +:+ " = " +:+ itoa m +:+ ". What is x?")
            "" "algebra_division")
  else if format =? 6 then                              (* n * x = m *)
    do r1 <- Intn 41;
    let x := Int64.sub r1 20 in
    do r2 <- Intn 6;
    let n := Int64.add r2 1 in
    gret (mkLocals 0 0 x
            (itoa n +:+ " * x = " +:+ itoa (Int64.mul x n) +:+ ". What is x?")
            "" "algebra_multiplication")
  else
    gret (mkLocals 0 0 0 "" "" "").

(** The [default] arm: simple addition. *)
Definition genFallback : Gen Locals :=
  do a <- Intn 11;
  do b <- Intn 11;
  let op := "+" in
  gret (mkLocals a b (Int64.add a b) (sprintf_binop a op b) op "addition").

(** The [switch difficulty] of lines 439-561. *)
Definition genLocals (difficulty : string) : Gen Locals :=
  if decide (difficulty = "1st Grade") then gen1stGrade
  else if decide (difficulty = "3rd Grade") then gen3rdGrade
  else if decide (difficulty = "5th Grade") then gen5thGrade
  else if decide (difficulty = "Algebra") then genAlgebra
  else genFallback.

(** [fmt.Sprintf("%s|%d", difficulty, n)]. *)
Definition sprintf_id (difficulty : string) (n : Z) : string :=
  difficulty +:+ "|" +:+ itoa n.

(** One iteration of the loop up to line 563: the locals and the id. *)
Definition attempt (difficulty : string) : Gen (Locals * string) :=
  do l <- genLocals difficulty;
  do r <- Int;
  gret (l, sprintf_id difficulty r).

(** [generateQuestion(difficulty, used)].  The map [used] is mutated in
    place by the source; here the updated set is returned next to the
    question.  [fuel] bounds the number of iterations of the [for] loop:
    every [continue] spends one unit. *)
Fixpoint generateQuestion (fuel : nat) (difficulty : string) (used : gset string)
  : Gen (Question * gset string) :=
  match fuel with
  | O => fun _ => OutOfFuel
  | S fuel' =>
      do li <- attempt difficulty;
      let l := li.1 in
      let id := li.2 in
      if decide (id ∈ used) then generateQuestion fuel' difficulty used
      else gret (mkQuestion (l_text l) (l_answer l) (l_opType l) id, {[id]} ∪ used)
  end.

(** The world in which the [k]-th retry of the loop starts: [k] failed
    iterations have consumed their draws. *)
Fixpoint after_attempts (k : nat) (difficulty : string) (w : World) : World :=
  match k with
  | O => w
  | S k' =>
      match attempt difficulty w with
      | Ok (_, w') => after_attempts k' difficulty w'
      | _ => w
      end
  end.

(** The id drawn by the iteration that starts in world [w]. *)
Definition drawn_id (difficulty : string) (w : World) : option string :=
  match attempt difficulty w with
  | Ok (li, _) => Some li.2
  | _ => None
  end.

(** The random source yields an unused id at the [k]-th retry. *)
Definition fresh_at (difficulty : string) (used : gset string) (k : nat) (w : World)
  : Prop :=
  exists id,
    drawn_id difficulty (after_attempts k difficulty w) = Some id /\ (id ∉ used).

(** [gen_post c P]: every value [c] returns satisfies [P]. *)
Definition gen_post {A} (c : Gen A) (P : A -> Prop) : Prop :=
  forall w a w', c w = Ok (a, w') -> P a.

(** [gen_total c]: [c] returns in every world. *)
Definition gen_total {A} (c : Gen A) : Prop :=
  forall w, exists a w', c w = Ok (a, w').

(** ** Messages and commands of the Bubble Tea runtime *)

Inductive KeyType : Type := KeyEnter | KeyCtrlC | KeyRunes | KeyOther.

#[global] Instance KeyType_eq_dec : EqDecision KeyType.
Proof. solve_decision. Defined.

(** A key press, by the two observations the program makes of it:
    [msg.Type] and [msg.String()]. *)
Record Key : Type := mkKey {
  key_Type : KeyType;
  key_String : string
}.

Inductive Msg : Type :=
| KeyMsg (k : Key)
| tickMsg (t : Z)
| flashDoneMsg
| flashFadeMsg
| fuseTickMsg
| pulseTickMsg
| otherMsg.

(** What a handler hands back to the runtime: timers to arm, [tea.Quit]
    or an opaque command of a widget.  A handler returns a list of them:
    [nil] is the source's [nil] command, a longer list a [tea.Batch]. *)
Inductive Cmd : Type :=
| cmdNil
| cmdTick
| cmdFlashTimeout
| cmdFlashFadeTick
| cmdFuseTick
| cmdPulseTick
| cmdQuit
| cmdWidget (token : Z).

Record difficultyItem : Type := mkItem {
  name : string;
  desc : string
}.

(** ** The collaborators

    The selectable list, the text input and [fmt.Sscanf(s, "%d", &n)]
    are code of other packages.  [Sscanf_d s] is [Some n] when the scan
    returns a nil error, having stored [n]. *)

Class Collaborators : Type := {
  list_Model : Type;
  list_New : list difficultyItem -> Z -> Z -> list_Model;
  list_SetTitle : string -> list_Model -> list_Model;
  list_Update : list_Model -> Msg -> list_Model * Cmd;
  list_SelectedItem : list_Model -> option difficultyItem;
  list_Select : Z -> list_Model -> list_Model;
  textinput_Model : Type;
  textinput_New : textinput_Model;
  textinput_Configure : string -> Z -> Z -> textinput_Model -> textinput_Model;
  textinput_Update : textinput_Model -> Msg -> textinput_Model * Cmd;
  textinput_Value : textinput_Model -> string;
  textinput_Reset : textinput_Model -> textinput_Model;
  textinput_Focus : textinput_Model -> textinput_Model;
  textinput_Blur : textinput_Model -> textinput_Model;
  Sscanf_d : string -> option Z
}.

(** ** The session state *)

Definition stateMenu : Z := 0.
Definition stateTimeSelect : Z := 1.
Definition stateRunning : Z := 2.
Definition stateResults : Z := 3.

(** [time.Second], as a [time.Duration]. *)
Definition Second : Z := 1000000000.

Record AnswerRecord : Type := mkAnswerRecord {
  Question_ : Question;      (* the field [Question] of the source *)
  Correct : bool;
  Duration : Z;
  UserInput : string
}.

Section Session.

Context `{Collaborators}.

Record model : Type := mkModel {
  state : Z;
  difficulty : string;
  timeLimit : Z;
  list_ : list_Model;
  timeList : list_Model;
  textInput : textinput_Model;
  currentQ : Question;
  usedQuestions : gset string;
  answers : list AnswerRecord;
  startTime : Z;
  totalStart : Z;
  questionStart : Z;
  timeRemaining : Z;
  timerActive : bool;
  suspendTick : bool;
  flashText : string;
  flashColor : string;
  flashActive : bool;
  flashBarAdjust : Z;
  flashFadeSteps : Z;
  flashColorOverride : string;
  fuseFrameIndex : Z;
  fuseFrames : list string
}.

Definition set_state (v : Z) (m : model) : model :=
  mkModel v (difficulty m) (timeLimit m) (list_ m) (timeList m)
    (textInput m) (currentQ m) (usedQuestions m) (answers m) (startTime m)
    (totalStart m) (questionStart m) (timeRemaining m) (timerActive m)
    (suspendTick m) (flashText m) (flashColor m) (flashActive m)
    (flashBarAdjust m) (flashFadeSteps m) (flashColorOverride m)
    (fuseFrameIndex m) (fuseFrames m).

Definition set_difficulty (v : string) (m : model) : model :=
  mkModel (state m) v (timeLimit m) (list_ m) (timeList m) (textInput m)
    (currentQ m) (usedQuestions m) (answers m) (startTime m) (totalStart m)
    (questionStart m) (timeRemaining m) (timerActive m) (suspendTick m)
    (flashText m) (flashColor m) (flashActive m) (flashBarAdjust m)
    (flashFadeSteps m) (flashColorOverride m) (fuseFrameIndex m)
    (fuseFrames m).

Definition set_timeLimit (v : Z) (m : model) : model :=
  mkModel (state m) (difficulty m) v (list_ m) (timeList m) (textInput m)
    (currentQ m) (usedQuestions m) (answers m) (startTime m) (totalStart m)
    (questionStart m) (timeRemaining m) (timerActive m) (suspendTick m)
    (flashText m) (flashColor m) (flashActive m) (flashBarAdjust m)
    (flashFadeSteps m) (flashColorOverride m) (fuseFrameIndex m)
    (fuseFrames m).

Definition set_list (v : list_Model) (m : model) : model :=
  mkModel (state m) (difficulty m) (timeLimit m) v (timeList m)
    (textInput m) (currentQ m) (usedQuestions m) (answers m) (startTime m)
    (totalStart m) (questionStart m) (timeRemaining m) (timerActive m)
    (suspendTick m) (flashText m) (flashColor m) (flashActive m)
    (flashBarAdjust m) (flashFadeSteps m) (flashColorOverride m)
    (fuseFrameIndex m) (fuseFrames m).

Definition set_timeList (v : list_Model) (m : model) : model :=
  mkModel (state m) (difficulty m) (timeLimit m) (list_ m) v (textInput m)
    (currentQ m) (usedQuestions m) (answers m) (startTime m) (totalStart m)
    (questionStart m) (timeRemaining m) (timerActive m) (suspendTick m)
    (flashText m) (flashColor m) (flashActive m) (flashBarAdjust m)
    (flashFadeSteps m) (flashColorOverride m) (fuseFrameIndex m)
    (fuseFrames m).

Definition set_textInput (v : textinput_Model) (m : model) : model :=
  mkModel (state m) (difficulty m) (timeLimit m) (list_ m) (timeList m) v
    (currentQ m) (usedQuestions m) (answers m) (startTime m) (totalStart m)
    (questionStart m) (timeRemaining m) (timerActive m) (suspendTick m)
    (flashText m) (flashColor m) (flashActive m) (flashBarAdjust m)
    (flashFadeSteps m) (flashColorOverride m) (fuseFrameIndex m)
    (fuseFrames m).

Definition set_currentQ (v : Question) (m : model) : model :=
  mkModel (state m) (difficulty m) (timeLimit m) (list_ m) (timeList m)
    (textInput m) v (usedQuestions m) (answers m) (startTime m)
    (totalStart m) (questionStart m) (timeRemaining m) (timerActive m)
    (suspendTick m) (flashText m) (flashColor m) (flashActive m)
    (flashBarAdjust m) (flashFadeSteps m) (flashColorOverride m)
    (fuseFrameIndex m) (fuseFrames m).

Definition set_usedQuestions (v : gset string) (m : model) : model :=
  mkModel (state m) (difficulty m) (timeLimit m) (list_ m) (timeList m)
    (textInput m) (currentQ m) v (answers m) (startTime m) (totalStart m)
    (questionStart m) (timeRemaining m) (timerActive m) (suspendTick m)
    (flashText m) (flashColor m) (flashActive m) (flashBarAdjust m)
    (flashFadeSteps m) (flashColorOverride m) (fuseFrameIndex m)
    (fuseFrames m).

Definition set_answers (v : list AnswerRecord) (m : model) : model :=
  mkModel (state m) (difficulty m) (timeLimit m) (list_ m) (timeList m)
    (textInput m) (currentQ m) (usedQuestions m) v (startTime m)
    (totalStart m) (questionStart m) (timeRemaining m) (timerActive m)
    (suspendTick m) (flashText m) (flashColor m) (flashActive m)
    (flashBarAdjust m) (flashFadeSteps m) (flashColorOverride m)
    (fuseFrameIndex m) (fuseFrames m).

Definition set_startTime (v : Z) (m : model) : model :=
  mkModel (state m) (difficulty m) (timeLimit m) (list_ m) (timeList m)
    (textInput m) (currentQ m) (usedQuestions m) (answers m) v
    (totalStart m) (questionStart m) (timeRemaining m) (timerActive m)
    (suspendTick m) (flashText m) (flashColor m) (flashActive m)
    (flashBarAdjust m) (flashFadeSteps m) (flashColorOverride m)
    (fuseFrameIndex m) (fuseFrames m).

Definition set_totalStart (v : Z) (m : model) : model :=
  mkModel (state m) (difficulty m) (timeLimit m) (list_ m) (timeList m)
    (textInput m) (currentQ m) (usedQuestions m) (answers m) (startTime m) v
    (questionStart m) (timeRemaining m) (timerActive m) (suspendTick m)
    (flashText m) (flashColor m) (flashActive m) (flashBarAdjust m)
    (flashFadeSteps m) (flashColorOverride m) (fuseFrameIndex m)
    (fuseFrames m).

Definition set_questionStart (v : Z) (m : model) : model :=
  mkModel (state m) (difficulty m) (timeLimit m) (list_ m) (timeList m)
    (textInput m) (currentQ m) (usedQuestions m) (answers m) (startTime m)
    (totalStart m) v (timeRemaining m) (timerActive m) (suspendTick m)
    (flashText m) (flashColor m) (flashActive m) (flashBarAdjust m)
    (flashFadeSteps m) (flashColorOverride m) (fuseFrameIndex m)
    (fuseFrames m).

Definition set_timeRemaining (v : Z) (m : model) : model :=
  mkModel (state m) (difficulty m) (timeLimit m) (list_ m) (timeList m)
    (textInput m) (currentQ m) (usedQuestions m) (answers m) (startTime m)
    (totalStart m) (questionStart m) v (timerActive m) (suspendTick m)
    (flashText m) (flashColor m) (flashActive m) (flashBarAdjust m)
    (flashFadeSteps m) (flashColorOverride m) (fuseFrameIndex m)
    (fuseFrames m).

Definition set_suspendTick (v : bool) (m : model) : model :=
  mkModel (state m) (difficulty m) (timeLimit m) (list_ m) (timeList m)
    (textInput m) (currentQ m) (usedQuestions m) (answers m) (startTime m)
    (totalStart m) (questionStart m) (timeRemaining m) (timerActive m) v
    (flashText m) (flashColor m) (flashActive m) (flashBarAdjust m)
    (flashFadeSteps m) (flashColorOverride m) (fuseFrameIndex m)
    (fuseFrames m).

Definition set_flashText (v : string) (m : model) : model :=
  mkModel (state m) (difficulty m) (timeLimit m) (list_ m) (timeList m)
    (textInput m) (currentQ m) (usedQuestions m) (answers m) (startTime m)
    (totalStart m) (questionStart m) (timeRemaining m) (timerActive m)
    (suspendTick m) v (flashColor m) (flashActive m) (flashBarAdjust m)
    (flashFadeSteps m) (flashColorOverride m) (fuseFrameIndex m)
    (fuseFrames m).

Definition set_flashColor (v : string) (m : model) : model :=
  mkModel (state m) (difficulty m) (timeLimit m) (list_ m) (timeList m)
    (textInput m) (currentQ m) (usedQuestions m) (answers m) (startTime m)
    (totalStart m) (questionStart m) (timeRemaining m) (timerActive m)
    (suspendTick m) (flashText m) v (flashActive m) (flashBarAdjust m)
    (flashFadeSteps m) (flashColorOverride m) (fuseFrameIndex m)
    (fuseFrames m).

Definition set_flashActive (v : bool) (m : model) : model :=
  mkModel (state m) (difficulty m) (timeLimit m) (list_ m) (timeList m)
    (textInput m) (currentQ m) (usedQuestions m) (answers m) (startTime m)
    (totalStart m) (questionStart m) (timeRemaining m) (timerActive m)
    (suspendTick m) (flashText m) (flashColor m) v (flashBarAdjust m)
    (flashFadeSteps m) (flashColorOverride m) (fuseFrameIndex m)
    (fuseFrames m).

Definition set_flashBarAdjust (v : Z) (m : model) : model :=
  mkModel (state m) (difficulty m) (timeLimit m) (list_ m) (timeList m)
    (textInput m) (currentQ m) (usedQuestions m) (answers m) (startTime m)
    (totalStart m) (questionStart m) (timeRemaining m) (timerActive m)
    (suspendTick m) (flashText m) (flashColor m) (flashActive m) v
    (flashFadeSteps m) (flashColorOverride m) (fuseFrameIndex m)
    (fuseFrames m).

Definition set_flashFadeSteps (v : Z) (m : model) : model :=
  mkModel (state m) (difficulty m) (timeLimit m) (list_ m) (timeList m)
    (textInput m) (currentQ m) (usedQuestions m) (answers m) (startTime m)
    (totalStart m) (questionStart m) (timeRemaining m) (timerActive m)
    (suspendTick m) (flashText m) (flashColor m) (flashActive m)
    (flashBarAdjust m) v (flashColorOverride m) (fuseFrameIndex m)
    (fuseFrames m).

Definition set_flashColorOverride (v : string) (m : model) : model :=
  mkModel (state m) (difficulty m) (timeLimit m) (list_ m) (timeList m)
    (textInput m) (currentQ m) (usedQuestions m) (answers m) (startTime m)
    (totalStart m) (questionStart m) (timeRemaining m) (timerActive m)
    (suspendTick m) (flashText m) (flashColor m) (flashActive m)
    (flashBarAdjust m) (flashFadeSteps m) v (fuseFrameIndex m)
    (fuseFrames m).

Definition set_fuseFrameIndex (v : Z) (m : model) : model :=
  mkModel (state m) (difficulty m) (timeLimit m) (list_ m) (timeList m)
    (textInput m) (currentQ m) (usedQuestions m) (answers m) (startTime m)
    (totalStart m) (questionStart m) (timeRemaining m) (timerActive m)
    (suspendTick m) (flashText m) (flashColor m) (flashActive m)
    (flashBarAdjust m) (flashFadeSteps m) (flashColorOverride m) v
    (fuseFrames m).

(** [initialModel()]. *)
Definition initialModel : model :=
  let diffItems :=
    [ mkItem "1st Grade" "Basic single-digit addition and subtraction";
      mkItem "3rd Grade" "Larger numbers and simple multiplication";
      mkItem "5th Grade" "Two-digit operations";
      mkItem "Algebra" "Variables and expressions" ] in
  let timeItems :=
    [ mkItem "30s" "Brain Storm";
      mkItem "60s" "Normal Person";
      mkItem "90s" "Ok, Boomer";
      mkItem "2m" "Marathon" ] in
  let defaultWidth := 80 in
  let defaultHeight := 20 in
  let diffList :=
    list_SetTitle "Select Difficulty Level"
      (list_New diffItems defaultWidth defaultHeight) in
  let timeList :=
    list_SetTitle "Select Quiz Duration"
      (list_New timeItems defaultWidth defaultHeight) in
  let textInput :=
    textinput_Configure "Your answer" 5 20 (textinput_Focus textinput_New) in
  let fuseFrames := ["*"; "✨"; "·"; "✶"] in
  mkModel stateMenu "" 0 diffList timeList textInput
    (mkQuestion "" 0 "" "") ∅ [] 0 0 0 0 false false
    "" "" false 0 0 "" 0 fuseFrames.

(** The bell character written when the time is up. *)
Definition bell : string := String (Ascii.ascii_of_nat 7) EmptyString.

Definition Handler : Type := World -> result (model * list Cmd * World).

(** [case stateMenu] of [Update], lines 127-143. *)
Definition updateMenu (m : model) (msg : Msg) : Handler := fun w =>
  let '(l, cmd) := list_Update (list_ m) msg in
  let m := set_list l m in
  match msg with
  | KeyMsg k =>
      if decide (key_Type k = KeyEnter) then
        match list_SelectedItem (list_ m) with
        | Some selected =>
            let m := set_difficulty (name selected) m in
            let m := set_state stateTimeSelect m in
            Ok (m, [cmd], w)
        | None => Ok (m, [cmd], w)
        end
      else if decide (key_Type k = KeyCtrlC ∨ key_String k = "q") then
        Ok (m, [cmdQuit], w)
      else Ok (m, [cmd], w)
  | _ => Ok (m, [cmd], w)
  end.

(** The [switch selected.name] of lines 155-164. *)
Definition selectTimeLimit (label : string) (m : model) : model :=
  if decide (label = "30s") then set_timeLimit 30 m
  else if decide (label = "60s") then set_timeLimit 60 m
  else if decide (label = "90s") then set_timeLimit 90 m
  else if decide (label = "2m") then set_timeLimit 120 m
  else m.

(** [case stateTimeSelect] of [Update], lines 145-181. *)
Definition updateTimeSelect (fuel : nat) (m : model) (msg : Msg) : Handler := fun w =>
  let '(l, cmd) := list_Update (timeList m) msg in
  let m := set_timeList l m in
  match msg with
  | KeyMsg k =>
      if decide (key_String k = "enter") then
        match list_SelectedItem (timeList m) with
        | Some selected =>
            let m := selectTimeLimit (name selected) m in
            match generateQuestion fuel (difficulty m) (usedQuestions m) w with
            | Ok (q, used, w) =>
                let m := set_usedQuestions used (set_currentQ q m) in
                let '(t, w) := Now w in
                let m := set_totalStart t m in
                let '(t, w) := Now w in
                let m := set_questionStart t m in
                let m := set_timeRemaining (Int64.mul (timeLimit m) Second) m in
                let m := set_state stateRunning m in
                let '(t, w) := Now w in
                let m := set_startTime t m in
                Ok (m, [cmdTick; cmdFuseTick; cmdPulseTick], w)
            | Panic why => Panic why
            | OutOfFuel => OutOfFuel
            end
        | None => Ok (m, [cmd], w)
        end
      else if decide (key_String k = "left") then
        Ok (set_state stateMenu m, [cmd], w)
      else if decide (key_String k = "q") then
        Ok (m, [cmdQuit], w)
      else Ok (m, [cmd], w)
  | _ => Ok (m, [cmd], w)
  end.

(** The scoring of a submitted answer, lines 246-279: [userInput] is the
    text of the input box and [userAns] the integer scanned from it. *)
Definition scoreAnswer (userInput : string) (userAns : Z) (m : model) : Handler := fun w =>
  let correct := userAns =? Answer (currentQ m) in
  let '(now, w) := Now w in
  let m := set_answers
             (answers m ++
                [mkAnswerRecord (currentQ m) correct
                   (Int64.sub now (questionStart m)) userInput])%list m in
  let m :=
    if correct then
      let m := set_flashText "Correct!" m in
      let m := set_flashColor "green" m in
      let m := set_flashBarAdjust 1 m in
      let m := set_flashColorOverride "brightGreen" m in
      let m := set_timeRemaining (Int64.add (timeRemaining m) Second) m in
      if timeRemaining m >? Int64.mul (timeLimit m) Second
      then set_timeRemaining (Int64.mul (timeLimit m) Second) m
      else m
    else
      let m := set_flashText "Incorrect!" m in
      let m := set_flashColor "red" m in
      let m := set_flashBarAdjust (-1) m in
      let m := set_flashColorOverride "brightRed" m in
      let m := set_timeRemaining (Int64.sub (timeRemaining m) Second) m in
      if timeRemaining m <? Second
      then set_timeRemaining Second m
      else m in
  let m := set_flashFadeSteps 3 m in
  let m := set_suspendTick true m in
  let m := set_flashActive true m in
  let m := set_textInput (textinput_Blur (textInput m)) m in
  Ok (m, [cmdFlashTimeout; cmdFlashFadeTick], w).

(** The second half of [case stateRunning], lines 216-292: the text
    input sees the message, then the program handles it.  [cmds] are the
    commands gathered so far. *)
Definition updateRunningInput (fuel : nat) (m : model) (msg : Msg) (cmds : list Cmd)
  : Handler := fun w =>
  let '(ti, cmd) := textinput_Update (textInput m) msg in
  let m := set_textInput ti m in
  let cmds := (cmds ++ [cmd])%list in
  match msg with
  | flashDoneMsg =>
      let m := set_flashActive false m in
      let m := set_flashColorOverride "" m in
      let m := set_flashBarAdjust 0 m in
      let m := set_textInput (textinput_Reset (textInput m)) m in
      let m := set_textInput (textinput_Focus (textInput m)) m in
      match generateQuestion fuel (difficulty m) (usedQuestions m) w with
      | Ok (q, used, w) =>
          let m := set_usedQuestions used (set_currentQ q m) in
          let m := set_suspendTick false m in
          let '(t, w) := Now w in
          let m := set_questionStart t m in
          Ok (m, cmds, w)
      | Panic why => Panic why
      | OutOfFuel => OutOfFuel
      end
  | flashFadeMsg =>
      if flashFadeSteps m >? 0 then
        let m := set_flashFadeSteps (Int64.sub (flashFadeSteps m) 1) m in
        if flashFadeSteps m =? 0
        then Ok (set_flashColorOverride "" m, cmds, w)
        else Ok (m, [cmdFlashFadeTick], w)
      else Ok (m, cmds, w)
  | KeyMsg k =>
      if decide (key_String k = "enter") then
        let userInput := textinput_Value (textInput m) in
        match Sscanf_d userInput with
        | Some userAns => scoreAnswer userInput userAns m w
        | None => Ok (m, cmds, w)
        end
      else if decide (key_String k = "q") then
        let m := set_state stateMenu m in
        let m := set_list (list_Select 0 (list_ m)) m in
        let m := set_timeList (list_Select 0 (timeList m)) m in
        let m := set_textInput (textinput_Reset (textInput m)) m in
        let m := set_usedQuestions ∅ m in
        let m := set_answers [] m in
        Ok (m, [], w)
      else Ok (m, cmds, w)
  | _ => Ok (m, cmds, w)
  end.

(** [len(m.fuseFrames)]. *)
Definition len {A} (l : list A) : Z := Z.of_nat (length l).

(** [case stateRunning] of [Update], lines 183-292. *)
Definition updateRunning (fuel : nat) (m : model) (msg : Msg) : Handler := fun w =>
  match msg with
  | tickMsg _ =>
      let m :=
        if suspendTick m then m
        else set_timeRemaining (Int64.sub (timeRemaining m) Second) m in
      if timeRemaining m <=? 0 then
        Ok (set_state stateResults m, [], Print bell w)
      else updateRunningInput fuel m msg [cmdTick] w
  | fuseTickMsg =>
      if len (fuseFrames m) =? 0 then Panic "integer divide by zero"
      else
        let m := set_fuseFrameIndex
                   (Z.rem (Int64.add (fuseFrameIndex m) 1) (len (fuseFrames m))) m in
        Ok (m, [cmdFuseTick], w)
  | pulseTickMsg =>
      let m :=
        if timeRemaining m <=? 10 * Second then
          let m := set_flashFadeSteps 1 m in
          if decide (flashColorOverride m = "")
          then set_flashColorOverride "brightRed" m
          else set_flashColorOverride "" m
        else m in
      Ok (m, [cmdPulseTick], w)
  | _ => updateRunningInput fuel m msg [] w
  end.

(** [case stateResults] of [Update], lines 294-305, with the final
    [return m, nil]. *)
Definition updateResults (m : model) (msg : Msg) : Handler := fun w =>
  match msg with
  | KeyMsg k =>
      if decide (key_String k = "left") then
        let m := set_state stateMenu m in
        let m := set_list (list_Select 0 (list_ m)) m in
        let m := set_timeList (list_Select 0 (timeList m)) m in
        let m := set_textInput (textinput_Reset (textInput m)) m in
        let m := set_answers [] m in
        let m := set_usedQuestions ∅ m in
        Ok (m, [], w)
      else Ok (m, [], w)
  | _ => Ok (m, [], w)
  end.

(** [func (m model) Update(msg tea.Msg) (tea.Model, tea.Cmd)]. *)
Definition Update (fuel : nat) (m : model) (msg : Msg) : Handler :=
  if state m =? stateMenu then updateMenu m msg
  else if state m =? stateTimeSelect then updateTimeSelect fuel m msg
  else if state m =? stateRunning then updateRunning fuel m msg
  else if state m =? stateResults then updateResults m msg
  else fun w => Ok (set_state stateMenu m, [], w).

(** *** What the properties speak of *)

(** The text of the input box once it has seen [msg]. *)
Definition inputAfter (m : model) (msg : Msg) : textinput_Model :=
  (textinput_Update (textInput m) msg).1.

Definition rawInput (m : model) (msg : Msg) : string :=
  textinput_Value (inputAfter m msg).

(** [timeRemaining] after lines 253-271, for an answer that is
    [correct] or not. *)
Definition scoredTime (correct : bool) (m : model) : Z :=
  if correct then
    if Int64.add (timeRemaining m) Second >? Int64.mul (timeLimit m) Second
    then Int64.mul (timeLimit m) Second
    else Int64.add (timeRemaining m) Second
  else
    if Int64.sub (timeRemaining m) Second <? Second
    then Second
    else Int64.sub (timeRemaining m) Second.

(** The largest [timeLimit], in seconds, for which neither
    [timeLimit * time.Second] nor one more second overflows a
    [time.Duration]; the program only sets 30, 60, 90 and 120. *)
Definition maxTimeLimit : Z := 9223372035.

(** What a pulse tick does to the model while Running. *)
Definition pulsed (m : model) : model :=
  if timeRemaining m <=? 10 * Second then
    set_flashColorOverride
      (if decide (flashColorOverride m = "") then "brightRed" else "")
      (set_flashFadeSteps 1 m)
  else m.

(** The states the program can be in: the initial model, and whatever
    [Update] returns from a reachable state for some message, in some
    world. *)
Inductive reachable : model -> Prop :=
| reachable_init : reachable initialModel
| reachable_step fuel m msg w m' cmds w' :
    reachable m ->
    Update fuel m msg w = Ok (m', cmds, w') ->
    reachable m'.

Definition valid_state (m : model) : Prop :=
  state m = stateMenu \/ state m = stateTimeSelect \/
  state m = stateRunning \/ state m = stateResults.

(** Outside an episode nothing of an earlier one is left. *)
Definition clean_outside_episode (m : model) : Prop :=
  state m = stateMenu \/ state m = stateTimeSelect ->
  answers m = [] /\ usedQuestions m = ∅.

(** The only time limits the program ever holds: 0 before the first
    episode, then one of the four durations.  All are below
    [maxTimeLimit]. *)
Definition known_timeLimit (m : model) : Prop :=
  In (timeLimit m) [0; 30; 60; 90; 120].

(** The labels of the duration list and the seconds they stand for. *)
Definition durations : list (string * Z) :=
  [("30s", 30); ("60s", 60); ("90s", 90); ("2m", 120)].

End Session.

(** ** The countdown bar *)

(** The float64 operations [renderCountdownBar] uses; the properties
    below hold whatever these compute. *)
Class Float64 : Type := {
  float64 : Type;
  float64_of_int : Z -> float64;          (* float64(n) *)
  float64_div : float64 -> float64 -> float64;
  float64_mul : float64 -> float64 -> float64;
  float64_gt : float64 -> float64 -> bool;
  int_of_float64 : float64 -> Z;          (* int(x) *)
  float64_0_5 : float64;
  float64_0_2 : float64
}.

(** The [lipgloss] styles of lines 622-628; [noStyle] is the zero
    [lipgloss.Style], [fuseStyle] the one built at line 669. *)
Inductive Style : Type :=
| greenBar | yellowBar | redBar | brightGreen | brightRed | noStyle | fuseStyle.

(** [style.Render(s)] of the terminal styling layer. *)
Class Lipgloss : Type := {
  Render : Style -> string -> string
}.

(** One column of the bar. *)
Inductive Cell : Type :=
| cellFuse (fuseChar : string)
| cellBlock (barColor : Style)
| cellSpace.

Section CountdownBar.

Context `{Float64} `{Lipgloss}.

(** [percent], line 636. *)
Definition barPercent (timeRemaining totalTime : Z) : float64 :=
  float64_div (float64_of_int timeRemaining) (float64_of_int totalTime).

(** [filled] as it stands after line 644. *)
Definition barFilled (timeRemaining totalTime width adjust : Z) : Z :=
  let percent := barPercent timeRemaining totalTime in
  let filled := int_of_float64 (float64_mul percent (float64_of_int width)) in
  let filled := Int64.add filled adjust in
  let filled := if filled >? width then width else filled in
  let filled := if filled <? 0 then 0 else filled in
  filled.

(** [barColor] as it stands after line 664. *)
Definition barColorOf (timeRemaining totalTime : Z) (flashColorOverride : string) : Style :=
  let percent := barPercent timeRemaining totalTime in
  if decide (flashColorOverride ≠ "") then
    if decide (flashColorOverride = "brightGreen") then brightGreen
    else if decide (flashColorOverride = "brightRed") then brightRed
    else noStyle
  else
    if float64_gt percent float64_0_5 then greenBar
    else if float64_gt percent float64_0_2 then yellowBar
    else redBar.

(** The loop of lines 667-676, from column [i]; [steps] is the number of
    iterations left, [width - i]. *)
Fixpoint barLoop (steps : nat) (i filled : Z) (barColor : Style) (fuseChar : string)
  : list Cell :=
  match steps with
  | O => []
  | S steps' =>
      (if i =? Int64.sub filled 1 then cellFuse fuseChar
       else if i <? filled then cellBlock barColor
       else cellSpace)
      :: barLoop steps' (Int64.add i 1) filled barColor fuseChar
  end.

(** The columns of the bar. *)
Definition barCells (timeRemaining totalTime width adjust : Z)
    (flashColorOverride fuseChar : string) : list Cell :=
  barLoop (Z.to_nat width) 0
    (barFilled timeRemaining totalTime width adjust)
    (barColorOf timeRemaining totalTime flashColorOverride) fuseChar.

(** A column that shows a glyph: the fuse or a block. *)
Definition drawn (c : Cell) : bool :=
  match c with
  | cellSpace => false
  | _ => true
  end.

Definition renderCell (c : Cell) : string :=
  match c with
  | cellFuse fuseChar => Render fuseStyle fuseChar
  | cellBlock barColor => Render barColor "█"
  | cellSpace => " "
  end.

Fixpoint concat_strings (l : list string) : string :=
  match l with
  | [] => ""
  | x :: l' => x +:+ concat_strings l'
  end.

(** [renderCountdownBar(timeRemaining, totalTime, width, adjust,
    flashColorOverride, fuseChar)]. *)
Definition renderCountdownBar (timeRemaining totalTime width adjust : Z)
    (flashColorOverride fuseChar : string) : string :=
  if timeRemaining <=? 0 then "💥 TIME'S UP! 💥"
  else
    "💣[" +:+
    concat_strings
      (map renderCell
         (barCells timeRemaining totalTime width adjust flashColorOverride fuseChar))
    +:+ "]".

End CountdownBar.

(** ** Reference collaborators

    Small executable implementations of the interfaces, used to run the
    embedding on concrete inputs. *)

Module Reference.

Record RList : Type := mkRList {
  items : list difficultyItem;
  title : string;
  cursor : nat
}.

Record RInput : Type := mkRInput {
  value : string;
  focus : bool;
  charLimit : Z
}.

Definition is_digit (c : Ascii.ascii) : bool :=
  let n := Ascii.nat_of_ascii c in (48 <=? n)%nat && (n <=? 57)%nat.

Definition digit_val (c : Ascii.ascii) : Z :=
  Z.of_nat (Ascii.nat_of_ascii c) - 48.

(** Reads the digits at the head of [s]; [acc] is the value so far and
    [seen] tells whether a digit was read. *)
Fixpoint scan_digits (s : string) (acc : Z) (seen : bool) : option Z :=
  match s with
  | String c s' =>
      if is_digit c then scan_digits s' (10 * acc + digit_val c) true
      else if seen then Some acc else None
  | EmptyString => if seen then Some acc else None
  end.

Fixpoint skip_spaces (s : string) : string :=
  match s with
  | String c s' => if Ascii.eqb c " "%char then skip_spaces s' else s
  | EmptyString => s
  end.

(** A decimal scan in the manner of the verb [%d]: leading spaces, an
    optional sign, at least one digit; what follows the digits is left
    unread. *)
Definition scan_decimal (s : string) : option Z :=
  match skip_spaces s with
  | String "-"%char s' => Z.opp <$> scan_digits s' 0 false
  | String "+"%char s' => scan_digits s' 0 false
  | s' => scan_digits s' 0 false
  end.

Definition rlist_update (l : RList) (msg : Msg) : RList * Cmd :=
  match msg with
  | KeyMsg k =>
      if decide (key_String k = "down") then
        (mkRList (items l) (title l)
           (if decide (S (cursor l) < length (items l))%nat
            then S (cursor l) else cursor l), cmdNil)
      else if decide (key_String k = "up") then
        (mkRList (items l) (title l) (pred (cursor l)), cmdNil)
      else (l, cmdNil)
  | _ => (l, cmdNil)
  end.

Definition rinput_update (t : RInput) (msg : Msg) : RInput * Cmd :=
  if focus t then
    match msg with
    | KeyMsg k =>
        match key_Type k with
        | KeyRunes =>
            if Z.of_nat (String.length (value t +:+ key_String k)) <=? charLimit t
            then (mkRInput (value t +:+ key_String k) true (charLimit t), cmdNil)
            else (t, cmdNil)
        | _ => (t, cmdNil)
        end
    | _ => (t, cmdNil)
    end
  else (t, cmdNil).

#[export] Instance collaborators : Collaborators := {|
  list_Model := RList;
  list_New := fun its _ _ => mkRList its "" 0;
  list_SetTitle := fun ttl l => mkRList (items l) ttl (cursor l);
  list_Update := rlist_update;
  list_SelectedItem := fun l => items l !! cursor l;
  list_Select := fun i l => mkRList (items l) (title l) (Z.to_nat i);
  textinput_Model := RInput;
  textinput_New := mkRInput "" false 0;
  textinput_Configure := fun _ limit _ t => mkRInput (value t) (focus t) limit;
  textinput_Update := rinput_update;
  textinput_Value := value;
  textinput_Reset := fun t => mkRInput "" (focus t) (charLimit t);
  textinput_Focus := fun t => mkRInput (value t) true (charLimit t);
  textinput_Blur := fun t => mkRInput (value t) false (charLimit t);
  Sscanf_d := scan_decimal
|}.

(** Exact rational arithmetic in place of float64. *)
#[export] Instance exact_float64 : Float64 := {|
  float64 := Q;
  float64_of_int := inject_Z;
  float64_div := Qdiv;
  float64_mul := Qmult;
  float64_gt := fun x y => negb (Qle_bool x y);
  int_of_float64 := fun x => Z.quot (Qnum x) (Z.pos (Qden x));
  float64_0_5 := (1 # 2)%Q;
  float64_0_2 := (1 # 5)%Q
|}.

(** A terminal without colours. *)
#[export] Instance plain_terminal : Lipgloss := {|
  Render := fun _ s => s
|}.

Definition tape_of (l : list Z) : nat -> Z := fun k => nth k l 0.

(** A world whose random source yields the numbers of [l], then zeros,
    and whose clock advances by one second per reading. *)
Definition world_of (l : list Z) : World :=
  mkWorld (tape_of l) 0 (fun k => Z.of_nat k * Second) 0 [].

Definition key (t : KeyType) (s : string) : Msg := KeyMsg (mkKey t s).
Definition enter : Msg := key KeyEnter "enter".

(** Runs [Update] over a list of messages. *)
Fixpoint run (fuel : nat) (m : model) (msgs : list Msg) (w : World)
  : result (model * World) :=
  match msgs with
  | [] => Ok (m, w)
  | msg :: msgs' =>
      match Update fuel m msg w with
      | Ok (m', _, w') => run fuel m' msgs' w'
      | Panic why => Panic why
      | OutOfFuel => OutOfFuel
      end
  end.

(** What the examples look at in the outcome of a run: the state, the
    time limit, the time left, the current question, the used ids and
    the history as pairs of a question and the verdict on its answer. *)
Definition observe (r : result (model * World))
  : option (Z * Z * Z * Question * list string * list (Question * bool)) :=
  match r with
  | Ok (m, _) =>
      Some (state m, timeLimit m, timeRemaining m, currentQ m,
            elements (usedQuestions m),
            map (fun a => (Question_ a, Correct a)) (answers m))
  | _ => None
  end.

(** The world [world_of l] once [n] random numbers were drawn. *)
Definition world_after (l : list Z) (n : nat) : World :=
  mkWorld (tape_of l) n (fun k => Z.of_nat k * Second) 0 [].

(** Sample states. *)
Definition sampleQuestion : Question :=
  mkQuestion "7 - 3 = ?" 4 "subtraction" "1st Grade|42".

(** A Running state of a 30-second session on [sampleQuestion], with
    [remaining] nanoseconds left and [typed] in the input box; [flash]
    tells whether an answer was just scored. *)
Definition sampleRunning (remaining : Z) (typed : string) (flash : bool) : model :=
  mkModel stateRunning "1st Grade" 30
    (list_ initialModel) (timeList initialModel)
    (mkRInput typed (negb flash) 5)
    sampleQuestion {["1st Grade|42"]} [] 0 0 0 remaining false flash
    "" "" flash 0 0 "" 0 (fuseFrames initialModel).

(** The state after 1st Grade was confirmed in the menu. *)
Definition sampleTimeSelect : model :=
  set_state stateTimeSelect (set_difficulty "1st Grade" initialModel).

End Reference.


(** ** Descriptions of questions *)

(** The question [q] shows [a op b = ?], is tagged [opType] and has
    [answer] for its answer. *)
Definition binop_question (q : Question) (a : Z) (op : string) (b : Z)
    (opType : string) (answer : Z) : Prop :=
  Text q = sprintf_binop a op b /\ OpType q = opType /\ Answer q = answer.

(** The locals in terms of what the question will show. *)
Definition locals_binop (l : Locals) (a : Z) (op : string) (b : Z)
    (opType : string) (answer : Z) : Prop :=
  l_text l = sprintf_binop a op b /\ l_opType l = opType /\ l_answer l = answer.

(** The difficulty labels with an arm of their own in [generateQuestion]. *)
Definition knownDifficulties : list string :=
  ["1st Grade"; "3rd Grade"; "5th Grade"; "Algebra"].

(** [strings.HasPrefix(s, prefix)]. *)
Fixpoint HasPrefix (s prefix : string) : bool :=
  match prefix with
  | EmptyString => true
  | String c prefix' =>
      match s with
      | EmptyString => false
      | String d s' => Ascii.eqb c d && HasPrefix s' prefix'
      end
  end.

(** The seven templates of the Algebra tier: the text shown, the tag and
    the answer.  In each the right-hand side shown is the value of the
    left-hand side at the answer. *)
Inductive algebra_template : string -> string -> Z -> Prop :=
| tpl_x_plus_n x n :
    -20 <= x <= 20 -> 1 <= n <= 10 ->
    algebra_template
      ("x + " +:+ itoa n +:+ " = " +:+ itoa (x + n) +:+ ". What is x?")
      "algebra_addition" x
| tpl_x_minus_n x n :
    -20 <= x <= 20 -> 1 <= n <= 5 ->
    algebra_template
      ("x - " +:+ itoa n +:+ " = " +:+ itoa (x - n) +:+ ". What is x?")
      "algebra_subtraction" x
| tpl_n_plus_x x n :
    -20 <= x <= 20 -> 1 <= n <= 10 ->
    algebra_template
      (itoa n +:+ " + x = " +:+ itoa (x + n) +:+ ". What is x?")
      "algebra_addition" x
| tpl_n_minus_x x n :
    -20 <= x <= 20 -> x <= n <= x + 9 ->
    algebra_template
      (itoa n +:+ " - x = " +:+ itoa (n - x) +:+ ". What is x?")
      "algebra_subtraction" x
| tpl_x_times_n x n :
    -20 <= x <= 20 -> 1 <= n <= 6 ->
    algebra_template
      ("x * " +:+ itoa n +:+ " = " +:+ itoa (x * n) +:+ ". What is x?")
      "algebra_multiplication" x
| tpl_x_div_n n m :
    1 <= n <= 5 -> -10 <= m <= 10 -> m <> 0 ->
    algebra_template
      ("x ÷ " +:+ itoa n +:+ " = " +:+ itoa m +:+ ". What is x?")
      "algebra_division" (n * m)
| tpl_n_times_x x n :
    -20 <= x <= 20 -> 1 <= n <= 6 ->
    algebra_template
      (itoa n +:+ " * x = " +:+ itoa (x * n) +:+ ". What is x?")
      "algebra_multiplication" x.

(** The tags of the two buckets of the results page. *)
Definition arithmeticTags : list string :=
  ["addition"; "subtraction"; "multiplication"; "division"].

Definition algebraTags : list string :=
  ["algebra_addition"; "algebra_subtraction"; "algebra_multiplication";
   "algebra_division"].

(** ** The views *)

(** What [View] needs from outside the repository: the views of the two
    widgets, the padded and the bold rendering of [lipgloss], the two
    uses of the float64 [Duration.Seconds()], and the order in which a
    [range] over the map [opDurations] visits its keys, which the
    language leaves open: each key once, in any order. *)
Class ViewLayer `{Collaborators} : Type := {
  list_View : list_Model -> string;
  textinput_View : textinput_Model -> string;
  RenderPadded : string -> string;
  RenderBold : string -> string -> string;     (* colour code, text *)
  Seconds_int : Z -> Z;                        (* int(d.Seconds()) *)
  Sprintf_seconds : Z -> string;               (* Sprintf("%.2f", d.Seconds()) *)
  range_order : gmap string (list Z) -> list string;
  range_order_keys :
    forall od : gmap string (list Z), range_order od ≡ₚ (map_to_list od).*1
}.

(** The line feed and the escape character. *)
Definition nl : string := String (Ascii.ascii_of_nat 10) EmptyString.
Definition esc : string := String (Ascii.ascii_of_nat 27) EmptyString.

(** The constant [clearScreen], ESC [ H ESC [ 2 J. *)
Definition clearScreen : string := esc +:+ "[H" +:+ esc +:+ "[2J".

(** [s[i]] on a slice of strings: a run-time panic outside [0, len). *)
Definition slice_at (l : list string) (i : Z) : result string :=
  if (i <? 0) || (len l <=? i) then Panic "index out of range"
  else match l !! Z.to_nat i with
       | Some s => Ok s
       | None => Panic "index out of range"
       end.

(** [a / b] on 64-bit integers: a run-time panic when [b] is 0,
    truncation towards zero otherwise. *)
Definition div64 (a b : Z) : result Z :=
  if b =? 0 then Panic "integer divide by zero"
  else Ok (Int64.wrap (Z.quot a b)).

(** The loop [for _, t := range times { total += t }]. *)
Definition sum64 (times : list Z) : Z :=
  fold_left Int64.add times 0.

(** [s] without its first [n] characters. *)
Fixpoint drop_string (n : nat) (s : string) : string :=
  match n, s with
  | S n', String _ s' => drop_string n' s'
  | _, _ => s
  end.

(** [strings.TrimPrefix(s, prefix)]. *)
Definition TrimPrefix (s prefix : string) : string :=
  if HasPrefix s prefix then drop_string (String.length prefix) s else s.

(** What the first loop of the results page gathers, lines 351-368. *)
Record Stats : Type := mkStats {
  st_correct : Z;
  st_total : Z;
  st_totalDuration : Z;
  st_opDurations : gmap string (list Z);
  st_missed : list string
}.

Definition noStats : Stats := mkStats 0 0 0 ∅ [].

(** The entry of [missed] for the record [a] at index [i]. *)
Definition missedLine (i : Z) (a : AnswerRecord) : string :=
  "  Question #" +:+ itoa (Int64.add i 1) +:+ ": " +:+ Text (Question_ a) +:+ nl +:+
  "    Your Answer: " +:+ UserInput a +:+ nl +:+
  "    Correct Answer: " +:+ itoa (Answer (Question_ a)).

(** The records of a history, each with its index. *)
Definition indexed_from (i : Z) (answers : list AnswerRecord)
  : list (Z * AnswerRecord) :=
  zip (seqZ i (len answers)) answers.

(** The loop [for i, a := range m.answers], from index [i] on. *)
Fixpoint gatherStats (i : Z) (answers : list AnswerRecord) (st : Stats) : Stats :=
  match answers with
  | [] => st
  | a :: rest =>
      let total := Int64.add (st_total st) 1 in
      let correct := if Correct a then Int64.add (st_correct st) 1 else st_correct st in
      let missed :=
        if Correct a then st_missed st
        else (st_missed st ++ [missedLine i a])%list in
      let totalDuration := Int64.add (st_totalDuration st) (Duration a) in
      let op := OpType (Question_ a) in
      let opDurations :=
        <[op := (default [] (st_opDurations st !! op) ++ [Duration a])%list]>
          (st_opDurations st) in
      gatherStats (i + 1) rest
        (mkStats correct total totalDuration opDurations missed)
  end.

(** The loop that sorts the op types into the two groups, lines
    383-389: the Arithmetic list and the Algebra list. *)
Fixpoint groupOps (ops : list string) (arithmetic algebra : list string)
  : list string * list string :=
  match ops with
  | [] => (arithmetic, algebra)
  | op :: ops' =>
      if HasPrefix op "algebra_"
      then groupOps ops' arithmetic (algebra ++ [op])%list
      else groupOps ops' (arithmetic ++ [op])%list algebra
  end.

(** The correct answers of the Running view, lines 321-326. *)
Definition countCorrect (answers : list AnswerRecord) : Z :=
  fold_left (fun c a => if Correct a then Int64.add c 1 else c) answers 0.

(** The banner put before the results when the time is used up. *)
Definition banner : string :=
  nl +:+ nl +:+ "💣💥 BOOM! TIME’S UP! 💥💣" +:+ nl +:+ nl.

Section Views.

Context `{ViewLayer} `{Float64} `{Lipgloss}.

(** One line of a group, lines 396-406. *)
Definition opLine (group op : string) (od : gmap string (list Z)) : result string :=
  let times := default [] (od !! op) in
  match div64 (sum64 times) (len times) with
  | Ok avg =>
      let label := TrimPrefix op "algebra_" in
      let label :=
        if decide (group = "Algebra") then "algebra (" +:+ label +:+ ")" else label in
      Ok ("  Avg time (" +:+ label +:+ "): " +:+ Sprintf_seconds avg +:+ "s" +:+ nl)
  | Panic why => Panic why
  | OutOfFuel => OutOfFuel
  end.

(** The inner loop [for _, op := range groups[group]]. *)
Fixpoint opLines (group : string) (ops : list string) (od : gmap string (list Z))
    (text : string) : result string :=
  match ops with
  | [] => Ok text
  | op :: ops' =>
      match opLine group op od with
      | Ok line => opLines group ops' od (text +:+ line)
      | Panic why => Panic why
      | OutOfFuel => OutOfFuel
      end
  end.

(** One turn of the loop over the two group names, lines 392-409. *)
Definition groupBlock (group : string) (ops : list string)
    (od : gmap string (list Z)) (text : string) : result string :=
  if len ops >? 0
  then opLines group ops od (text +:+ nl +:+ group +:+ ":" +:+ nl)
  else Ok text.

(** The loop over [missed], lines 411-416. *)
Definition missedBlock (missed : list string) (text : string) : string :=
  if len missed >? 0
  then fold_left (fun t line => t +:+ line +:+ nl) missed
         (text +:+ nl +:+ "Incorrect Answers:" +:+ nl)
  else text.

(** The variable [result] of the results page as it is handed to the
    renderer, lines 351-422. *)
Definition resultsText (m : model) : result string :=
  let st := gatherStats 0 (answers m) noStats in
  let text :=
    "Final Score: " +:+ itoa (st_correct st) +:+ " / " +:+ itoa (st_total st) +:+ nl in
  match
    (if st_total st >? 0 then
       match div64 (st_totalDuration st) (st_total st) with
       | Ok avgTotal =>
           Ok (text +:+ "Avg time (overall): " +:+ Sprintf_seconds avgTotal +:+ "s" +:+ nl)
       | Panic why => Panic why
       | OutOfFuel => OutOfFuel
       end
     else Ok text)
  with
  | Ok text =>
      let '(arithmetic, algebra) :=
        groupOps (range_order (st_opDurations st)) [] [] in
      match groupBlock "Arithmetic" arithmetic (st_opDurations st) text with
      | Ok text =>
          match groupBlock "Algebra" algebra (st_opDurations st) text with
          | Ok text =>
              let text := missedBlock (st_missed st) text in
              let text := text +:+ nl +:+ "[←] to play again" in
              Ok (if timeRemaining m <=? 0 then banner +:+ text else text)
          | Panic why => Panic why
          | OutOfFuel => OutOfFuel
          end
      | Panic why => Panic why
      | OutOfFuel => OutOfFuel
      end
  | Panic why => Panic why
  | OutOfFuel => OutOfFuel
  end.

(** The text shown below the input box while a flash is active, lines
    337-347. *)
Definition flashPart (m : model) : string :=
  if flashActive m then
    nl +:+ nl +:+
    RenderBold (if decide (flashColor m = "red") then "9" else "10") (flashText m)
  else "".

(** The text of the Running view as it is handed to the renderer, lines
    321-348. *)
Definition runningText (m : model) : result string :=
  let correct := countCorrect (answers m) in
  match slice_at (fuseFrames m) (fuseFrameIndex m) with
  | Ok glyph =>
      Ok ("Time Left: " +:+ itoa (Seconds_int (timeRemaining m)) +:+ "s" +:+ nl +:+
          renderCountdownBar (Seconds_int (timeRemaining m)) (timeLimit m) 30
            (flashBarAdjust m) (flashColorOverride m) glyph +:+ nl +:+
          "Correct: " +:+ itoa correct +:+ "/" +:+ itoa (len (answers m)) +:+
          nl +:+ nl +:+ Text (currentQ m) +:+ nl +:+ nl +:+
          textinput_View (textInput m) +:+ nl +:+ "[q] to quit" +:+ nl +:+
          flashPart m)
  | Panic why => Panic why
  | OutOfFuel => OutOfFuel
  end.

(** [func (m model) View() string]. *)
Definition View (m : model) : result string :=
  if state m =? stateMenu then
    Ok (clearScreen +:+ list_View (list_ m) +:+ nl +:+ "Fullscreen recommended")
  else if state m =? stateTimeSelect then
    Ok (clearScreen +:+ list_View (timeList m) +:+ nl +:+
        "Correct answers add 1s to time, incorrect subtracts 1s." +:+ nl +:+
        "Try to keep the bomb from exploding!" +:+ nl +:+
        "[←] to go back | [q] to quit")
  else if state m =? stateRunning then
    match runningText m with
    | Ok text => Ok (clearScreen +:+ RenderPadded text)
    | Panic why => Panic why
    | OutOfFuel => OutOfFuel
    end
  else if state m =? stateResults then
    match resultsText m with
    | Ok text => Ok (clearScreen +:+ RenderPadded text)
    | Panic why => Panic why
    | OutOfFuel => OutOfFuel
    end
  else Ok (clearScreen +:+ "Unknown state").

End Views.

(** Reference implementations of the view layer. *)

Module ReferenceViews.

Import Reference.

(** A duration in whole seconds and hundredths, truncated. *)
Definition seconds_2f (d : Z) : string :=
  itoa (Z.quot d Second) +:+ "." +:+
  itoa (Z.quot (Z.abs (Z.rem d Second)) 100000000) +:+
  itoa (Z.rem (Z.quot (Z.abs (Z.rem d Second)) 10000000) 10).

#[export] Instance view_layer : ViewLayer := {|
  list_View := fun l => title l;
  textinput_View := fun t => "> " +:+ value t;
  RenderPadded := fun s => s;
  RenderBold := fun _ s => s;
  Seconds_int := fun d => Z.quot d Second;
  Sprintf_seconds := seconds_2f;
  range_order := fun od => (map_to_list od).*1;
  range_order_keys := fun od => reflexivity _
|}.

End ReferenceViews.

(** ** Runs of the event loop and invariants of the session *)

Section SessionRuns.

Context `{Collaborators}.

(** The runtime hands the messages to [Update] one at a time, each on
    the model the previous call returned.  The commands returned are
    kept, one list per message. *)
Fixpoint runMsgs (fuel : nat) (m : model) (msgs : list Msg) (w : World)
  : result (model * list (list Cmd) * World) :=
  match msgs with
  | [] => Ok (m, [], w)
  | msg :: msgs' =>
      match Update fuel m msg w with
      | Ok (m1, cmds, w1) =>
          match runMsgs fuel m1 msgs' w1 with
          | Ok (m2, trace, w2) => Ok (m2, cmds :: trace, w2)
          | Panic why => Panic why
          | OutOfFuel => OutOfFuel
          end
      | Panic why => Panic why
      | OutOfFuel => OutOfFuel
      end
  end.

(** The fuse frames are the four of [initialModel] and the frame index
    is a valid index into them. *)
Definition fuse_ok (m : model) : Prop :=
  fuseFrames m = fuseFrames initialModel /\ 0 <= fuseFrameIndex m < 4.

(** During an episode and on the results page, the id of the current
    question and the ids of all answered questions are in the used set. *)
Definition ids_registered (m : model) : Prop :=
  state m = stateRunning \/ state m = stateResults ->
  (UniqueID (currentQ m) ∈ usedQuestions m) /\
  forall r, In r (answers m) -> UniqueID (Question_ r) ∈ usedQuestions m.

(** While Running the time left is a whole number of seconds between 0
    and the limit (one second when the limit is 0), at least one second
    when the limit is not 0; on the results page it is used up. *)
Definition time_ok (m : model) : Prop :=
  (state m = stateRunning ->
   timeRemaining m mod Second = 0 /\
   0 <= timeRemaining m <= Z.max (timeLimit m * Second) Second /\
   (timeLimit m <> 0 -> Second <= timeRemaining m)) /\
  (state m = stateResults -> timeRemaining m <= 0).

(** The changes of state [Update] can make, with the message that makes
    each. *)
Inductive transition : Z -> Msg -> Z -> Prop :=
| tr_menu_confirm k :
    key_Type k = KeyEnter -> transition stateMenu (KeyMsg k) stateTimeSelect
| tr_time_confirm k :
    key_String k = "enter" -> transition stateTimeSelect (KeyMsg k) stateRunning
| tr_time_back k :
    key_String k = "left" -> transition stateTimeSelect (KeyMsg k) stateMenu
| tr_running_expired t :
    transition stateRunning (tickMsg t) stateResults
| tr_running_quit k :
    key_String k = "q" -> transition stateRunning (KeyMsg k) stateMenu
| tr_results_back k :
    key_String k = "left" -> transition stateResults (KeyMsg k) stateMenu
| tr_recover s msg :
    s <> stateMenu -> s <> stateTimeSelect -> s <> stateRunning ->
    s <> stateResults -> transition s msg stateMenu.

(** How one call of [Update] moves the time left. *)
Definition time_step (m m' : model) : Prop :=
  state m' = stateMenu \/ state m' = stateTimeSelect \/
  (state m = stateTimeSelect /\ state m' = stateRunning /\
   timeRemaining m' = Int64.mul (timeLimit m') Second) \/
  (state m = stateResults /\ state m' = stateResults /\
   timeRemaining m' = timeRemaining m) \/
  (state m = stateRunning /\ timeLimit m' = timeLimit m /\
   ((state m' = stateRunning /\ timeRemaining m' = timeRemaining m) \/
    (state m' = stateResults /\ timeRemaining m' = timeRemaining m /\
     timeRemaining m <= 0) \/
    (state m' = stateResults /\
     timeRemaining m' = Int64.sub (timeRemaining m) Second /\
     timeRemaining m' <= 0) \/
    (state m' = stateRunning /\
     timeRemaining m' = Int64.sub (timeRemaining m) Second /\
     0 < timeRemaining m') \/
    (state m' = stateRunning /\
     timeRemaining m' = Int64.mul (timeLimit m) Second /\
     Int64.mul (timeLimit m) Second < Int64.add (timeRemaining m) Second) \/
    (state m' = stateRunning /\
     timeRemaining m' = Int64.add (timeRemaining m) Second /\
     Int64.add (timeRemaining m) Second <= Int64.mul (timeLimit m) Second) \/
    (state m' = stateRunning /\ timeRemaining m' = Second) \/
    (state m' = stateRunning /\
     timeRemaining m' = Int64.sub (timeRemaining m) Second /\
     Second <= Int64.sub (timeRemaining m) Second))).

End SessionRuns.

(** Sample states and histories for the properties of the session. *)

Module Samples.

Import Reference ReferenceViews.

(** The first state of a 30-second 1st Grade episode. *)
Definition started : model :=
  match Update 1 sampleTimeSelect enter (world_of [3; 7; 1; 42]) with
  | Ok (m, _, _) => m
  | _ => initialModel
  end.

(** That episode once thirty ticks have run its clock out. *)
Definition expired : model :=
  match runMsgs 1 started (map tickMsg (replicate 30 0)) (world_of []) with
  | Ok (m, _, _) => m
  | _ => initialModel
  end.

(** The state of the model a call of [Update] returned, if it returned. *)
Definition ok_state (r : result (model * list Cmd * World)) : option Z :=
  match r with
  | Ok (m, _, _) => Some (state m)
  | _ => None
  end.

(** A history of three answers, the second one wrong. *)
Definition history : list AnswerRecord :=
  [ mkAnswerRecord sampleQuestion true (2 * Second) "4";
    mkAnswerRecord
      (mkQuestion "x + 3 = 5. What is x?" 2 "algebra_addition" "Algebra|7")
      false (4 * Second) "3";
    mkAnswerRecord
      (mkQuestion "9 - 1 = ?" 8 "subtraction" "1st Grade|8")
      true (6 * Second) "8" ].

End Samples.

(** * Properties *)

(** ** Facts about 64-bit arithmetic *)

Module Int64Facts.

Lemma wrap_in_range z : Int64.in_range (Int64.wrap z).
Proof.
  unfold Int64.in_range, Int64.wrap, Int64.min_int, Int64.max_int.
  pose proof (Z.mod_pos_bound (z + 2 ^ 63) (2 ^ 64) ltac:(lia)). lia.
Qed.

Lemma wrap_small z : Int64.in_range z -> Int64.wrap z = z.
Proof.
  unfold Int64.in_range, Int64.wrap, Int64.min_int, Int64.max_int. intros Hz.
  rewrite Z.mod_small; lia.
Qed.

Lemma add_small x y : Int64.in_range (x + y) -> Int64.add x y = x + y.
Proof. apply wrap_small. Qed.

Lemma sub_small x y : Int64.in_range (x - y) -> Int64.sub x y = x - y.
Proof. apply wrap_small. Qed.

Lemma mul_small x y : Int64.in_range (x * y) -> Int64.mul x y = x * y.
Proof. apply wrap_small. Qed.

End Int64Facts.

(** ** Reasoning about generators *)

Lemma gbind_Ok {A B} (c : Gen A) (k : A -> Gen B) w b w' :
  gbind c k w = Ok (b, w') ->
  exists a w1, c w = Ok (a, w1) /\ k a w1 = Ok (b, w').
Proof.
  unfold gbind. destruct (c w) as [[a w1]| |]; try discriminate.
  intros Hk. exists a, w1. split; [reflexivity | exact Hk].
Qed.

Lemma gen_post_bind {A B} (c : Gen A) (k : A -> Gen B) (P : A -> Prop) (Q : B -> Prop) :
  gen_post c P -> (forall a, P a -> gen_post (k a) Q) -> gen_post (gbind c k) Q.
Proof.
  intros Hc Hk w b w' Hrun.
  apply gbind_Ok in Hrun as (a & w1 & Ha & Hb).
  eapply Hk; [eapply Hc; exact Ha | exact Hb].
Qed.

Lemma gen_post_ret {A} (a : A) (P : A -> Prop) : P a -> gen_post (gret a) P.
Proof. intros Ha w a' w' [= <- _]. exact Ha. Qed.

Lemma gen_post_Intn n : gen_post (Intn n) (fun v => 0 <= v < n).
Proof.
  intros w v w'. unfold Intn. destruct (Z.leb_spec n 0); [discriminate |].
  intros [= <- _]. apply Z.mod_pos_bound. lia.
Qed.

Lemma gen_post_slice_index ops i :
  gen_post (glift (slice_index ops i)) (fun s => ops !! Z.to_nat i = Some s).
Proof.
  intros w s w'. unfold glift, slice_index.
  destruct (ops !! Z.to_nat i); [| discriminate].
  now intros [= <- _].
Qed.

Lemma gen_total_bind {A B} (c : Gen A) (k : A -> Gen B) (P : A -> Prop) :
  gen_total c -> gen_post c P -> (forall a, P a -> gen_total (k a)) ->
  gen_total (gbind c k).
Proof.
  intros Hc Hp Hk w. destruct (Hc w) as (a & w1 & Ha).
  destruct (Hk a (Hp _ _ _ Ha) w1) as (b & w2 & Hb).
  exists b, w2. unfold gbind. now rewrite Ha.
Qed.

Lemma gen_total_ret {A} (a : A) : gen_total (gret a).
Proof. intros w. now exists a, w. Qed.

Lemma gen_total_Intn n : 0 < n -> gen_total (Intn n).
Proof.
  intros Hn w. unfold Intn. destruct (Z.leb_spec n 0); [lia |]. eauto.
Qed.

Lemma gen_total_Int : gen_total Int.
Proof. intros w. unfold Int. eauto. Qed.

(** Steps through a generator: peels binds, bounds every draw. *)
Ltac gen_step :=
  lazymatch goal with
  | |- gen_post (gbind (Intn _) _) _ =>
      eapply gen_post_bind; [apply gen_post_Intn | cbv beta; intros ? ?]
  | |- gen_post (gbind (glift (slice_index _ _)) _) _ =>
      eapply gen_post_bind; [apply gen_post_slice_index | cbv beta; intros ? ?]
  | |- gen_post (gret _) _ => apply gen_post_ret
  | |- gen_post (if decide ?P then _ else _) _ => destruct (decide P)
  | |- gen_post (if ?b =? ?c then _ else _) _ => destruct (Z.eqb_spec b c)
  | |- gen_post (let '(_, _) := if ?a <? ?b then _ else _ in _) _ =>
      destruct (Z.ltb_spec a b)
  end.

Ltac gen_total_step :=
  lazymatch goal with
  | |- gen_total (gbind (Intn _) _) =>
      eapply gen_total_bind;
      [apply gen_total_Intn; cbn; lia | apply gen_post_Intn | cbv beta; intros ? ?]
  | |- gen_total (gret _) => apply gen_total_ret
  | |- gen_total (if decide ?P then _ else _) => destruct (decide P)
  | |- gen_total (if ?b =? ?c then _ else _) => destruct (Z.eqb_spec b c)
  | |- gen_total (let '(_, _) := if ?a <? ?b then _ else _ in _) =>
      destruct (Z.ltb_spec a b)
  end.

(** Small values are not changed by the 64-bit wrap-around. *)
Ltac int64_small :=
  repeat first
    [ rewrite Int64Facts.add_small by (unfold Int64.in_range, Int64.min_int, Int64.max_int; nia)
    | rewrite Int64Facts.sub_small by (unfold Int64.in_range, Int64.min_int, Int64.max_int; nia)
    | rewrite Int64Facts.mul_small by (unfold Int64.in_range, Int64.min_int, Int64.max_int; nia) ].

(** An index below the length of a slice literal names one of its
    elements. *)
Lemma slice3_cases (x y z s : string) i :
  0 <= i < 3 -> [x; y; z] !! Z.to_nat i = Some s -> s = x \/ s = y \/ s = z.
Proof.
  intros Hi. assert (i = 0 \/ i = 1 \/ i = 2) as [-> | [-> | ->]] by lia;
    cbn; intros [= <-]; auto.
Qed.

Lemma slice4_cases (x y z t s : string) i :
  0 <= i < 4 -> [x; y; z; t] !! Z.to_nat i = Some s ->
  s = x \/ s = y \/ s = z \/ s = t.
Proof.
  intros Hi. assert (i = 0 \/ i = 1 \/ i = 2 \/ i = 3) as [-> | [-> | [-> | ->]]] by lia;
    cbn; intros [= <-]; auto.
Qed.

(** ** The question generator *)

Lemma genLocals_total difficulty : gen_total (genLocals difficulty).
Proof.
  unfold genLocals.
  repeat gen_total_step.
  - unfold gen1stGrade. repeat gen_total_step.
  - unfold gen3rdGrade. repeat gen_total_step.
    eapply gen_total_bind.
    + intros w. unfold glift, slice_index.
      assert (a1 = 0 \/ a1 = 1 \/ a1 = 2) as [-> | [-> | ->]] by (cbn in *; lia);
        cbn; eauto.
    + apply gen_post_slice_index.
    + cbv beta. intros op Hop. repeat gen_total_step.
  - unfold gen5thGrade. repeat gen_total_step.
    eapply gen_total_bind.
    + intros w. unfold glift, slice_index.
      assert (a = 0 \/ a = 1 \/ a = 2 \/ a = 3) as [-> | [-> | [-> | ->]]]
        by (cbn in *; lia); cbn; eauto.
    + apply gen_post_slice_index.
    + cbv beta. intros op Hop. repeat gen_total_step.
  - unfold genAlgebra. repeat gen_total_step.
  - unfold genFallback. repeat gen_total_step.
Qed.

Lemma attempt_total difficulty : gen_total (attempt difficulty).
Proof.
  unfold attempt.
  eapply gen_total_bind with (P := fun _ => True);
    [apply genLocals_total | intros ? ? ? ?; exact I | intros l _].
  eapply gen_total_bind with (P := fun _ => True);
    [apply gen_total_Int | intros ? ? ? ?; exact I | intros r _].
  apply gen_total_ret.
Qed.

Lemma attempt_id difficulty w l id w' :
  attempt difficulty w = Ok ((l, id), w') ->
  exists w1 r, genLocals difficulty w = Ok (l, w1) /\ id = sprintf_id difficulty r.
Proof.
  unfold attempt. intros Hrun.
  apply gbind_Ok in Hrun as (l0 & w1 & Hl & Hrun).
  apply gbind_Ok in Hrun as (r & w2 & Hr & Hrun).
  injection Hrun as -> <- ->. eauto.
Qed.

(** What a returned question is made of: the locals of the iteration
    that ended the loop, and an id that was not in [used]. *)
Lemma generateQuestion_inv (P : Locals -> Prop) difficulty :
  gen_post (genLocals difficulty) P ->
  forall fuel used w q used' w',
    generateQuestion fuel difficulty used w = Ok ((q, used'), w') ->
    (exists l, P l /\ Text q = l_text l /\ Answer q = l_answer l /\
               OpType q = l_opType l) /\
    (UniqueID q ∉ used) /\ used' = {[UniqueID q]} ∪ used.
Proof.
  intros HP fuel used. induction fuel as [| fuel IH]; intros w q used' w' Hrun.
  - discriminate.
  - cbn [generateQuestion] in Hrun.
    apply gbind_Ok in Hrun as ([l id] & w1 & Hatt & Hrun). cbn [fst snd] in Hrun.
    destruct (decide (id ∈ used)) as [Hin | Hnin].
    + eapply IH. exact Hrun.
    + injection Hrun as <- <- <-. cbn.
      apply attempt_id in Hatt as (w0 & r & Hl & ->).
      split; [exists l; split; [eapply HP; exact Hl | auto] | auto].
Qed.

(** The loop returns as soon as a drawn id is unused. *)
Lemma generateQuestion_returns difficulty used k :
  forall w, fresh_at difficulty used k w ->
  exists q used' w',
    generateQuestion (S k) difficulty used w = Ok ((q, used'), w').
Proof.
  induction k as [| k IH]; intros w (id & Hid & Hfresh).
  - cbn [after_attempts] in Hid. unfold drawn_id in Hid.
    destruct (attempt difficulty w) as [[[l id'] w1]| |] eqn:Hatt; try discriminate.
    injection Hid as ->.
    cbn [generateQuestion]. unfold gbind. rewrite Hatt. cbn [fst snd].
    destruct (decide (id ∈ used)); [contradiction |]. unfold gret. eauto.
  - cbn [after_attempts] in Hid.
    destruct (attempt_total difficulty w) as ([l id'] & w1 & Hatt).
    rewrite Hatt in Hid.
    change (generateQuestion (S (S k)) difficulty used w) with
      (gbind (attempt difficulty)
         (fun li => if decide (li.2 ∈ used)
                    then generateQuestion (S k) difficulty used
                    else gret (mkQuestion (l_text li.1) (l_answer li.1)
                                 (l_opType li.1) li.2, {[li.2]} ∪ used)) w).
    unfold gbind. rewrite Hatt. cbn [fst snd].
    destruct (decide (id' ∈ used)).
    + apply IH. exists id. auto.
    + unfold gret. eauto.
Qed.

(** C3. For every difficulty string and every set of used ids,
    whenever [generateQuestion] returns, the id of the question was
    absent from the set supplied and is present in the set after the
    call, which is the supplied set with that id added; and the call
    does return, within [k + 1] iterations, as soon as the random source
    yields an unused id at its [k]-th retry (the set then does not hold
    every possible id). *)
Theorem generateQuestion_registers_fresh_id :
  forall (difficulty : string) (used : gset string) (w : World),
    (forall fuel q used' w',
        generateQuestion fuel difficulty used w = Ok ((q, used'), w') ->
        (UniqueID q ∉ used) /\ (UniqueID q ∈ used') /\
        used' = {[UniqueID q]} ∪ used) /\
    (forall k, fresh_at difficulty used k w ->
        exists q used' w',
          generateQuestion (S k) difficulty used w = Ok ((q, used'), w') /\
          (UniqueID q ∉ used) /\ (UniqueID q ∈ used')).
Proof.
  intros difficulty used w.
  assert (Hpartial : forall fuel q used' w',
             generateQuestion fuel difficulty used w = Ok ((q, used'), w') ->
             (UniqueID q ∉ used) /\ (UniqueID q ∈ used') /\
             used' = {[UniqueID q]} ∪ used).
  { intros fuel q used' w' Hrun.
    eapply (generateQuestion_inv (fun _ => True)) in Hrun as (_ & Hfresh & ->).
    - repeat split; [exact Hfresh | set_solver].
    - intros ? ? ? ?. exact I. }
  split; [exact Hpartial |].
  intros k Hk.
  destruct (generateQuestion_returns _ _ _ _ Hk) as (q & used' & w' & Hrun).
  exists q, used', w'. split; [exact Hrun |].
  destruct (Hpartial _ _ _ _ Hrun) as (? & ? & ?). auto.
Qed.

Lemma generateQuestion_registers_fresh_id_witness :
  exists q used' w',
    generateQuestion 2 "5th Grade" {["5th Grade|42"]}
      (Reference.world_of [3; 4; 20; 42; 1; 2; 3; 7]) = Ok ((q, used'), w') /\
    (UniqueID q ∉ ({["5th Grade|42"]} : gset string)) /\ (UniqueID q ∈ used').
Proof.
  apply (proj2 (generateQuestion_registers_fresh_id "5th Grade" {["5th Grade|42"]}
                  (Reference.world_of [3; 4; 20; 42; 1; 2; 3; 7])) 1%nat).
  exists "5th Grade|7". split.
  - vm_compute. reflexivity.
  - intros Hin. apply elem_of_singleton in Hin. discriminate Hin.
Defined.

(** What the 1st Grade arm leaves in the locals. *)
Lemma gen1stGrade_post :
  gen_post gen1stGrade
    (fun l => (l_op l = "+" /\ l_opType l = "addition" /\
               l_answer l = l_a l + l_b l \/
               l_op l = "-" /\ l_opType l = "subtraction" /\
               l_b l <= l_a l /\ l_answer l = l_a l - l_b l) /\
              0 <= l_a l <= 10 /\ 0 <= l_b l <= 10 /\
              l_text l = sprintf_binop (l_a l) (l_op l) (l_b l)).
Proof.
  unfold gen1stGrade. repeat gen_step; cbn [l_a l_b l_op l_opType l_answer l_text].
  all: int64_small.
  - split; [left; repeat split |]. repeat split; (lia || reflexivity).
  - split; [right; repeat split; lia |]. repeat split; (lia || reflexivity).
  - split; [right; repeat split; lia |]. repeat split; (lia || reflexivity).
Qed.

(** C8. Every question produced at the 1st Grade difficulty with the
    subtraction operator has a non-negative answer: the operands are
    swapped when the first is the smaller. *)
Theorem first_grade_subtraction_nonneg :
  forall fuel used w q used' w',
    generateQuestion fuel "1st Grade" used w = Ok ((q, used'), w') ->
    OpType q = "subtraction" ->
    0 <= Answer q /\
    exists a b, 0 <= b <= a /\ a <= 10 /\ Answer q = a - b /\
                Text q = sprintf_binop a "-" b.
Proof.
  intros fuel used w q used' w' Hrun Hop.
  eapply generateQuestion_inv in Hrun as ((l & Hl & Ht & Ha & Ho) & _);
    [| exact gen1stGrade_post].
  destruct Hl as (Hcase & Hra & Hrb & Htext).
  rewrite Ho in Hop.
  destruct Hcase as [(_ & Hadd & _) | (Hminus & _ & Hle & Hans)]; [congruence |].
  rewrite Hminus in Htext.
  split; [lia |].
  exists (l_a l), (l_b l). repeat split; try lia; congruence.
Qed.

Lemma first_grade_subtraction_nonneg_witness :
  let q := mkQuestion "7 - 3 = ?" 4 "subtraction" "1st Grade|42" in
  0 <= Answer q /\
  exists a b, 0 <= b <= a /\ a <= 10 /\ Answer q = a - b /\
              Text q = sprintf_binop a "-" b.
Proof.
  intros q.
  eapply (first_grade_subtraction_nonneg 1 ∅ (Reference.world_of [3; 7; 1; 42]) q).
  - vm_compute. reflexivity.
  - reflexivity.
Defined.

(** What the division case of the 5th Grade arm leaves in the locals. *)
Lemma gen5thGrade_post :
  gen_post gen5thGrade
    (fun l => l_opType l = "division" ->
              l_op l = "/" /\ 1 <= l_b l <= 15 /\ 1 <= l_answer l <= 20 /\
              l_a l = l_b l * l_answer l /\
              l_text l = sprintf_binop (l_a l) "/" (l_b l)).
Proof.
  unfold gen5thGrade.
  gen_step. gen_step.
  apply slice4_cases in H0 as [-> | [-> | [-> | ->]]]; [| | | | cbn in H; lia].
  all: repeat gen_step; try congruence;
    cbn [l_a l_b l_op l_opType l_answer l_text].
  1-3: intros Hop; vm_compute in Hop; discriminate Hop.
  intros _. int64_small. repeat split; lia.
Qed.

(** C7. Every question produced at the 5th Grade difficulty with the
    division operator has a divisor in [1,15] and an answer, the
    quotient, in [1,20], and its dividend is divisor times quotient:
    the division leaves no remainder. *)
Theorem fifth_grade_division_exact :
  forall fuel used w q used' w',
    generateQuestion fuel "5th Grade" used w = Ok ((q, used'), w') ->
    OpType q = "division" ->
    exists dividend divisor,
      Text q = sprintf_binop dividend "/" divisor /\
      1 <= divisor <= 15 /\
      1 <= Answer q <= 20 /\
      dividend = divisor * Answer q /\
      Z.rem dividend divisor = 0 /\
      Z.quot dividend divisor = Answer q.
Proof.
  intros fuel used w q used' w' Hrun Hop.
  eapply generateQuestion_inv in Hrun as ((l & Hl & Ht & Ha & Ho) & _);
    [| exact gen5thGrade_post].
  rewrite Ho in Hop. destruct (Hl Hop) as (_ & Hb & Hans & Hmul & Htext).
  exists (l_a l), (l_b l). rewrite Ht, Ha.
  repeat split; try lia; try assumption.
  - rewrite Hmul, Z.mul_comm. apply Z.rem_mul. lia.
  - rewrite Hmul, Z.mul_comm. apply Z.quot_mul. lia.
Qed.

Lemma fifth_grade_division_exact_witness :
  let q := mkQuestion "100 / 5 = ?" 20 "division" "5th Grade|42" in
  exists dividend divisor,
    Text q = sprintf_binop dividend "/" divisor /\
    1 <= divisor <= 15 /\
    1 <= Answer q <= 20 /\
    dividend = divisor * Answer q /\
    Z.rem dividend divisor = 0 /\
    Z.quot dividend divisor = Answer q.
Proof.
  intros q.
  eapply (fifth_grade_division_exact 1 ∅ (Reference.world_of [3; 4; 19; 42]) q).
  - vm_compute. reflexivity.
  - reflexivity.
Defined.

(** What the Algebra arm leaves in the locals. *)
Lemma genAlgebra_post :
  gen_post genAlgebra
    (fun l => (l_opType l <> "algebra_division" -> -20 <= l_answer l <= 20) /\
              (l_opType l = "algebra_division" ->
               exists n m, 1 <= n <= 5 /\ -10 <= m <= 10 /\ m <> 0 /\
                           l_answer l = n * m)).
Proof.
  unfold genAlgebra.
  repeat gen_step; cbn [l_opType l_answer]; int64_small;
    (split; [intros Hne; try (exfalso; apply Hne; reflexivity); lia
            | intros Heq; try discriminate Heq]).
  match goal with
  | |- context [if ?x =? 0 then 1 else _] => destruct (Z.eqb_spec x 0)
  end;
    match goal with
    | |- context [Int64.mul ?n ?m] => exists n, m
    end; int64_small; lia.
Qed.

(** C4, as the code has it. Every question produced at the Algebra
    difficulty has an answer in [-50,50]; the answer lies in [-20,20]
    for the six templates other than the division one, and for the
    division template it is n times m with n in [1,5] and m a non-zero
    integer of [-10,10], hence not zero. *)
Theorem algebra_answer_range :
  forall fuel used w q used' w',
    generateQuestion fuel "Algebra" used w = Ok ((q, used'), w') ->
    -50 <= Answer q <= 50 /\
    (OpType q <> "algebra_division" -> -20 <= Answer q <= 20) /\
    (OpType q = "algebra_division" ->
     Answer q <> 0 /\
     exists n m, 1 <= n <= 5 /\ -10 <= m <= 10 /\ m <> 0 /\ Answer q = n * m).
Proof.
  intros fuel used w q used' w' Hrun.
  eapply generateQuestion_inv in Hrun as ((l & Hl & _ & Ha & Ho) & _);
    [| exact genAlgebra_post].
  destruct Hl as (Hother & Hdiv).
  rewrite Ha, Ho.
  assert (Hcase : l_opType l = "algebra_division" \/ l_opType l <> "algebra_division")
    by (destruct (decide (l_opType l = "algebra_division")); auto).
  split; [| split].
  - destruct Hcase as [Heq | Hne].
    + destruct (Hdiv Heq) as (n & m & Hn & Hm & _ & ->). nia.
    + specialize (Hother Hne). lia.
  - exact Hother.
  - intros Heq. destruct (Hdiv Heq) as (n & m & Hn & Hm & Hm0 & Hnm).
    split; [nia | eauto 10].
Qed.

Lemma algebra_answer_range_witness :
  let q := mkQuestion "x ÷ 5 = 10. What is x?" 50 "algebra_division" "Algebra|42" in
  -50 <= Answer q <= 50 /\
  (OpType q <> "algebra_division" -> -20 <= Answer q <= 20) /\
  (OpType q = "algebra_division" ->
   Answer q <> 0 /\
   exists n m, 1 <= n <= 5 /\ -10 <= m <= 10 /\ m <> 0 /\ Answer q = n * m).
Proof.
  intros q.
  eapply (algebra_answer_range 1 ∅ (Reference.world_of [5; 4; 20; 42]) q).
  vm_compute. reflexivity.
Defined.

(** C4 as stated fails: the division template with n = 5 and m = 10
    produces a question whose answer is 50. *)
Lemma algebra_answer_above_20 :
  ~ (forall fuel used w q used' w',
        generateQuestion fuel "Algebra" used w = Ok ((q, used'), w') ->
        -20 <= Answer q <= 20).
Proof.
  intros Hall.
  assert (Hrun : generateQuestion 1 "Algebra" ∅ (Reference.world_of [5; 4; 20; 42]) =
                 Ok ((mkQuestion "x ÷ 5 = 10. What is x?" 50 "algebra_division"
                        "Algebra|42",
                      {["Algebra|42"]} ∪ ∅),
                     mkWorld (Reference.tape_of [5; 4; 20; 42]) 4
                       (fun k => Z.of_nat k * Second) 0 []))
    by (vm_compute; reflexivity).
  apply Hall in Hrun. cbn in Hrun. lia.
Qed.

(** ** The event handler *)

Section SessionProperties.

Context `{Collaborators}.

(** [Update] dispatches on the state alone. *)
Lemma Update_menu fuel (m : model) msg :
  state m = stateMenu -> Update fuel m msg = updateMenu m msg.
Proof. intros Hstate. unfold Update. rewrite Hstate. reflexivity. Qed.

Lemma Update_timeSelect fuel (m : model) msg :
  state m = stateTimeSelect -> Update fuel m msg = updateTimeSelect fuel m msg.
Proof. intros Hstate. unfold Update. rewrite Hstate. reflexivity. Qed.

Lemma Update_running fuel (m : model) msg :
  state m = stateRunning -> Update fuel m msg = updateRunning fuel m msg.
Proof. intros Hstate. unfold Update. rewrite Hstate. reflexivity. Qed.

Lemma Update_results fuel (m : model) msg :
  state m = stateResults -> Update fuel m msg = updateResults m msg.
Proof. intros Hstate. unfold Update. rewrite Hstate. reflexivity. Qed.

(** While Running, a key whose string is "enter" reaches the scoring
    code whenever the text of the input box scans as an integer; nothing
    else is consulted. *)
Lemma Update_running_enter fuel (m : model) k w :
  state m = stateRunning -> key_String k = "enter" ->
  Update fuel m (KeyMsg k) w =
    match Sscanf_d (rawInput m (KeyMsg k)) with
    | Some userAns =>
        scoreAnswer (rawInput m (KeyMsg k)) userAns
          (set_textInput (inputAfter m (KeyMsg k)) m) w
    | None =>
        Ok (set_textInput (inputAfter m (KeyMsg k)) m,
            [(textinput_Update (textInput m) (KeyMsg k)).2], w)
    end.
Proof.
  intros Hstate Henter. rewrite (Update_running fuel m (KeyMsg k) Hstate).
  unfold updateRunning, updateRunningInput, rawInput, inputAfter.
  destruct (textinput_Update (textInput m) (KeyMsg k)) as [ti cmd].
  destruct (decide (key_String k = "enter")); [| contradiction].
  reflexivity.
Qed.

(** The scoring code always returns, and what it returns. *)
Lemma scoreAnswer_spec userInput userAns (m : model) w :
  exists m',
    scoreAnswer userInput userAns m w =
      Ok (m', [cmdFlashTimeout; cmdFlashFadeTick], (Now w).2) /\
    answers m' =
      (answers m ++
         [mkAnswerRecord (currentQ m) (userAns =? Answer (currentQ m))
            (Int64.sub (Now w).1 (questionStart m)) userInput])%list /\
    timeRemaining m' = scoredTime (userAns =? Answer (currentQ m)) m /\
    currentQ m' = currentQ m /\ timeLimit m' = timeLimit m /\
    state m' = state m /\ usedQuestions m' = usedQuestions m /\
    flashActive m' = true /\ suspendTick m' = true /\
    flashFadeSteps m' = 3 /\
    flashBarAdjust m' = (if userAns =? Answer (currentQ m) then 1 else -1) /\
    textInput m' = textinput_Blur (textInput m).
Proof.
  unfold scoreAnswer, scoredTime. destruct (Now w) as [now w1]. cbn [fst snd].
  destruct (userAns =? Answer (currentQ m)); cbn.
  - destruct (Int64.add (timeRemaining m) Second >? Int64.mul (timeLimit m) Second);
      eexists; (split; [reflexivity |]); cbn; repeat split.
  - destruct (Int64.sub (timeRemaining m) Second <? Second);
      eexists; (split; [reflexivity |]); cbn; repeat split.
Qed.

(** C1. While Running, an Enter key whose submitted text does not scan
    as an integer creates no AnswerRecord: the handler returns the model
    it was given with only the input box having seen the key, and leaves
    the world alone.  When the text scans as the integer [n], exactly
    one AnswerRecord is appended, for the current question and the text
    submitted, and its Correct field is true iff [n] equals the answer
    of the current question. *)
Theorem enter_records_only_integers :
  forall fuel (m : model) k w,
    state m = stateRunning -> key_String k = "enter" ->
    (Sscanf_d (rawInput m (KeyMsg k)) = None ->
     exists cmds,
       Update fuel m (KeyMsg k) w =
         Ok (set_textInput (inputAfter m (KeyMsg k)) m, cmds, w) /\
       answers (set_textInput (inputAfter m (KeyMsg k)) m) = answers m) /\
    (forall n, Sscanf_d (rawInput m (KeyMsg k)) = Some n ->
     exists m' cmds w' r,
       Update fuel m (KeyMsg k) w = Ok (m', cmds, w') /\
       answers m' = (answers m ++ [r])%list /\
       length (answers m') = S (length (answers m)) /\
       Question_ r = currentQ m /\
       UserInput r = rawInput m (KeyMsg k) /\
       (Correct r = true <-> n = Answer (currentQ m))).
Proof.
  intros fuel m k w Hstate Henter.
  rewrite (Update_running_enter fuel m k w Hstate Henter).
  split.
  - intros ->. eexists. split; reflexivity.
  - intros n ->.
    destruct (scoreAnswer_spec (rawInput m (KeyMsg k)) n
                (set_textInput (inputAfter m (KeyMsg k)) m) w)
      as (m' & Hrun & Hans & _).
    cbn in Hans.
    eexists m', _, _, _. split; [exact Hrun |]. split; [exact Hans |].
    split; [rewrite Hans, length_app; cbn; lia |].
    cbn. repeat split; try apply Z.eqb_eq.
Qed.

Lemma scoredTime_bounds correct (m : model) :
  timeLimit m <= maxTimeLimit ->
  Second <= timeRemaining m <= timeLimit m * Second ->
  Second <= scoredTime correct m <= timeLimit m * Second /\
  scoredTime correct m =
    (if correct then Z.min (timeRemaining m + Second) (timeLimit m * Second)
     else Z.max (timeRemaining m - Second) Second).
Proof.
  unfold maxTimeLimit, scoredTime, Second. intros Hlim Htr.
  rewrite Int64Facts.add_small, Int64Facts.sub_small, Int64Facts.mul_small
    by (unfold Int64.in_range, Int64.min_int, Int64.max_int; lia).
  destruct correct.
  - destruct (Z.gtb_spec (timeRemaining m + 1000000000) (timeLimit m * 1000000000)); lia.
  - destruct (Z.ltb_spec (timeRemaining m - 1000000000) 1000000000); lia.
Qed.

(** C2. In every state with 1s <= timeRemaining <= timeLimit (the
    limit being one a Duration can hold, as 30, 60, 90 and 120 seconds
    are), scoring an answer leaves 1s <= timeRemaining <= timeLimit:
    a correct answer adds one second, capped at the limit, an incorrect
    one takes one second off, but not below one second. *)
Theorem scoring_keeps_time_in_bounds :
  forall fuel (m : model) k w n,
    state m = stateRunning -> key_String k = "enter" ->
    Sscanf_d (rawInput m (KeyMsg k)) = Some n ->
    timeLimit m <= maxTimeLimit ->
    Second <= timeRemaining m <= timeLimit m * Second ->
    exists m' cmds w',
      Update fuel m (KeyMsg k) w = Ok (m', cmds, w') /\
      timeLimit m' = timeLimit m /\
      Second <= timeRemaining m' <= timeLimit m' * Second /\
      timeRemaining m' =
        (if n =? Answer (currentQ m)
         then Z.min (timeRemaining m + Second) (timeLimit m * Second)
         else Z.max (timeRemaining m - Second) Second).
Proof.
  intros fuel m k w n Hstate Henter Hscan Hlim Htr.
  rewrite (Update_running_enter fuel m k w Hstate Henter), Hscan.
  destruct (scoreAnswer_spec (rawInput m (KeyMsg k)) n
              (set_textInput (inputAfter m (KeyMsg k)) m) w)
    as (m' & Hrun & _ & Htime & _ & Hl & _).
  cbn in Htime, Hl.
  exists m', [cmdFlashTimeout; cmdFlashFadeTick], (Now w).2.
  split; [exact Hrun |]. split; [exact Hl |].
  rewrite Htime, Hl.
  pose proof (scoredTime_bounds (n =? Answer (currentQ m))
                (set_textInput (inputAfter m (KeyMsg k)) m)) as Hb.
  cbn in Hb. destruct (Hb Hlim Htr) as [Hrange Heq].
  change (scoredTime (n =? Answer (currentQ m))
            (set_textInput (inputAfter m (KeyMsg k)) m))
    with (scoredTime (n =? Answer (currentQ m)) m) in *.
  split; [exact Hrange | exact Heq].
Qed.

(** C10. While Running with a flash still active (an answer scored and
    the tick suspended), an Enter key whose retained text scans as an
    integer is scored again: one more AnswerRecord is appended for the
    current question, which stays the current one, and the time is
    adjusted once more.  Neither [flashActive] nor [suspendTick] guards
    the scoring. *)
Theorem enter_during_flash_scores_again :
  forall fuel (m : model) k w n,
    state m = stateRunning ->
    flashActive m = true -> suspendTick m = true ->
    key_String k = "enter" ->
    Sscanf_d (rawInput m (KeyMsg k)) = Some n ->
    exists m' w' r,
      Update fuel m (KeyMsg k) w =
        Ok (m', [cmdFlashTimeout; cmdFlashFadeTick], w') /\
      answers m' = (answers m ++ [r])%list /\
      Question_ r = currentQ m /\
      Correct r = (n =? Answer (currentQ m)) /\
      currentQ m' = currentQ m /\
      timeRemaining m' = scoredTime (n =? Answer (currentQ m)) m /\
      state m' = stateRunning /\
      flashActive m' = true /\ suspendTick m' = true.
Proof.
  intros fuel m k w n Hstate _ _ Henter Hscan.
  rewrite (Update_running_enter fuel m k w Hstate Henter), Hscan.
  destruct (scoreAnswer_spec (rawInput m (KeyMsg k)) n
              (set_textInput (inputAfter m (KeyMsg k)) m) w)
    as (m' & Hrun & Hans & Htime & Hq & _ & Hst & _ & Hfa & Hsu & _).
  cbn in Hans, Htime, Hq, Hst.
  eexists m', _, _. split; [exact Hrun |].
  split; [exact Hans |]. cbn.
  repeat split; try assumption. congruence.
Qed.

(** C5, as the code has it. On a pulse tick while Running the handler
    re-arms the pulse clock; with more than 10 seconds left it returns
    the model unchanged, and with 10 seconds or less it sets
    [flashFadeSteps] to 1 and switches [flashColorOverride] to
    "brightRed" when it was empty and to empty otherwise, every other
    field being unchanged. *)
Theorem pulse_tick_effect :
  forall fuel (m : model) w,
    state m = stateRunning ->
    Update fuel m pulseTickMsg w = Ok (pulsed m, [cmdPulseTick], w) /\
    (10 * Second < timeRemaining m -> pulsed m = m) /\
    (timeRemaining m <= 10 * Second ->
     flashFadeSteps (pulsed m) = 1 /\
     flashColorOverride (pulsed m) =
       (if decide (flashColorOverride m = "") then "brightRed" else "") /\
     set_flashFadeSteps (flashFadeSteps m)
       (set_flashColorOverride (flashColorOverride m) (pulsed m)) =
     set_flashFadeSteps (flashFadeSteps m)
       (set_flashColorOverride (flashColorOverride m) m)).
Proof.
  intros fuel m w Hstate. rewrite (Update_running fuel m pulseTickMsg Hstate).
  unfold updateRunning, pulsed.
  change (flashColorOverride (set_flashFadeSteps 1 m)) with (flashColorOverride m).
  destruct (Z.leb_spec (timeRemaining m) (10 * Second)) as [Hle | Hgt].
  - split; [| split; [lia |]].
    + destruct (decide (flashColorOverride m = "")); reflexivity.
    + intros _. destruct (decide (flashColorOverride m = "")); repeat split.
  - split; [reflexivity |]. split; [reflexivity | lia].
Qed.

(** *** Reachable states *)

Ltac state_consts :=
  unfold stateMenu, stateTimeSelect, stateRunning, stateResults in *.

Ltac session_fields :=
  cbn [state answers usedQuestions
       set_state set_difficulty set_timeLimit set_list set_timeList
       set_textInput set_currentQ set_usedQuestions set_answers
       set_startTime set_totalStart set_questionStart set_timeRemaining
       set_suspendTick set_flashText set_flashColor set_flashActive
       set_flashBarAdjust set_flashFadeSteps set_flashColorOverride
       set_fuseFrameIndex selectTimeLimit] in *.

Lemma Update_preserves_invariant fuel (m : model) msg w m' cmds w' :
  valid_state m -> clean_outside_episode m ->
  Update fuel m msg w = Ok (m', cmds, w') ->
  valid_state m' /\ clean_outside_episode m'.
Proof.
  unfold valid_state, clean_outside_episode.
  intros Hvalid Hclean Hrun.
  destruct Hvalid as [Hs | [Hs | [Hs | Hs]]].
  - rewrite (Update_menu fuel m msg Hs) in Hrun. unfold updateMenu in Hrun.
    repeat case_match; simplify_eq; session_fields; intuition.
  - rewrite (Update_timeSelect fuel m msg Hs) in Hrun.
    unfold updateTimeSelect, selectTimeLimit, Now in Hrun.
    repeat case_match; simplify_eq; session_fields;
      (split; [intuition | try (intuition; fail)]);
      intros [Hc | Hc]; state_consts; discriminate Hc.
  - rewrite (Update_running fuel m msg Hs) in Hrun.
    unfold updateRunning, updateRunningInput, scoreAnswer, Now in Hrun.
    repeat case_match; simplify_eq; session_fields;
      (split; [intuition | try (intuition; fail)]);
      intros [Hc | Hc]; state_consts; congruence.
  - rewrite (Update_results fuel m msg Hs) in Hrun. unfold updateResults in Hrun.
    repeat case_match; simplify_eq; session_fields;
      (split; [intuition | try (intuition; fail)]);
      intros [Hc | Hc]; state_consts; congruence.
Qed.

Lemma initialModel_invariant :
  valid_state initialModel /\ clean_outside_episode initialModel.
Proof.
  split.
  - left. reflexivity.
  - intros _. split; reflexivity.
Qed.

Lemma reachable_invariant (m : model) :
  reachable m -> valid_state m /\ clean_outside_episode m.
Proof.
  induction 1 as [| fuel m msg w m' cmds w' _ [Hvalid Hclean] Hrun].
  - exact initialModel_invariant.
  - exact (Update_preserves_invariant _ _ _ _ _ _ _ Hvalid Hclean Hrun).
Qed.

Lemma Update_preserves_timeLimit fuel (m : model) msg w m' cmds w' :
  known_timeLimit m ->
  Update fuel m msg w = Ok (m', cmds, w') ->
  known_timeLimit m'.
Proof.
  unfold known_timeLimit, Update. intros Hlim Hrun.
  unfold updateMenu, updateTimeSelect, updateRunning, updateRunningInput,
    updateResults, scoreAnswer, selectTimeLimit, Now in Hrun.
  repeat case_match; simplify_eq;
    cbn [timeLimit set_state set_difficulty set_timeLimit set_list set_timeList
         set_textInput set_currentQ set_usedQuestions set_answers
         set_startTime set_totalStart set_questionStart set_timeRemaining
         set_suspendTick set_flashText set_flashColor set_flashActive
         set_flashBarAdjust set_flashFadeSteps set_flashColorOverride
         set_fuseFrameIndex];
    first [exact Hlim | cbn; tauto].
Qed.

Lemma reachable_timeLimit (m : model) :
  reachable m -> known_timeLimit m /\ timeLimit m <= maxTimeLimit.
Proof.
  intros Hreach.
  assert (Hknown : known_timeLimit m).
  { induction Hreach as [| fuel m msg w m' cmds w' _ IH Hrun].
    - left. reflexivity.
    - exact (Update_preserves_timeLimit _ _ _ _ _ _ _ IH Hrun). }
  split; [exact Hknown |].
  unfold known_timeLimit, maxTimeLimit in *. cbn in Hknown.
  destruct Hknown as [<- | [<- | [<- | [<- | [<- | []]]]]]; lia.
Qed.

Lemma selectTimeLimit_durations label d (m : model) :
  In (label, d) durations -> selectTimeLimit label m = set_timeLimit d m.
Proof.
  intros [Heq | [Heq | [Heq | [Heq | []]]]]; injection Heq as <- <-; reflexivity.
Qed.

Lemma durations_fit label d :
  In (label, d) durations -> Int64.mul d Second = d * Second.
Proof.
  intros [Heq | [Heq | [Heq | [Heq | []]]]]; injection Heq as <- <-; reflexivity.
Qed.

(** With no id in use the loop of [generateQuestion] ends in its first
    iteration, whatever the random source yields. *)
Lemma generateQuestion_empty fuel difficulty w :
  exists q w',
    generateQuestion (S fuel) difficulty ∅ w = Ok ((q, {[UniqueID q]} ∪ ∅), w').
Proof.
  destruct (attempt_total difficulty w) as ([l id] & w1 & Hatt).
  exists (mkQuestion (l_text l) (l_answer l) (l_opType l) id), w1.
  cbn [generateQuestion]. unfold gbind. rewrite Hatt. cbn [fst snd].
  destruct (decide (id ∈ (∅ : gset string))) as [Hin | _]; [| reflexivity].
  exfalso. exact (not_elem_of_empty id Hin).
Qed.

(** C6. In every reachable state, confirming a duration of the list
    (30s, 60s, 90s, 2m) in TimeSelect takes the session to Running with
    [timeLimit] the chosen number of seconds, [timeRemaining] that many
    seconds, the answer history empty and the used-question set holding
    the id of the first question and nothing else; the tick, fuse and
    pulse clocks are started. *)
Theorem confirm_duration_starts_clean_episode :
  forall (m : model) fuel k w item d,
    reachable m ->
    state m = stateTimeSelect ->
    key_String k = "enter" ->
    list_SelectedItem (list_Update (timeList m) (KeyMsg k)).1 = Some item ->
    In (name item, d) durations ->
    exists m' w',
      Update (S fuel) m (KeyMsg k) w =
        Ok (m', [cmdTick; cmdFuseTick; cmdPulseTick], w') /\
      state m' = stateRunning /\
      timeLimit m' = d /\
      timeRemaining m' = d * Second /\
      answers m' = [] /\
      usedQuestions m' = {[UniqueID (currentQ m')]}.
Proof.
  intros m fuel k w item d Hreach Hstate Henter Hsel Hd.
  destruct (reachable_invariant m Hreach) as [_ Hclean].
  destruct (Hclean (or_intror Hstate)) as [Hanswers Hused].
  rewrite (Update_timeSelect (S fuel) m (KeyMsg k) Hstate).
  unfold updateTimeSelect.
  destruct (list_Update (timeList m) (KeyMsg k)) as [l cmd]. cbn [fst] in Hsel.
  destruct (decide (key_String k = "enter")); [| contradiction].
  change (timeList (set_timeList l m)) with l. rewrite Hsel.
  rewrite (selectTimeLimit_durations _ _ _ Hd).
  change (difficulty (set_timeLimit d (set_timeList l m))) with (difficulty m).
  change (usedQuestions (set_timeLimit d (set_timeList l m))) with (usedQuestions m).
  rewrite Hused.
  destruct (generateQuestion_empty fuel (difficulty m) w) as (q & w1 & ->).
  unfold Now. cbn [fst snd].
  eexists _, _. split; [reflexivity |].
  session_fields. cbn [timeLimit timeRemaining currentQ set_timeLimit].
  repeat split.
  - apply (durations_fit _ _ Hd).
  - exact Hanswers.
  - apply (right_id_L ∅ (∪)).
Qed.

End SessionProperties.

(** ** The countdown bar *)

Section CountdownBarProperties.

Context `{Float64} `{Lipgloss}.

Lemma barLoop_length steps i filled barColor fuseChar :
  length (barLoop steps i filled barColor fuseChar) = steps.
Proof.
  revert i. induction steps as [| steps IH]; intros i; cbn [barLoop length].
  - reflexivity.
  - now rewrite IH.
Qed.

Lemma barFilled_range timeRemaining totalTime width adjust :
  0 <= width -> 0 <= barFilled timeRemaining totalTime width adjust <= width.
Proof.
  intros Hw. unfold barFilled.
  set (filled := Int64.add _ adjust).
  destruct (Z.gtb_spec filled width) as [Hgt | Hle].
  - destruct (Z.ltb_spec width 0); lia.
  - destruct (Z.ltb_spec filled 0); lia.
Qed.

(** The loop draws the columns below [filled] and leaves the others
    blank. *)
Lemma barLoop_drawn steps i filled barColor fuseChar :
  0 <= i -> i + Z.of_nat steps <= Int64.max_int -> 0 <= filled <= Int64.max_int ->
  Z.of_nat (length (filter drawn (barLoop steps i filled barColor fuseChar))) =
  Z.max 0 (Z.min (i + Z.of_nat steps) filled - i).
Proof.
  revert i. induction steps as [| steps IH]; intros i Hi Hmax Hfilled.
  - cbn. lia.
  - cbn [barLoop].
    assert (Hsub : Int64.sub filled 1 = filled - 1).
    { apply Int64Facts.sub_small.
      unfold Int64.in_range, Int64.min_int, Int64.max_int in *. lia. }
    assert (Hadd : Int64.add i 1 = i + 1).
    { apply Int64Facts.add_small.
      unfold Int64.in_range, Int64.min_int, Int64.max_int in *. lia. }
    rewrite Hsub, Hadd.
    assert (Htail := IH (i + 1) ltac:(lia) ltac:(lia) Hfilled).
    destruct (Z.eqb_spec i (filled - 1)) as [Heq | Hne];
      [| destruct (Z.ltb_spec i filled)];
      rewrite ?filter_cons_True, ?filter_cons_False by (cbn; auto);
      cbn [length]; lia.
Qed.

(** The number of columns drawn is the number computed as [filled]. *)
Lemma barCells_drawn timeRemaining totalTime width adjust flashColorOverride fuseChar :
  0 <= width <= Int64.max_int ->
  Z.of_nat
    (length (filter drawn
               (barCells timeRemaining totalTime width adjust
                  flashColorOverride fuseChar))) =
  barFilled timeRemaining totalTime width adjust.
Proof.
  intros Hw. unfold barCells.
  pose proof (barFilled_range timeRemaining totalTime width adjust ltac:(lia)) as Hf.
  rewrite barLoop_drawn by lia. lia.
Qed.

(** C9. For every call of [renderCountdownBar] with time remaining, a
    width that is not negative and any total time, adjustment, colour
    override and fuse glyph (so for positive total time and width and an
    adjustment of -1, 0 or 1), the number of filled columns lies in
    [0, width] and the bar drawn between the brackets has exactly
    [width] cells. *)
Theorem countdown_bar_filled_in_range :
  forall timeRemaining totalTime width adjust flashColorOverride fuseChar,
    0 < timeRemaining -> 0 <= width ->
    0 <= barFilled timeRemaining totalTime width adjust <= width /\
    Z.of_nat
      (length (barCells timeRemaining totalTime width adjust
                 flashColorOverride fuseChar)) = width /\
    renderCountdownBar timeRemaining totalTime width adjust
      flashColorOverride fuseChar =
    "💣[" +:+
    concat_strings
      (map renderCell
         (barCells timeRemaining totalTime width adjust flashColorOverride fuseChar))
    +:+ "]".
Proof.
  intros timeRemaining totalTime width adjust flashColorOverride fuseChar Htr Hw.
  split; [apply barFilled_range; exact Hw |]. split.
  - unfold barCells. rewrite barLoop_length. lia.
  - unfold renderCountdownBar.
    destruct (Z.leb_spec timeRemaining 0); [lia | reflexivity].
Qed.

End CountdownBarProperties.

(** ** The properties on the reference collaborators *)

Import Reference.

Lemma countdown_bar_filled_in_range_witness :
  0 <= barFilled 29 30 30 1 <= 30 /\
  Z.of_nat (length (barCells 29 30 30 1 "" "*")) = 30 /\
  renderCountdownBar 29 30 30 1 "" "*" =
  "💣[" +:+ concat_strings (map renderCell (barCells 29 30 30 1 "" "*")) +:+ "]".
Proof.
  apply (countdown_bar_filled_in_range 29 30 30 1 "" "*"); lia.
Defined.

Example countdown_bar_full :
  renderCountdownBar 29 30 30 1 "" "*" = "💣[█████████████████████████████*]".
Proof. reflexivity. Qed.

Example countdown_bar_nearly_empty :
  barFilled 1 30 30 (-1) = 0 /\
  renderCountdownBar 1 30 30 (-1) "brightRed" "*" =
  "💣[                              ]".
Proof. split; reflexivity. Qed.

Lemma enter_records_only_integers_witness :
  let m := Reference.sampleRunning (30 * Second) "4" false in
  let k := mkKey KeyEnter "enter" in
  exists m' cmds w' r,
    Update 1 m (KeyMsg k) (Reference.world_of []) = Ok (m', cmds, w') /\
    answers m' = (answers m ++ [r])%list /\
    length (answers m') = S (length (answers m)) /\
    Question_ r = currentQ m /\
    UserInput r = rawInput m (KeyMsg k) /\
    (Correct r = true <-> 4 = Answer (currentQ m)).
Proof.
  intros m k.
  apply (proj2 (enter_records_only_integers 1 m k (Reference.world_of [])
                  eq_refl eq_refl) 4).
  reflexivity.
Defined.

Example enter_ignores_text_that_is_no_integer :
  let m := Reference.sampleRunning (30 * Second) "four" false in
  exists cmds,
    Update 1 m Reference.enter (Reference.world_of []) =
      Ok (m, cmds, Reference.world_of []).
Proof. eexists. reflexivity. Qed.

Lemma scoring_keeps_time_in_bounds_witness :
  let m := Reference.sampleRunning (30 * Second) "4" false in
  let k := mkKey KeyEnter "enter" in
  exists m' cmds w',
    Update 1 m (KeyMsg k) (Reference.world_of []) = Ok (m', cmds, w') /\
    timeLimit m' = timeLimit m /\
    Second <= timeRemaining m' <= timeLimit m' * Second /\
    timeRemaining m' =
      (if 4 =? Answer (currentQ m)
       then Z.min (timeRemaining m + Second) (timeLimit m * Second)
       else Z.max (timeRemaining m - Second) Second).
Proof.
  intros m k.
  apply (scoring_keeps_time_in_bounds 1 m k (Reference.world_of []) 4).
  - reflexivity.
  - reflexivity.
  - reflexivity.
  - vm_compute. discriminate.
  - split; vm_compute; discriminate.
Defined.

Lemma enter_during_flash_scores_again_witness :
  let m := Reference.sampleRunning (30 * Second) "4" true in
  let k := mkKey KeyEnter "enter" in
  exists m' w' r,
    Update 1 m (KeyMsg k) (Reference.world_of []) =
      Ok (m', [cmdFlashTimeout; cmdFlashFadeTick], w') /\
    answers m' = (answers m ++ [r])%list /\
    Question_ r = currentQ m /\
    Correct r = (4 =? Answer (currentQ m)) /\
    currentQ m' = currentQ m /\
    timeRemaining m' = scoredTime (4 =? Answer (currentQ m)) m /\
    state m' = stateRunning /\
    flashActive m' = true /\ suspendTick m' = true.
Proof.
  intros m k.
  apply (enter_during_flash_scores_again 1 m k (Reference.world_of []) 4);
    reflexivity.
Defined.

(** Two presses of Enter on one typed answer: the first scores it and
    blurs the input box, the second, arriving before the flash timeout,
    scores it again.  The history holds two records for one question,
    and a wrong answer has cost two seconds. *)
Example double_enter_two_records :
  Reference.observe
    (Reference.run 1 (Reference.sampleRunning (30 * Second) "5" false)
       [Reference.enter; Reference.enter] (Reference.world_of [])) =
  Some (stateRunning, 30, 28 * Second, Reference.sampleQuestion,
        ["1st Grade|42"],
        [(Reference.sampleQuestion, false); (Reference.sampleQuestion, false)]).
Proof. vm_compute. reflexivity. Qed.

Lemma pulse_tick_effect_witness :
  let m := Reference.sampleRunning (5 * Second) "" false in
  Update 0 m pulseTickMsg (Reference.world_of []) =
    Ok (pulsed m, [cmdPulseTick], Reference.world_of []) /\
  (10 * Second < timeRemaining m -> pulsed m = m) /\
  (timeRemaining m <= 10 * Second ->
   flashFadeSteps (pulsed m) = 1 /\
   flashColorOverride (pulsed m) =
     (if decide (flashColorOverride m = "") then "brightRed" else "") /\
   set_flashFadeSteps (flashFadeSteps m)
     (set_flashColorOverride (flashColorOverride m) (pulsed m)) =
   set_flashFadeSteps (flashFadeSteps m)
     (set_flashColorOverride (flashColorOverride m) m)).
Proof.
  intros m.
  apply (pulse_tick_effect 0 m (Reference.world_of [])). reflexivity.
Defined.

(** C5 as stated fails: with 5 seconds left, a pulse tick on a state
    whose [flashFadeSteps] is 0 returns a state whose [flashFadeSteps]
    is 1, so the override is not the only field that changes. *)
Lemma pulse_tick_changes_fade_steps :
  ~ (forall (C : Collaborators) fuel (m : model) w m' cmds w',
        state m = stateRunning ->
        timeRemaining m <= 10 * Second ->
        Update fuel m pulseTickMsg w = Ok (m', cmds, w') ->
        m' = set_flashColorOverride (flashColorOverride m') m).
Proof.
  intros Hall.
  pose (m := Reference.sampleRunning (5 * Second) "" false).
  assert (Hrun : Update 0 m pulseTickMsg (Reference.world_of []) =
                 Ok (pulsed m, [cmdPulseTick], Reference.world_of []))
    by reflexivity.
  apply (Hall Reference.collaborators) in Hrun.
  - apply (f_equal flashFadeSteps) in Hrun. vm_compute in Hrun. discriminate Hrun.
  - reflexivity.
  - vm_compute. discriminate.
Qed.

Lemma sampleTimeSelect_reachable : reachable Reference.sampleTimeSelect.
Proof.
  apply (reachable_step 0 initialModel Reference.enter (Reference.world_of [])
           Reference.sampleTimeSelect [cmdNil] (Reference.world_of [])).
  - apply reachable_init.
  - reflexivity.
Defined.

Lemma confirm_duration_starts_clean_episode_witness :
  exists m' w',
    Update 1 Reference.sampleTimeSelect (KeyMsg (mkKey KeyEnter "enter"))
      (Reference.world_of [3; 7; 1; 42]) =
      Ok (m', [cmdTick; cmdFuseTick; cmdPulseTick], w') /\
    state m' = stateRunning /\
    timeLimit m' = 30 /\
    timeRemaining m' = 30 * Second /\
    answers m' = [] /\
    usedQuestions m' = {[UniqueID (currentQ m')]}.
Proof.
  apply (confirm_duration_starts_clean_episode Reference.sampleTimeSelect 0
           (mkKey KeyEnter "enter") (Reference.world_of [3; 7; 1; 42])
           (mkItem "30s" "Brain Storm") 30).
  - exact sampleTimeSelect_reachable.
  - reflexivity.
  - reflexivity.
  - reflexivity.
  - left. reflexivity.
Defined.

Example first_question_of_episode :
  Reference.observe
    (Reference.run 1 initialModel
       [Reference.enter; Reference.key KeyOther "down"; Reference.enter]
       (Reference.world_of [3; 7; 1; 42])) =
  Some (stateRunning, 60, 60 * Second, Reference.sampleQuestion,
        ["1st Grade|42"], []).
Proof. vm_compute. reflexivity. Qed.


(** * Further properties *)

(** ** The question generator, tier by tier *)

Lemma genLocals_1stGrade : genLocals "1st Grade" = gen1stGrade.
Proof. reflexivity. Qed.

Lemma genLocals_3rdGrade : genLocals "3rd Grade" = gen3rdGrade.
Proof. reflexivity. Qed.

Lemma genLocals_5thGrade : genLocals "5th Grade" = gen5thGrade.
Proof. reflexivity. Qed.

Lemma genLocals_Algebra : genLocals "Algebra" = genAlgebra.
Proof. reflexivity. Qed.

Lemma genLocals_unknown difficulty :
  ~ In difficulty knownDifficulties -> genLocals difficulty = genFallback.
Proof.
  intros Hnot. unfold genLocals.
  repeat (destruct (decide _) as [-> | _];
          [exfalso; apply Hnot; cbn; tauto |]).
  reflexivity.
Qed.

Lemma gen3rdGrade_post :
  gen_post gen3rdGrade
    (fun l => exists a b,
       (0 <= a <= 20 /\ 0 <= b <= 20 /\
        (locals_binop l a "+" b "addition" (a + b) \/
         locals_binop l a "-" b "subtraction" (a - b))) \/
       (0 <= a <= 9 /\ 0 <= b <= 9 /\
        locals_binop l a "*" b "multiplication" (a * b))).
Proof.
  unfold gen3rdGrade.
  eapply gen_post_bind; [apply gen_post_Intn | intros a Ha; cbn in Ha].
  eapply gen_post_bind; [apply gen_post_Intn | intros b Hb; cbn in Hb].
  eapply gen_post_bind; [apply gen_post_Intn | intros i Hi; cbn in Hi].
  eapply gen_post_bind; [apply gen_post_slice_index | intros op Hop].
  apply slice3_cases in Hop as [-> | [-> | ->]]; [| | | exact Hi].
  - repeat gen_step; try congruence. int64_small.
    exists a, b. left. split; [lia | split; [lia | left; repeat split]].
  - repeat gen_step; try congruence. int64_small.
    exists a, b. left. split; [lia | split; [lia | right; repeat split]].
  - repeat gen_step; try congruence. int64_small.
    match goal with
    | |- context [mkLocals ?x ?y] => exists x, y
    end.
    right. split; [lia | split; [lia | repeat split]].
Qed.

Lemma gen5thGrade_full_post :
  gen_post gen5thGrade
    (fun l => exists a b,
       (10 <= a <= 99 /\ 10 <= b <= 99 /\
        (locals_binop l a "+" b "addition" (a + b) \/
         locals_binop l a "-" b "subtraction" (a - b))) \/
       (1 <= a <= 15 /\ 1 <= b <= 15 /\
        locals_binop l a "*" b "multiplication" (a * b)) \/
       (1 <= b <= 15 /\ 1 <= l_answer l <= 20 /\
        locals_binop l a "/" b "division" (l_answer l) /\
        a = b * l_answer l)).
Proof.
  unfold gen5thGrade.
  eapply gen_post_bind; [apply gen_post_Intn | intros i Hi; cbn in Hi].
  eapply gen_post_bind; [apply gen_post_slice_index | intros op Hop].
  apply slice4_cases in Hop as [-> | [-> | [-> | ->]]]; [| | | | exact Hi].
  all: repeat gen_step; try congruence; int64_small;
    match goal with
    | |- context [mkLocals ?x ?y] => exists x, y
    end.
  - left. split; [lia | split; [lia | left; repeat split]].
  - left. split; [lia | split; [lia | right; repeat split]].
  - right. left. split; [lia | split; [lia | repeat split]].
  - right. right. cbn [l_answer].
    split; [lia | split; [lia | split; [repeat split | reflexivity]]].
Qed.

Lemma genFallback_post :
  gen_post genFallback
    (fun l => exists a b,
       0 <= a <= 10 /\ 0 <= b <= 10 /\
       locals_binop l a "+" b "addition" (a + b)).
Proof.
  unfold genFallback. repeat gen_step. int64_small.
  match goal with
  | |- context [mkLocals ?x ?y] => exists x, y
  end.
  split; [lia | split; [lia | repeat split]].
Qed.

(** Removes every wrap-around whose operands are small, innermost
    first. *)
Ltac int64_exact :=
  repeat match goal with
    | |- context [Int64.add ?x ?y] =>
        rewrite (Int64Facts.add_small x y)
          by (unfold Int64.in_range, Int64.min_int, Int64.max_int; nia)
    | |- context [Int64.sub ?x ?y] =>
        rewrite (Int64Facts.sub_small x y)
          by (unfold Int64.in_range, Int64.min_int, Int64.max_int; nia)
    | |- context [Int64.mul ?x ?y] =>
        rewrite (Int64Facts.mul_small x y)
          by (unfold Int64.in_range, Int64.min_int, Int64.max_int; nia)
    end.

Lemma genAlgebra_templates :
  gen_post genAlgebra
    (fun l => algebra_template (l_text l) (l_opType l) (l_answer l)).
Proof.
  unfold genAlgebra.
  eapply gen_post_bind; [apply gen_post_Intn | intros format Hformat; cbn in Hformat].
  repeat gen_step; cbn [l_text l_opType l_answer]; try lia.
  all: int64_exact.
  all: try match goal with
           | |- context [if ?x =? 0 then 1 else _] => destruct (Z.eqb_spec x 0)
           end.
  all: int64_exact;
    first [ apply tpl_x_plus_n | apply tpl_x_minus_n | apply tpl_n_plus_x
          | apply tpl_n_minus_x | apply tpl_x_times_n | apply tpl_x_div_n
          | apply tpl_n_times_x ]; lia.
Qed.

Lemma generateQuestion_no_panic fuel :
  forall difficulty used w why,
    generateQuestion fuel difficulty used w <> Panic why.
Proof.
  induction fuel as [| fuel IH]; intros difficulty used w why.
  - discriminate.
  - cbn [generateQuestion]. unfold gbind.
    destruct (attempt_total difficulty w) as ([l id] & w1 & ->). cbn [fst snd].
    destruct (decide (id ∈ used)); [apply IH | discriminate].
Qed.

(** [generateQuestion] never panics, whatever the difficulty label, the
    used set and the random source: no draw is asked of an empty range
    and no slice is indexed out of range.  It returns a question, or its
    loop is still retrying when the fuel is spent. *)
Theorem generateQuestion_never_panics :
  forall fuel difficulty used w,
    (exists q used' w',
        generateQuestion fuel difficulty used w = Ok ((q, used'), w')) \/
    generateQuestion fuel difficulty used w = OutOfFuel.
Proof.
  intros fuel difficulty used w.
  destruct (generateQuestion fuel difficulty used w) as [[[q used'] w'] | why |] eqn:Hrun.
  - left. eauto.
  - exfalso. exact (generateQuestion_no_panic _ _ _ _ _ Hrun).
  - right. reflexivity.
Qed.

(** Every 1st Grade question is an addition or a subtraction of two
    numbers of [0,10], the larger first in a subtraction; the answer
    recorded is the value of the expression shown and lies in [0,20]. *)
Theorem first_grade_questions :
  forall fuel used w q used' w',
    generateQuestion fuel "1st Grade" used w = Ok ((q, used'), w') ->
    (exists a b,
       0 <= a <= 10 /\ 0 <= b <= 10 /\
       (binop_question q a "+" b "addition" (a + b) \/
        b <= a /\ binop_question q a "-" b "subtraction" (a - b))) /\
    0 <= Answer q <= 20.
Proof.
  intros fuel used w q used' w' Hrun.
  eapply generateQuestion_inv in Hrun as ((l & Hl & Ht & Ha & Ho) & _);
    [| exact gen1stGrade_post].
  destruct Hl as (Hcase & Hra & Hrb & Htext).
  unfold binop_question. rewrite Ht, Ha, Ho.
  destruct Hcase as [(Hop & Htype & Hans) | (Hop & Htype & Hle & Hans)];
    rewrite Hop in Htext.
  - split; [| lia]. exists (l_a l), (l_b l). repeat split; try lia. left. auto.
  - split; [| lia]. exists (l_a l), (l_b l). repeat split; try lia. right. auto.
Qed.

(** Every 3rd Grade question is an addition or a subtraction of two
    numbers of [0,20], the subtraction in the order drawn (its answer
    can be negative), or a product of two numbers of [0,9]; the answer
    recorded is the value of the expression shown. *)
Theorem third_grade_questions :
  forall fuel used w q used' w',
    generateQuestion fuel "3rd Grade" used w = Ok ((q, used'), w') ->
    (exists a b,
       (0 <= a <= 20 /\ 0 <= b <= 20 /\
        (binop_question q a "+" b "addition" (a + b) \/
         binop_question q a "-" b "subtraction" (a - b))) \/
       (0 <= a <= 9 /\ 0 <= b <= 9 /\
        binop_question q a "*" b "multiplication" (a * b))) /\
    -20 <= Answer q <= 81.
Proof.
  intros fuel used w q used' w' Hrun.
  eapply generateQuestion_inv in Hrun as ((l & Hl & Ht & Ha & Ho) & _);
    [| exact gen3rdGrade_post].
  destruct Hl as (a & b & Hl).
  unfold binop_question. unfold locals_binop in Hl. rewrite Ht, Ha, Ho.
  split; [exists a, b; exact Hl |].
  destruct Hl as [(Hra & Hrb & [(_ & _ & ->) | (_ & _ & ->)])
                 | (Hra & Hrb & _ & _ & ->)]; nia.
Qed.

(** Every 5th Grade question is an addition or a subtraction of two
    numbers of [10,99], a product of two numbers of [1,15], or an exact
    division by a number of [1,15] with a quotient of [1,20]; the answer
    recorded is the value of the expression shown. *)
Theorem fifth_grade_questions :
  forall fuel used w q used' w',
    generateQuestion fuel "5th Grade" used w = Ok ((q, used'), w') ->
    (exists a b,
       (10 <= a <= 99 /\ 10 <= b <= 99 /\
        (binop_question q a "+" b "addition" (a + b) \/
         binop_question q a "-" b "subtraction" (a - b))) \/
       (1 <= a <= 15 /\ 1 <= b <= 15 /\
        binop_question q a "*" b "multiplication" (a * b)) \/
       (1 <= b <= 15 /\ 1 <= Answer q <= 20 /\
        binop_question q a "/" b "division" (Answer q) /\
        a = b * Answer q)) /\
    -89 <= Answer q <= 225.
Proof.
  intros fuel used w q used' w' Hrun.
  eapply generateQuestion_inv in Hrun as ((l & Hl & Ht & Ha & Ho) & _);
    [| exact gen5thGrade_full_post].
  destruct Hl as (a & b & Hl).
  unfold binop_question. unfold locals_binop in Hl. rewrite Ht, Ha, Ho.
  split; [exists a, b; exact Hl |].
  destruct Hl as [(Hra & Hrb & [(_ & _ & ->) | (_ & _ & ->)])
                 | [(Hra & Hrb & _ & _ & ->) | (Hrb & Hans & _)]]; nia.
Qed.

(** A difficulty label that is none of the four known ones gets the
    fallback: an addition of two numbers of [0,10]. *)
Theorem unknown_difficulty_questions :
  forall difficulty fuel used w q used' w',
    ~ In difficulty knownDifficulties ->
    generateQuestion fuel difficulty used w = Ok ((q, used'), w') ->
    exists a b,
      0 <= a <= 10 /\ 0 <= b <= 10 /\
      binop_question q a "+" b "addition" (a + b).
Proof.
  intros difficulty fuel used w q used' w' Hunknown Hrun.
  eapply generateQuestion_inv in Hrun as ((l & Hl & Ht & Ha & Ho) & _);
    [| rewrite (genLocals_unknown _ Hunknown); exact genFallback_post].
  destruct Hl as (a & b & Hl).
  unfold binop_question. unfold locals_binop in Hl. rewrite Ht, Ha, Ho.
  exists a, b. exact Hl.
Qed.

(** Every Algebra question follows one of the seven templates: the
    right-hand side it shows is the value of its left-hand side at the
    recorded answer, with the ranges of the template. *)
Theorem algebra_questions_follow_templates :
  forall fuel used w q used' w',
    generateQuestion fuel "Algebra" used w = Ok ((q, used'), w') ->
    algebra_template (Text q) (OpType q) (Answer q).
Proof.
  intros fuel used w q used' w' Hrun.
  eapply generateQuestion_inv in Hrun as ((l & Hl & Ht & Ha & Ho) & _);
    [| exact genAlgebra_templates].
  rewrite Ht, Ha, Ho. exact Hl.
Qed.

Lemma gen_post_weaken {A} (c : Gen A) (P Q : A -> Prop) :
  gen_post c P -> (forall a, P a -> Q a) -> gen_post c Q.
Proof. intros Hc HPQ w a w' Hrun. apply HPQ. exact (Hc w a w' Hrun). Qed.

Lemma genLocals_tags difficulty :
  gen_post (genLocals difficulty)
    (fun l => if decide (difficulty = "Algebra")
              then In (l_opType l) algebraTags
              else In (l_opType l) arithmeticTags).
Proof.
  destruct (decide (difficulty = "Algebra")) as [-> | HA].
  { rewrite genLocals_Algebra.
    eapply gen_post_weaken; [exact genAlgebra_templates |].
    intros l Hl. inversion Hl; cbn; tauto. }
  unfold genLocals.
  destruct (decide (difficulty = "1st Grade")) as [H1 | H1].
  { eapply gen_post_weaken; [exact gen1stGrade_post |].
    intros l Hl. cbv beta.
    destruct Hl as ([(_ & -> & _) | (_ & -> & _)] & _); cbn; tauto. }
  destruct (decide (difficulty = "3rd Grade")) as [H3 | H3].
  { eapply gen_post_weaken; [exact gen3rdGrade_post |].
    intros l Hl. cbv beta. unfold locals_binop in Hl.
    destruct Hl as (a & b & [(_ & _ & [(_ & -> & _) | (_ & -> & _)])
                            | (_ & _ & _ & -> & _)]); cbn; tauto. }
  destruct (decide (difficulty = "5th Grade")) as [H5 | H5].
  { eapply gen_post_weaken; [exact gen5thGrade_full_post |].
    intros l Hl. cbv beta. unfold locals_binop in Hl.
    destruct Hl as (a & b & [(_ & _ & [(_ & -> & _) | (_ & -> & _)])
                            | [(_ & _ & _ & -> & _) | (_ & _ & (_ & -> & _) & _)]]);
      cbn; tauto. }
  destruct (decide (difficulty = "Algebra")) as [Heq | _]; [contradiction |].
  eapply gen_post_weaken; [exact genFallback_post |].
  intros l Hl. cbv beta. unfold locals_binop in Hl.
  destruct Hl as (a & b & _ & _ & _ & -> & _). cbn. tauto.
Qed.

(** The tag of a question starts with "algebra_" exactly when the
    question was asked for at the Algebra difficulty; every tag is one
    of the eight known ones. *)
Theorem algebra_prefix_iff_algebra_difficulty :
  forall difficulty fuel used w q used' w',
    generateQuestion fuel difficulty used w = Ok ((q, used'), w') ->
    In (OpType q) (arithmeticTags ++ algebraTags) /\
    (HasPrefix (OpType q) "algebra_" = true <-> difficulty = "Algebra").
Proof.
  intros difficulty fuel used w q used' w' Hrun.
  eapply generateQuestion_inv in Hrun as ((l & Hl & _ & _ & Ho) & _);
    [| exact (genLocals_tags difficulty)].
  rewrite Ho. cbv beta in Hl.
  destruct (decide (difficulty = "Algebra")) as [Heq | Hne].
  - split; [apply in_or_app; right; exact Hl |].
    split; [intros _; exact Heq | intros _].
    cbn in Hl. destruct Hl as [Ht | [Ht | [Ht | [Ht | []]]]];
      rewrite <- Ht; reflexivity.
  - split; [apply in_or_app; left; exact Hl |].
    split; [intros Hpre; exfalso | intros Heq; contradiction].
    cbn in Hl. destruct Hl as [Ht | [Ht | [Ht | [Ht | []]]]];
      rewrite <- Ht in Hpre; discriminate Hpre.
Qed.

(** Sample runs of the generator. *)
Lemma sample_run_1stGrade :
  generateQuestion 1 "1st Grade" ∅ (Reference.world_of [3; 7; 0; 42]) =
  Ok ((mkQuestion "3 + 7 = ?" 10 "addition" "1st Grade|42", {["1st Grade|42"]} ∪ ∅),
      Reference.world_after [3; 7; 0; 42] 4).
Proof. vm_compute. reflexivity. Qed.

Lemma sample_run_3rdGrade :
  generateQuestion 1 "3rd Grade" ∅ (Reference.world_of [3; 17; 1; 42]) =
  Ok ((mkQuestion "3 - 17 = ?" (-14) "subtraction" "3rd Grade|42",
       {["3rd Grade|42"]} ∪ ∅),
      Reference.world_after [3; 17; 1; 42] 4).
Proof. vm_compute. reflexivity. Qed.

Lemma sample_run_5thGrade :
  generateQuestion 1 "5th Grade" ∅ (Reference.world_of [2; 14; 14; 42]) =
  Ok ((mkQuestion "15 * 15 = ?" 225 "multiplication" "5th Grade|42",
       {["5th Grade|42"]} ∪ ∅),
      Reference.world_after [2; 14; 14; 42] 4).
Proof. vm_compute. reflexivity. Qed.

Lemma sample_run_unknown :
  generateQuestion 1 "Kindergarten" ∅ (Reference.world_of [3; 7; 42]) =
  Ok ((mkQuestion "3 + 7 = ?" 10 "addition" "Kindergarten|42",
       {["Kindergarten|42"]} ∪ ∅),
      Reference.world_after [3; 7; 42] 3).
Proof. vm_compute. reflexivity. Qed.

Lemma sample_run_Algebra :
  generateQuestion 1 "Algebra" ∅ (Reference.world_of [3; 0; 2; 42]) =
  Ok ((mkQuestion "-18 - x = 2. What is x?" (-20) "algebra_subtraction" "Algebra|42",
       {["Algebra|42"]} ∪ ∅),
      Reference.world_after [3; 0; 2; 42] 4).
Proof. vm_compute. reflexivity. Qed.

Lemma first_grade_questions_witness :
  let q := mkQuestion "3 + 7 = ?" 10 "addition" "1st Grade|42" in
  (exists a b,
     0 <= a <= 10 /\ 0 <= b <= 10 /\
     (binop_question q a "+" b "addition" (a + b) \/
      b <= a /\ binop_question q a "-" b "subtraction" (a - b))) /\
  0 <= Answer q <= 20.
Proof.
  intros q. exact (first_grade_questions _ _ _ _ _ _ sample_run_1stGrade).
Defined.

Lemma third_grade_questions_witness :
  let q := mkQuestion "3 - 17 = ?" (-14) "subtraction" "3rd Grade|42" in
  (exists a b,
     (0 <= a <= 20 /\ 0 <= b <= 20 /\
      (binop_question q a "+" b "addition" (a + b) \/
       binop_question q a "-" b "subtraction" (a - b))) \/
     (0 <= a <= 9 /\ 0 <= b <= 9 /\
      binop_question q a "*" b "multiplication" (a * b))) /\
  -20 <= Answer q <= 81.
Proof.
  intros q. exact (third_grade_questions _ _ _ _ _ _ sample_run_3rdGrade).
Defined.

Lemma fifth_grade_questions_witness :
  let q := mkQuestion "15 * 15 = ?" 225 "multiplication" "5th Grade|42" in
  (exists a b,
     (10 <= a <= 99 /\ 10 <= b <= 99 /\
      (binop_question q a "+" b "addition" (a + b) \/
       binop_question q a "-" b "subtraction" (a - b))) \/
     (1 <= a <= 15 /\ 1 <= b <= 15 /\
      binop_question q a "*" b "multiplication" (a * b)) \/
     (1 <= b <= 15 /\ 1 <= Answer q <= 20 /\
      binop_question q a "/" b "division" (Answer q) /\
      a = b * Answer q)) /\
  -89 <= Answer q <= 225.
Proof.
  intros q. exact (fifth_grade_questions _ _ _ _ _ _ sample_run_5thGrade).
Defined.

Lemma unknown_difficulty_questions_witness :
  let q := mkQuestion "3 + 7 = ?" 10 "addition" "Kindergarten|42" in
  exists a b,
    0 <= a <= 10 /\ 0 <= b <= 10 /\
    binop_question q a "+" b "addition" (a + b).
Proof.
  intros q.
  apply (unknown_difficulty_questions "Kindergarten" _ _ _ _ _ _
           ltac:(cbn; intuition discriminate) sample_run_unknown).
Defined.

Lemma algebra_questions_follow_templates_witness :
  algebra_template "-18 - x = 2. What is x?" "algebra_subtraction" (-20).
Proof.
  exact (algebra_questions_follow_templates _ _ _ _ _ _ sample_run_Algebra).
Defined.

Lemma algebra_prefix_iff_algebra_difficulty_witness :
  In "algebra_subtraction" (arithmeticTags ++ algebraTags) /\
  (HasPrefix "algebra_subtraction" "algebra_" = true <-> "Algebra" = "Algebra").
Proof.
  exact (algebra_prefix_iff_algebra_difficulty _ _ _ _ _ _ _ sample_run_Algebra).
Defined.

(** ** Whole seconds *)

Lemma whole_seconds_mul l : (l * Second) mod Second = 0.
Proof. apply Z.mod_mul. discriminate. Qed.

Lemma whole_seconds_add t : t mod Second = 0 -> (t + Second) mod Second = 0.
Proof.
  intros Ht. rewrite <- (Z.mul_1_l Second) at 1.
  rewrite Z.mod_add by discriminate. exact Ht.
Qed.

Lemma whole_seconds_sub t : t mod Second = 0 -> (t - Second) mod Second = 0.
Proof.
  intros Ht. replace (t - Second) with (t + (-1) * Second) by lia.
  rewrite Z.mod_add by discriminate. exact Ht.
Qed.

Lemma whole_seconds_pos t : t mod Second = 0 -> 0 < t -> Second <= t.
Proof.
  intros Ht Hpos.
  pose proof (Z.div_mod t Second ltac:(discriminate)) as Hdiv.
  rewrite Ht in Hdiv. unfold Second in *. lia.
Qed.

(** ** The state machine *)

Section SessionMachine.

Context `{Collaborators}.

Ltac model_fields :=
  cbn [state difficulty timeLimit list_ timeList textInput currentQ
       usedQuestions answers startTime totalStart questionStart
       timeRemaining timerActive suspendTick flashText flashColor
       flashActive flashBarAdjust flashFadeSteps flashColorOverride
       fuseFrameIndex fuseFrames
       set_state set_difficulty set_timeLimit set_list set_timeList
       set_textInput set_currentQ set_usedQuestions set_answers
       set_startTime set_totalStart set_questionStart set_timeRemaining
       set_suspendTick set_flashText set_flashColor set_flashActive
       set_flashBarAdjust set_flashFadeSteps set_flashColorOverride
       set_fuseFrameIndex] in *.

Ltac state_consts :=
  unfold stateMenu, stateTimeSelect, stateRunning, stateResults in *.

Ltac unfold_handlers H :=
  unfold Update, updateMenu, updateTimeSelect, updateRunning,
    updateRunningInput, updateResults, scoreAnswer, selectTimeLimit, Now in H.

(** [Update] changes the state only along the transitions of the state
    machine, each on the message that triggers it: Menu to TimeSelect on
    Enter, TimeSelect to Running on "enter" and to Menu on "left",
    Running to Results on a tick and to Menu on "q", Results to Menu on
    "left", and a value that is no state to Menu. *)
Theorem Update_follows_transitions :
  forall fuel (m : model) msg w m' cmds w',
    Update fuel m msg w = Ok (m', cmds, w') ->
    state m' = state m \/ transition (state m) msg (state m').
Proof.
  intros fuel m msg w m' cmds w' Hrun.
  unfold_handlers Hrun.
  repeat case_match; simplify_eq; model_fields;
    try (left; reflexivity); right;
    repeat match goal with
      | Hs : (state _ =? _) = true |- _ => apply Z.eqb_eq in Hs
      | Hs : (state _ =? _) = false |- _ => apply Z.eqb_neq in Hs
      end;
    try match goal with
      | Hs : state ?m = _ |- context [state ?m] => rewrite Hs
      end.
  all: first [ apply tr_menu_confirm; assumption
             | apply tr_time_confirm; assumption
             | apply tr_time_back; assumption
             | apply tr_running_expired
             | apply tr_running_quit; assumption
             | apply tr_results_back; assumption
             | apply tr_recover; assumption ].
Qed.

(** *** Invariants of the reachable states *)

Lemma Update_preserves_fuse fuel (m : model) msg w m' cmds w' :
  fuse_ok m ->
  Update fuel m msg w = Ok (m', cmds, w') ->
  fuse_ok m'.
Proof.
  unfold fuse_ok. intros [Hframes Hidx] Hrun.
  unfold_handlers Hrun.
  repeat case_match; simplify_eq; model_fields; try (split; assumption).
  split; [assumption |].
  rewrite Hframes. change (len (fuseFrames initialModel)) with 4.
  rewrite Int64Facts.add_small
    by (unfold Int64.in_range, Int64.min_int, Int64.max_int; lia).
  pose proof (Z.rem_bound_pos (fuseFrameIndex m + 1) 4 ltac:(lia) ltac:(lia)).
  lia.
Qed.

Lemma Update_preserves_ids fuel (m : model) msg w m' cmds w' :
  clean_outside_episode m -> ids_registered m ->
  Update fuel m msg w = Ok (m', cmds, w') ->
  ids_registered m'.
Proof.
  unfold clean_outside_episode, ids_registered. intros Hclean Hids Hrun.
  unfold_handlers Hrun.
  repeat case_match; simplify_eq; model_fields;
    repeat match goal with
      | Hs : (state _ =? _) = true |- _ => apply Z.eqb_eq in Hs
      | Hs : (state _ =? _) = false |- _ => apply Z.eqb_neq in Hs
      | Hg : generateQuestion _ _ _ _ = Ok _ |- _ =>
          apply (generateQuestion_inv (fun _ => True)) in Hg as (_ & _ & ->);
          [| intros ? ? ? ?; exact I]
      end;
    try (intros [Hc | Hc]; state_consts; congruence);
    try (intros _; destruct Hids as [Hcur Hall];
         [state_consts; auto; fail |];
         split; [first [assumption | apply elem_of_union_l, elem_of_singleton; reflexivity
                        | apply elem_of_union_r; assumption] | intros r Hr];
         try (apply in_app_or in Hr as [Hr | [<- | []]]; cbn [Question_]);
         first [assumption | apply elem_of_union_r; auto | auto]; fail).
  (* the first question of an episode *)
  all: intros _;
    match goal with
    | Hs : state _ = stateTimeSelect, Hc : _ \/ _ -> _ /\ _ |- _ =>
        destruct (Hc (or_intror Hs)) as [-> _]
    end;
    split; [apply elem_of_union_l, elem_of_singleton; reflexivity | intros r []].
Qed.

Ltac bool_props :=
  repeat match goal with
    | Hb : (_ <=? _) = true |- _ => apply Z.leb_le in Hb
    | Hb : (_ <=? _) = false |- _ => apply Z.leb_gt in Hb
    | Hb : (_ <? _) = true |- _ => apply Z.ltb_lt in Hb
    | Hb : (_ <? _) = false |- _ => apply Z.ltb_ge in Hb
    | Hb : (_ >? _) = true |- _ => apply Z.gtb_lt in Hb
    | Hb : (_ >? _) = false |- _ => rewrite Z.gtb_ltb in Hb; apply Z.ltb_ge in Hb
    | Hb : (_ =? _) = true |- _ => apply Z.eqb_eq in Hb
    | Hb : (_ =? _) = false |- _ => apply Z.eqb_neq in Hb
    end.

Ltac pick_case :=
  lazymatch goal with
  | |- _ /\ _ => split; pick_case
  | |- _ \/ _ => first [left; pick_case | right; pick_case]
  | |- _ => first [assumption | reflexivity]
  end.

Lemma Update_time_step fuel (m : model) msg w m' cmds w' :
  Update fuel m msg w = Ok (m', cmds, w') -> time_step m m'.
Proof.
  unfold time_step. intros Hrun.
  unfold_handlers Hrun.
  repeat case_match; simplify_eq; model_fields; bool_props; pick_case.
Qed.

Lemma known_timeLimit_range (m : model) :
  known_timeLimit m -> 0 <= timeLimit m <= 120.
Proof.
  unfold known_timeLimit. cbn. intros [<- | [<- | [<- | [<- | [<- | []]]]]]; lia.
Qed.

Lemma Update_preserves_time fuel (m : model) msg w m' cmds w' :
  known_timeLimit m -> time_ok m ->
  Update fuel m msg w = Ok (m', cmds, w') ->
  time_ok m'.
Proof.
  intros Hlim [Hrunning Hresults] Hrun.
  pose proof (known_timeLimit_range _ Hlim) as Hl.
  pose proof (known_timeLimit_range _
                (Update_preserves_timeLimit _ _ _ _ _ _ _ Hlim Hrun)) as Hl'.
  pose proof (Update_time_step _ _ _ _ _ _ _ Hrun) as Hstep.
  assert (Hmul : forall l, 0 <= l <= 120 -> Int64.mul l Second = l * Second).
  { intros l Hrange. apply Int64Facts.mul_small.
    unfold Int64.in_range, Int64.min_int, Int64.max_int, Second. lia. }
  assert (Hadd : forall t, 0 <= t <= 120 * Second ->
                           Int64.add t Second = t + Second).
  { intros t Hrange. apply Int64Facts.add_small.
    unfold Int64.in_range, Int64.min_int, Int64.max_int, Second in *. lia. }
  assert (Hsub : forall t, 0 <= t <= 120 * Second ->
                           Int64.sub t Second = t - Second).
  { intros t Hrange. apply Int64Facts.sub_small.
    unfold Int64.in_range, Int64.min_int, Int64.max_int, Second in *. lia. }
  assert (HS : Second = 1000000000) by reflexivity.
  unfold time_ok.
  destruct Hstep as [Hs | [Hs | [(Hs & Hs' & Ht) | [(Hs & Hs' & Ht) | (Hs & Hlimit & Hcase)]]]].
  - split; intros Hc; rewrite Hs in Hc; discriminate Hc.
  - split; intros Hc; rewrite Hs in Hc; discriminate Hc.
  - split; intros Hc; [| rewrite Hs' in Hc; discriminate Hc].
    rewrite Ht, (Hmul _ Hl').
    split; [apply whole_seconds_mul |]. lia.
  - split; intros Hc; [rewrite Hs' in Hc; discriminate Hc |].
    rewrite Ht. exact (Hresults Hs).
  - destruct (Hrunning Hs) as (Hmod & Hbound & Hpos).
    assert (Htr : 0 <= timeRemaining m <= 120 * Second) by lia.
    rewrite (Hmul _ Hl), (Hadd _ Htr), (Hsub _ Htr) in Hcase.
    rewrite Hlimit.
    destruct Hcase as
      [(Hs' & Ht) | [(Hs' & Ht & Hle) | [(Hs' & Ht & Hle) | [(Hs' & Ht & Hlt)
      | [(Hs' & Ht & Hlt) | [(Hs' & Ht & Hle) | [(Hs' & Ht) | (Hs' & Ht & Hle)]]]]]]];
      (split; intros Hc; [| try (rewrite Hs' in Hc; discriminate Hc)];
       try (rewrite Hs' in Hc; discriminate Hc)); rewrite Ht.
    + repeat split; (assumption || lia).
    + lia.
    + lia.
    + split; [apply whole_seconds_sub; exact Hmod |].
      pose proof (whole_seconds_pos _ (whole_seconds_sub _ Hmod) ltac:(lia)). lia.
    + split; [apply whole_seconds_mul |]. lia.
    + split; [apply whole_seconds_add; exact Hmod |]. lia.
    + split; [reflexivity |]. lia.
    + split; [apply whole_seconds_sub; exact Hmod |]. lia.
Qed.

(** The invariants hold of the initial model and [Update] keeps them. *)
Lemma reachable_session_invariants (m : model) :
  reachable m -> fuse_ok m /\ ids_registered m /\ time_ok m.
Proof.
  induction 1 as [| fuel m msg w m' cmds w' Hreach (Hfuse & Hids & Htime) Hrun].
  - split; [split; [reflexivity | cbn; lia] |].
    split; [intros [Hc | Hc]; discriminate Hc |].
    split; intros Hc; discriminate Hc.
  - destruct (reachable_invariant m Hreach) as [_ Hclean].
    destruct (reachable_timeLimit m Hreach) as [Hlim _].
    split; [exact (Update_preserves_fuse _ _ _ _ _ _ _ Hfuse Hrun) |].
    split; [exact (Update_preserves_ids _ _ _ _ _ _ _ Hclean Hids Hrun) |].
    exact (Update_preserves_time _ _ _ _ _ _ _ Hlim Htime Hrun).
Qed.

(** In the reachable states the time left stays within the budget:
    while Running it is a whole number of seconds, at least one second
    and at most the limit once a duration was chosen; on the results
    page it is used up. *)
Theorem reachable_time_within_budget :
  forall m : model,
    reachable m ->
    (state m = stateRunning ->
     timeRemaining m mod Second = 0 /\
     0 <= timeRemaining m /\
     (timeLimit m <> 0 -> Second <= timeRemaining m <= timeLimit m * Second)) /\
    (state m = stateResults -> timeRemaining m <= 0).
Proof.
  intros m Hreach.
  destruct (reachable_session_invariants m Hreach) as (_ & _ & Hrunning & Hresults).
  destruct (reachable_timeLimit m Hreach) as [Hlim _].
  pose proof (known_timeLimit_range m Hlim) as Hl.
  split; [| exact Hresults].
  intros Hs. destruct (Hrunning Hs) as (Hmod & Hbound & Hpos).
  split; [exact Hmod |]. split; [lia |].
  intros Hne. specialize (Hpos Hne).
  assert (Second <= timeLimit m * Second).
  { unfold known_timeLimit in Hlim. cbn in Hlim. unfold Second.
    destruct Hlim as [Hz | [Hz | [Hz | [Hz | [Hz | []]]]]]; lia. }
  lia.
Qed.

(** In the reachable states of an episode and of the results page, the
    id of the current question and the id of every answered question
    are in the used-question set. *)
Theorem reachable_ids_registered :
  forall m : model,
    reachable m ->
    state m = stateRunning \/ state m = stateResults ->
    (UniqueID (currentQ m) ∈ usedQuestions m) /\
    forall r, In r (answers m) -> UniqueID (Question_ r) ∈ usedQuestions m.
Proof.
  intros m Hreach Hs.
  destruct (reachable_session_invariants m Hreach) as (_ & Hids & _).
  exact (Hids Hs).
Qed.


(** From a reachable state [Update] never panics, whatever the message,
    the random source and the clock. *)
Theorem reachable_Update_never_panics :
  forall (m : model) fuel msg w why,
    reachable m -> Update fuel m msg w <> Panic why.
Proof.
  intros m fuel msg w why Hreach Hrun.
  destruct (reachable_session_invariants m Hreach) as ((Hframes & _) & _).
  unfold_handlers Hrun.
  repeat case_match; simplify_eq;
    try match goal with
      | Hg : generateQuestion _ _ _ _ = Panic _ |- _ =>
          exact (generateQuestion_no_panic _ _ _ _ _ Hg)
      end.
  match goal with
  | Hl : (len (fuseFrames m) =? 0) = true |- _ =>
      rewrite Hframes in Hl; discriminate Hl
  end.
Qed.

(** *** The handlers of the Running state, message by message *)

(** A tick while Running. *)
Lemma Update_running_tick fuel (m : model) t w :
  state m = stateRunning ->
  Update fuel m (tickMsg t) w =
    let m1 := if suspendTick m then m
              else set_timeRemaining (Int64.sub (timeRemaining m) Second) m in
    if timeRemaining m1 <=? 0
    then Ok (set_state stateResults m1, [], Print bell w)
    else Ok (set_textInput (inputAfter m (tickMsg t)) m1,
             [cmdTick; (textinput_Update (textInput m) (tickMsg t)).2], w).
Proof.
  intros Hstate. rewrite (Update_running fuel m (tickMsg t) Hstate).
  unfold updateRunning, updateRunningInput, inputAfter. cbv zeta.
  destruct (suspendTick m).
  - destruct (timeRemaining m <=? 0); [reflexivity |].
    destruct (textinput_Update (textInput m) (tickMsg t)) as [ti cmd]. reflexivity.
  - change (timeRemaining (set_timeRemaining (Int64.sub (timeRemaining m) Second) m))
      with (Int64.sub (timeRemaining m) Second).
    destruct (Int64.sub (timeRemaining m) Second <=? 0); [reflexivity |].
    change (textInput (set_timeRemaining (Int64.sub (timeRemaining m) Second) m))
      with (textInput m).
    destruct (textinput_Update (textInput m) (tickMsg t)) as [ti cmd]. reflexivity.
Qed.

(** The flash timeout while Running. *)
Lemma Update_running_flashDone fuel (m : model) w :
  state m = stateRunning ->
  Update fuel m flashDoneMsg w =
    match generateQuestion fuel (difficulty m) (usedQuestions m) w with
    | Ok (q, used, w1) =>
        Ok (set_questionStart (Now w1).1
              (set_suspendTick false
                 (set_usedQuestions used
                    (set_currentQ q
                       (set_textInput
                          (textinput_Focus
                             (textinput_Reset (inputAfter m flashDoneMsg)))
                          (set_flashBarAdjust 0
                             (set_flashColorOverride ""
                                (set_flashActive false m))))))),
            [(textinput_Update (textInput m) flashDoneMsg).2], (Now w1).2)
    | Panic why => Panic why
    | OutOfFuel => OutOfFuel
    end.
Proof.
  intros Hstate. rewrite (Update_running fuel m flashDoneMsg Hstate).
  unfold updateRunning, updateRunningInput, inputAfter.
  destruct (textinput_Update (textInput m) flashDoneMsg) as [ti cmd].
  cbn [fst snd].
  change (difficulty _) with (difficulty m) at 1.
  change (usedQuestions _) with (usedQuestions m) at 1.
  destruct (generateQuestion fuel (difficulty m) (usedQuestions m) w)
    as [[[q used] w1] | |]; reflexivity.
Qed.


(** When the flash timeout is handled in a reachable Running state, the
    flash is torn down, the tick resumes, the input box is reset and
    focused, and the next question is one [generateQuestion] returns for
    the stored difficulty: its id was not in use, so it differs from the
    id of the previous question and of every answered question, and it
    is added to the used set.  The history is left alone. *)
Theorem flash_timeout_brings_fresh_question :
  forall (m : model) fuel w m' cmds w',
    reachable m ->
    state m = stateRunning ->
    Update fuel m flashDoneMsg w = Ok (m', cmds, w') ->
    (exists used' w1,
        generateQuestion fuel (difficulty m) (usedQuestions m) w =
          Ok ((currentQ m', used'), w1)) /\
    (UniqueID (currentQ m') ∉ usedQuestions m) /\
    UniqueID (currentQ m') <> UniqueID (currentQ m) /\
    (forall r, In r (answers m') ->
               UniqueID (Question_ r) <> UniqueID (currentQ m')) /\
    usedQuestions m' = {[UniqueID (currentQ m')]} ∪ usedQuestions m /\
    answers m' = answers m /\
    state m' = stateRunning /\
    flashActive m' = false /\ suspendTick m' = false /\
    flashColorOverride m' = "" /\ flashBarAdjust m' = 0 /\
    timeRemaining m' = timeRemaining m /\
    textInput m' =
      textinput_Focus (textinput_Reset (inputAfter m flashDoneMsg)).
Proof.
  intros m fuel w m' cmds w' Hreach Hstate Hrun.
  destruct (reachable_session_invariants m Hreach) as (_ & Hids & _).
  destruct (Hids (or_introl Hstate)) as [Hcur Hall].
  rewrite (Update_running_flashDone fuel m w Hstate) in Hrun.
  destruct (generateQuestion fuel (difficulty m) (usedQuestions m) w)
    as [[[q used] w1] | |] eqn:Hgen; try discriminate Hrun.
  injection Hrun as <- _ _. model_fields.
  pose proof Hgen as Hinv.
  apply (generateQuestion_inv (fun _ => True)) in Hinv as (_ & Hfresh & ->);
    [| intros ? ? ? ?; exact I].
  split; [eauto |]. split; [exact Hfresh |].
  split; [intros Heq; apply Hfresh; rewrite Heq; exact Hcur |].
  split; [intros r Hr Heq; apply Hfresh; rewrite <- Heq; exact (Hall r Hr) |].
  repeat split; assumption.
Qed.

(** The next question does arrive: the flash timeout returns within
    [k + 1] iterations of the generator's loop as soon as the random
    source yields an unused id at its [k]-th retry. *)
Theorem flash_timeout_returns :
  forall (m : model) k w,
    state m = stateRunning ->
    fresh_at (difficulty m) (usedQuestions m) k w ->
    exists m' cmds w', Update (S k) m flashDoneMsg w = Ok (m', cmds, w').
Proof.
  intros m k w Hstate Hfresh.
  rewrite (Update_running_flashDone (S k) m w Hstate).
  destruct (generateQuestion_returns _ _ _ _ Hfresh) as (q & used' & w1 & ->).
  eauto.
Qed.

(** Counting down: from a Running state that is not suspended and has
    [n + 1] seconds left, the first [n] ticks each take one second and
    leave the session Running; the next one takes the last second, rings
    the bell once and opens the results page.  Questions and answers are
    not touched. *)
Theorem ticks_run_the_clock_out :
  forall (n : nat) fuel (m : model) ts w,
    state m = stateRunning ->
    suspendTick m = false ->
    length ts = S n ->
    timeRemaining m = Z.of_nat (S n) * Second ->
    Z.of_nat (S n) * Second <= Int64.max_int ->
    (forall j, (j <= n)%nat ->
       exists mj trace wj,
         runMsgs fuel m (map tickMsg (take j ts)) w = Ok (mj, trace, wj) /\
         state mj = stateRunning /\
         timeRemaining mj = Z.of_nat (S n - j) * Second /\
         stdout wj = stdout w) /\
    exists m' trace w',
      runMsgs fuel m (map tickMsg ts) w = Ok (m', trace, w') /\
      state m' = stateResults /\
      timeRemaining m' = 0 /\
      stdout w' = (stdout w ++ [bell])%list /\
      answers m' = answers m /\ currentQ m' = currentQ m /\
      usedQuestions m' = usedQuestions m.
Proof.
  assert (Hstep : forall fuel (m : model) t w c,
             state m = stateRunning -> suspendTick m = false ->
             1 <= c -> c * Second <= Int64.max_int ->
             timeRemaining m = c * Second ->
             Update fuel m (tickMsg t) w =
               if c =? 1
               then Ok (set_state stateResults
                          (set_timeRemaining ((c - 1) * Second) m), [],
                        Print bell w)
               else Ok (set_textInput (inputAfter m (tickMsg t))
                          (set_timeRemaining ((c - 1) * Second) m),
                        [cmdTick; (textinput_Update (textInput m) (tickMsg t)).2],
                        w)).
  { intros fuel m t w c Hstate Hsusp Hc Hmax Htr.
    rewrite (Update_running_tick fuel m t w Hstate). cbv zeta.
    rewrite Hsusp, Htr.
    rewrite Int64Facts.sub_small
      by (unfold Int64.in_range, Int64.min_int, Int64.max_int, Second in *; lia).
    replace (c * Second - Second) with ((c - 1) * Second) by lia.
    change (timeRemaining (set_timeRemaining ((c - 1) * Second) m))
      with ((c - 1) * Second).
    destruct (Z.eqb_spec c 1) as [-> | Hne].
    - reflexivity.
    - destruct (Z.leb_spec ((c - 1) * Second) 0) as [Hle | _]; [| reflexivity].
      unfold Second in Hle. lia. }
  induction n as [| n IH]; intros fuel m ts w Hstate Hsusp Hlen Htr Hmax.
  - destruct ts as [| t [| t' ts]]; try discriminate Hlen.
    split.
    + intros j Hj. assert (j = 0)%nat as -> by lia.
      exists m, [], w. cbn. repeat split; [exact Hstate | exact Htr].
    + cbn [map runMsgs].
      rewrite (Hstep fuel m t w 1 Hstate Hsusp ltac:(lia) Hmax Htr).
      cbn [Z.eqb Pos.eqb].
      eexists _, _, _. split; [reflexivity |]. model_fields.
      repeat split.
  - destruct ts as [| t ts]; [discriminate Hlen |].
    injection Hlen as Hlen.
    pose proof (Hstep fuel m t w (Z.of_nat (S (S n))) Hstate Hsusp
                  ltac:(lia) Hmax Htr) as Hfirst.
    destruct (Z.eqb_spec (Z.of_nat (S (S n))) 1) as [Hone | _]; [lia |].
    set (m1 := set_textInput (inputAfter m (tickMsg t))
                 (set_timeRemaining ((Z.of_nat (S (S n)) - 1) * Second) m))
      in Hfirst.
    assert (Htr1 : timeRemaining m1 = Z.of_nat (S n) * Second).
    { subst m1. model_fields. f_equal. lia. }
    assert (Hs1 : state m1 = stateRunning) by exact Hstate.
    assert (Hsusp1 : suspendTick m1 = false) by exact Hsusp.
    assert (Hmax1 : Z.of_nat (S n) * Second <= Int64.max_int)
      by (unfold Second in *; lia).
    destruct (IH fuel m1 ts w Hs1 Hsusp1 Hlen Htr1 Hmax1)
      as [Hprefix (m' & trace & w' & Hrest & Hres)].
    split.
    + intros j Hj. destruct j as [| j].
      * exists m, [], w. cbn [take map runMsgs].
        repeat split; [exact Hstate | rewrite Htr; f_equal; lia].
      * destruct (Hprefix j ltac:(lia)) as (mj & tracej & wj & Hrunj & Hsj & Htj & Hoj).
        cbn [take map runMsgs]. rewrite Hfirst, Hrunj.
        eexists _, _, _. split; [reflexivity |].
        repeat split; [exact Hsj | rewrite Htj; f_equal; lia | exact Hoj].
    + cbn [map runMsgs]. rewrite Hfirst, Hrest.
      eexists _, _, _. split; [reflexivity |]. exact Hres.
Qed.

(** Ticks on a suspended Running state with time left change nothing
    but what the input box does with them. *)
Lemma suspended_ticks fuel ts :
  forall (m : model) w,
    state m = stateRunning -> suspendTick m = true -> 0 < timeRemaining m ->
    exists m' trace,
      runMsgs fuel m (map tickMsg ts) w = Ok (m', trace, w) /\
      state m' = stateRunning /\ suspendTick m' = true /\
      timeRemaining m' = timeRemaining m /\
      currentQ m' = currentQ m /\ answers m' = answers m /\
      length trace = length ts /\
      Forall (fun cmds => exists c, cmds = [cmdTick; c]) trace.
Proof.
  induction ts as [| t ts IH]; intros m w Hstate Hsusp Htr.
  - exists m, []. cbn. repeat split; auto.
  - cbn [map runMsgs].
    rewrite (Update_running_tick fuel m t w Hstate). cbv zeta. rewrite Hsusp.
    destruct (Z.leb_spec (timeRemaining m) 0) as [Hle | _]; [lia |].
    set (m1 := set_textInput (inputAfter m (tickMsg t)) m).
    destruct (IH m1 w Hstate Hsusp Htr)
      as (m' & trace & -> & Hs & Hsu & Ht & Hq & Ha & Hlen & Hall).
    eexists _, _. split; [reflexivity |].
    repeat split; try assumption.
    + cbn. now rewrite Hlen.
    + constructor; [eauto | exact Hall].
Qed.

(** Scoring an answer stops the clock: the ticks that arrive after the
    Enter key, however many, take no time and are each answered by
    re-arming the tick clock; the time left stays what the scoring made
    it, as long as that is more than nothing. *)
Theorem scored_answer_suspends_the_clock :
  forall fuel (m : model) k w n ts,
    state m = stateRunning -> key_String k = "enter" ->
    Sscanf_d (rawInput m (KeyMsg k)) = Some n ->
    0 < scoredTime (n =? Answer (currentQ m)) m ->
    exists m' trace w',
      runMsgs fuel m (KeyMsg k :: map tickMsg ts) w = Ok (m', trace, w') /\
      state m' = stateRunning /\
      suspendTick m' = true /\
      timeRemaining m' = scoredTime (n =? Answer (currentQ m)) m /\
      currentQ m' = currentQ m /\
      length (answers m') = S (length (answers m)) /\
      stdout w' = stdout w.
Proof.
  intros fuel m k w n ts Hstate Henter Hscan Hpos.
  cbn [runMsgs].
  rewrite (Update_running_enter fuel m k w Hstate Henter), Hscan.
  destruct (scoreAnswer_spec (rawInput m (KeyMsg k)) n
              (set_textInput (inputAfter m (KeyMsg k)) m) w)
    as (m1 & -> & Hans & Htime & Hq & _ & Hst & _ & _ & Hsu & _).
  change (scoredTime (n =? Answer (currentQ (set_textInput _ m)))
            (set_textInput (inputAfter m (KeyMsg k)) m))
    with (scoredTime (n =? Answer (currentQ m)) m) in Htime.
  cbn [state currentQ answers set_textInput] in Hans, Hq, Hst.
  rewrite Hstate in Hst.
  destruct (suspended_ticks fuel ts m1 (Now w).2 Hst Hsu ltac:(lia))
    as (m' & trace & -> & Hs' & Hsu' & Ht' & Hq' & Ha' & _).
  eexists _, _, _. split; [reflexivity |].
  repeat split; try assumption; try congruence.
  rewrite Ha', Hans, length_app. cbn. lia.
Qed.



(** Leaving an episode, by "q" while Running or by "left" on the
    results page, lands in the Menu with the history and the used set
    emptied, both lists back on their first item and the input box
    reset; no command is returned, so the program does not quit.  The
    time left, the current question and the flash state (flag, colour
    override, bar adjustment, suspension of the tick) are kept as they
    were. *)
Theorem leaving_an_episode_clears_it :
  forall fuel (m : model) k w,
    (state m = stateRunning /\ key_String k = "q") \/
    (state m = stateResults /\ key_String k = "left") ->
    exists m',
      Update fuel m (KeyMsg k) w = Ok (m', [], w) /\
      state m' = stateMenu /\
      answers m' = [] /\ usedQuestions m' = ∅ /\
      list_ m' = list_Select 0 (list_ m) /\
      timeList m' = list_Select 0 (timeList m) /\
      textInput m' =
        textinput_Reset
          (if state m =? stateRunning then inputAfter m (KeyMsg k)
           else textInput m) /\
      timeRemaining m' = timeRemaining m /\ timeLimit m' = timeLimit m /\
      currentQ m' = currentQ m /\ difficulty m' = difficulty m /\
      flashActive m' = flashActive m /\ suspendTick m' = suspendTick m /\
      flashColorOverride m' = flashColorOverride m /\
      flashBarAdjust m' = flashBarAdjust m /\
      flashFadeSteps m' = flashFadeSteps m.
Proof.
  intros fuel m k w [[Hstate Hkey] | [Hstate Hkey]].
  - rewrite (Update_running fuel m (KeyMsg k) Hstate), Hstate.
    unfold updateRunning, updateRunningInput, inputAfter.
    destruct (textinput_Update (textInput m) (KeyMsg k)) as [ti cmd].
    destruct (decide (key_String k = "enter")) as [Henter | _];
      [rewrite Hkey in Henter; discriminate Henter |].
    destruct (decide (key_String k = "q")); [| contradiction].
    eexists. split; [reflexivity |]. model_fields. repeat split.
  - rewrite (Update_results fuel m (KeyMsg k) Hstate), Hstate.
    unfold updateResults.
    destruct (decide (key_String k = "left")); [| contradiction].
    eexists. split; [reflexivity |]. model_fields. repeat split.
Qed.

(** Confirming a difficulty in the menu stores its label and opens the
    duration list; nothing else of the session changes. *)
Theorem menu_confirm_captures_difficulty :
  forall fuel (m : model) k w item,
    state m = stateMenu ->
    key_Type k = KeyEnter ->
    list_SelectedItem (list_Update (list_ m) (KeyMsg k)).1 = Some item ->
    Update fuel m (KeyMsg k) w =
      Ok (set_state stateTimeSelect
            (set_difficulty (name item)
               (set_list (list_Update (list_ m) (KeyMsg k)).1 m)),
          [(list_Update (list_ m) (KeyMsg k)).2], w).
Proof.
  intros fuel m k w item Hstate Hkey Hsel.
  rewrite (Update_menu fuel m (KeyMsg k) Hstate). unfold updateMenu.
  destruct (list_Update (list_ m) (KeyMsg k)) as [l cmd]. cbn [fst snd] in *.
  destruct (decide (key_Type k = KeyEnter)); [| contradiction].
  change (list_ (set_list l m)) with l. rewrite Hsel. reflexivity.
Qed.

(** Starting an episode asks [generateQuestion] for a question of the
    difficulty stored by the menu, and resets neither the flash state
    nor the suspension of the tick nor the input box: a session left
    while a flash was showing starts its next episode with that flash,
    that colour override and the tick still suspended. *)
Theorem starting_an_episode_keeps_flash_state :
  forall fuel (m : model) k w m' cmds w',
    state m = stateTimeSelect ->
    key_String k = "enter" ->
    Update fuel m (KeyMsg k) w = Ok (m', cmds, w') ->
    state m' = stateRunning ->
    (exists used' w1,
        generateQuestion fuel (difficulty m) (usedQuestions m) w =
          Ok ((currentQ m', used'), w1) /\ usedQuestions m' = used') /\
    difficulty m' = difficulty m /\
    timeRemaining m' = Int64.mul (timeLimit m') Second /\
    flashActive m' = flashActive m /\ suspendTick m' = suspendTick m /\
    flashColorOverride m' = flashColorOverride m /\
    flashBarAdjust m' = flashBarAdjust m /\
    flashFadeSteps m' = flashFadeSteps m /\
    flashText m' = flashText m /\
    fuseFrameIndex m' = fuseFrameIndex m /\
    textInput m' = textInput m /\
    answers m' = answers m.
Proof.
  intros fuel m k w m' cmds w' Hstate Hkey Hrun Hstate'.
  rewrite (Update_timeSelect fuel m (KeyMsg k) Hstate) in Hrun.
  unfold updateTimeSelect, selectTimeLimit, Now in Hrun.
  repeat case_match; simplify_eq; model_fields;
    try (rewrite Hstate in Hstate'; discriminate Hstate');
    try discriminate Hstate';
    (split; [eauto |]); repeat split.
Qed.

End SessionMachine.

(** ** The results page and the views *)

Lemma string_app_assoc (s1 s2 s3 : string) :
  (s1 +:+ s2) +:+ s3 = s1 +:+ (s2 +:+ s3).
Proof.
  induction s1 as [| c s1 IH]; [reflexivity |].
  change (String c ((s1 +:+ s2) +:+ s3) = String c (s1 +:+ (s2 +:+ s3))).
  now rewrite IH.
Qed.

Lemma string_app_empty_r (s : string) : s +:+ "" = s.
Proof.
  induction s as [| c s IH]; [reflexivity |].
  change (String c (s +:+ "") = String c s). now rewrite IH.
Qed.

Lemma indexed_from_cons i a answers :
  indexed_from i (a :: answers) = (i, a) :: indexed_from (i + 1) answers.
Proof.
  unfold indexed_from, len. cbn [length].
  rewrite seqZ_cons by lia.
  replace (Z.pred (Z.of_nat (S (length answers)))) with (Z.of_nat (length answers))
    by lia.
  reflexivity.
Qed.

(** What the first loop of the results page gathers, from any starting
    statistics. *)
Lemma gatherStats_spec answers :
  forall i st,
    0 <= st_correct st <= st_total st ->
    st_total st + len answers <= Int64.max_int ->
    let st' := gatherStats i answers st in
    st_total st' = st_total st + len answers /\
    st_correct st' =
      st_correct st +
      Z.of_nat (length (filter (fun a => Correct a = true) answers)) /\
    st_missed st' =
      (st_missed st ++
       ((fun p => missedLine p.1 p.2) <$>
          filter (fun p => Correct p.2 = false) (indexed_from i answers)))%list.
Proof.
  induction answers as [| a answers IH]; intros i st Hc Hmax; cbn zeta.
  - cbn. rewrite app_nil_r. unfold len. cbn. split; [lia | split; [lia | reflexivity]].
  - cbn [gatherStats]. unfold len in *. cbn [length] in *.
    assert (Hadd : Int64.add (st_total st) 1 = st_total st + 1).
    { apply Int64Facts.add_small.
      unfold Int64.in_range, Int64.min_int, Int64.max_int in *. lia. }
    assert (Hadd' : Int64.add (st_correct st) 1 = st_correct st + 1).
    { apply Int64Facts.add_small.
      unfold Int64.in_range, Int64.min_int, Int64.max_int in *. lia. }
    rewrite Hadd, Hadd'.
    rewrite indexed_from_cons.
    destruct (Correct a) eqn:Hcorrect.
    + match goal with
      | |- context [gatherStats (i + 1) answers ?s] =>
          destruct (IH (i + 1) s) as (Ht & Hco & Hm); [cbn; lia | cbn; lia |]
      end.
      cbn [st_total st_correct st_missed] in Ht, Hco, Hm. rewrite Ht, Hco, Hm.
      rewrite filter_cons_True by exact Hcorrect.
      rewrite filter_cons_False by (cbn; congruence).
      cbn [length]. split; [lia | split; [lia | reflexivity]].
    + match goal with
      | |- context [gatherStats (i + 1) answers ?s] =>
          destruct (IH (i + 1) s) as (Ht & Hco & Hm); [cbn; lia | cbn; lia |]
      end.
      cbn [st_total st_correct st_missed] in Ht, Hco, Hm. rewrite Ht, Hco, Hm.
      rewrite filter_cons_False by congruence.
      rewrite filter_cons_True by exact Hcorrect.
      split; [lia | split; [lia |]].
      rewrite <- app_assoc. reflexivity.
Qed.

(** The results page counts every record once, counts the correct ones,
    and lists the incorrect ones in the order they were given, each
    with its position in the history counted from 1, the question, the
    text typed and the right answer. *)
Theorem results_count_and_list_missed :
  forall answers,
    len answers <= Int64.max_int ->
    let st := gatherStats 0 answers noStats in
    st_total st = len answers /\
    st_correct st =
      Z.of_nat (length (filter (fun a => Correct a = true) answers)) /\
    0 <= st_correct st <= st_total st /\
    st_missed st =
      (fun p => missedLine p.1 p.2) <$>
        filter (fun p => Correct p.2 = false) (indexed_from 0 answers) /\
    Z.of_nat (length (st_missed st)) = st_total st - st_correct st /\
    forall i a, In (i, a) (indexed_from 0 answers) ->
      missedLine i a =
        "  Question #" +:+ itoa (i + 1) +:+ ": " +:+ Text (Question_ a) +:+ nl +:+
        "    Your Answer: " +:+ UserInput a +:+ nl +:+
        "    Correct Answer: " +:+ itoa (Answer (Question_ a)).
Proof.
  intros answers Hmax.
  destruct (gatherStats_spec answers 0 noStats) as (Ht & Hc & Hm);
    [cbn; lia | cbn; lia |].
  cbn zeta. cbn in Ht, Hc, Hm. rewrite Ht, Hc, Hm.
  assert (Hle : (length (filter (fun a => Correct a = true) answers)
                 <= length answers)%nat) by apply length_filter.
  assert (Hsplit :
    (length (filter (fun p => Correct p.2 = false) (indexed_from 0 answers))
     + length (filter (fun a => Correct a = true) answers) = length answers)%nat).
  { clear. generalize 0 as i.
    induction answers as [| a answers IH]; intros i; [reflexivity |].
    rewrite indexed_from_cons. specialize (IH (i + 1)).
    destruct (Correct a) eqn:Hcorrect.
    - rewrite filter_cons_False by (cbn; congruence).
      rewrite filter_cons_True by exact Hcorrect. cbn [length]. lia.
    - rewrite filter_cons_True by exact Hcorrect.
      rewrite filter_cons_False by congruence. cbn [length]. lia. }
  unfold len in *.
  split; [reflexivity |]. split; [reflexivity |]. split; [lia |].
  split; [reflexivity |]. split; [rewrite length_fmap; lia |].
  intros i a Hin. unfold missedLine.
  rewrite Int64Facts.add_small; [reflexivity |].
  unfold indexed_from in Hin. apply list_elem_of_In in Hin.
  apply elem_of_zip_l in Hin. apply elem_of_seqZ in Hin.
  unfold len, Int64.in_range, Int64.min_int, Int64.max_int in *. lia.
Qed.

(** The durations the first loop files under each op type. *)
Lemma gatherStats_opDurations answers :
  forall i st op,
    default [] (st_opDurations (gatherStats i answers st) !! op) =
    (default [] (st_opDurations st !! op) ++
     (Duration <$> filter (fun a => OpType (Question_ a) = op) answers))%list.
Proof.
  induction answers as [| a answers IH]; intros i st op.
  - cbn. now rewrite app_nil_r.
  - cbn [gatherStats]. rewrite IH. cbn [st_opDurations].
    destruct (decide (OpType (Question_ a) = op)) as [Heq | Hne].
    + rewrite filter_cons_True by exact Heq.
      rewrite Heq, lookup_insert_eq. cbn. now rewrite <- app_assoc.
    + rewrite filter_cons_False by exact Hne.
      rewrite lookup_insert_ne by exact Hne. reflexivity.
Qed.

Lemma gatherStats_keys answers :
  forall i st op,
    is_Some (st_opDurations (gatherStats i answers st) !! op) <->
    is_Some (st_opDurations st !! op) \/
    exists a, In a answers /\ OpType (Question_ a) = op.
Proof.
  induction answers as [| a answers IH]; intros i st op.
  - cbn. split; [auto | intros [Hs | (a & [] & _)]; exact Hs].
  - cbn [gatherStats]. rewrite IH. cbn [st_opDurations].
    rewrite lookup_insert_is_Some. split.
    + intros [[Heq | [_ Hs]] | (b & Hb & Hop)].
      * right. exists a. split; [left; reflexivity | exact Heq].
      * left. exact Hs.
      * right. exists b. split; [right; exact Hb | exact Hop].
    + intros [Hs | (b & [<- | Hb] & Hop)].
      * destruct (decide (OpType (Question_ a) = op)); auto.
      * auto.
      * right. eauto.
Qed.

(** Every key of [opDurations] has at least one duration on file. *)
Lemma gatherStats_nonempty answers op :
  is_Some (st_opDurations (gatherStats 0 answers noStats) !! op) ->
  exists t ts, st_opDurations (gatherStats 0 answers noStats) !! op = Some (t :: ts).
Proof.
  intros Hs.
  pose proof (gatherStats_opDurations answers 0 noStats op) as Hd.
  pose proof (gatherStats_keys answers 0 noStats op) as Hk.
  cbn [st_opDurations noStats] in Hd, Hk. rewrite lookup_empty in Hd, Hk.
  cbn [default app] in Hd.
  apply Hk in Hs as Hex. destruct Hex as [[x Hx] | (a & Ha & Hop)]; [discriminate Hx |].
  destruct Hs as [times Htimes]. rewrite Htimes in Hd.
  change (default [] (Some times)) with times in Hd.
  destruct times as [| t ts]; [| eauto].
  exfalso. apply list_elem_of_In in Ha.
  assert (Hin : a ∈ filter (fun a => OpType (Question_ a) = op) answers)
    by (apply list_elem_of_filter; auto).
  apply (list_elem_of_fmap_2 Duration) in Hin. rewrite <- Hd in Hin. inversion Hin.
Qed.

(** The results page files the duration of every record under the op
    type of its question, in the order of the history: an op type is a
    key of [opDurations] exactly when a record carries it, and its list
    is then not empty, so the average over it divides by a length that
    is not 0. *)
Theorem results_group_durations_by_op :
  forall answers op,
    let od := st_opDurations (gatherStats 0 answers noStats) in
    default [] (od !! op) =
      Duration <$> filter (fun a => OpType (Question_ a) = op) answers /\
    (is_Some (od !! op) <->
     exists a, In a answers /\ OpType (Question_ a) = op) /\
    (is_Some (od !! op) ->
     exists avg, div64 (sum64 (default [] (od !! op)))
                   (len (default [] (od !! op))) = Ok avg).
Proof.
  intros answers op. cbn zeta.
  pose proof (gatherStats_opDurations answers 0 noStats op) as Hd.
  pose proof (gatherStats_keys answers 0 noStats op) as Hk.
  cbn [st_opDurations noStats] in Hd, Hk. rewrite lookup_empty in Hd, Hk.
  cbn [default app] in Hd.
  split; [exact Hd |]. split.
  - rewrite Hk. split; [intros [[x Hx] | Ha]; [discriminate Hx | exact Ha] | auto].
  - intros Hs. apply Hk in Hs as [[x Hx] | (a & Ha & Hop)]; [discriminate Hx |].
    rewrite Hd. unfold div64, len.
    assert (Hne : filter (fun a => OpType (Question_ a) = op) answers <> []).
    { intros Hnil. apply list_elem_of_In in Ha.
      assert (Hin : a ∈ filter (fun a => OpType (Question_ a) = op) answers)
        by (apply list_elem_of_filter; auto).
      rewrite Hnil in Hin. inversion Hin. }
    rewrite length_fmap.
    destruct (filter (fun a => OpType (Question_ a) = op) answers); [contradiction |].
    cbn [length]. destruct (Z.eqb_spec (Z.of_nat (S (length l))) 0); [lia | eauto].
Qed.

(** The op types are split by their prefix, each group in the order the
    map was visited. *)
Lemma groupOps_spec ops :
  forall arithmetic algebra,
    groupOps ops arithmetic algebra =
    ((arithmetic ++ filter (fun op => HasPrefix op "algebra_" = false) ops)%list,
     (algebra ++ filter (fun op => HasPrefix op "algebra_" = true) ops)%list).
Proof.
  induction ops as [| op ops IH]; intros arithmetic algebra.
  - cbn. now rewrite !app_nil_r.
  - cbn [groupOps]. destruct (HasPrefix op "algebra_") eqn:Hp; rewrite IH.
    + rewrite filter_cons_False by congruence.
      rewrite filter_cons_True by exact Hp. now rewrite <- app_assoc.
    + rewrite filter_cons_True by exact Hp.
      rewrite filter_cons_False by congruence. now rewrite <- app_assoc.
Qed.

Section ViewProperties.

Context `{ViewLayer} `{Float64} `{Lipgloss}.

(** The lines of a group are appended to the text when every op of the
    group has durations on file. *)
Lemma opLines_appends group ops od :
  forall text,
    (forall op, In op ops -> exists t ts, od !! op = Some (t :: ts)) ->
    exists lines, opLines group ops od text = Ok (text +:+ lines).
Proof.
  induction ops as [| op ops IH]; intros text Hkeys.
  - exists "". cbn. now rewrite string_app_empty_r.
  - cbn [opLines]. unfold opLine.
    destruct (Hkeys op (or_introl eq_refl)) as (t & ts & ->).
    change (default [] (Some (t :: ts))) with (t :: ts).
    unfold div64, len. cbn [length].
    destruct (Z.eqb_spec (Z.of_nat (S (length ts))) 0); [lia |].
    match goal with
    | |- context [opLines group ops od ?t] =>
        destruct (IH t (fun o Ho => Hkeys o (or_intror Ho))) as (lines & ->)
    end.
    eexists. rewrite string_app_assoc. reflexivity.
Qed.

Lemma groupBlock_appends group ops od text :
  (forall op, In op ops -> exists t ts, od !! op = Some (t :: ts)) ->
  exists block, groupBlock group ops od text = Ok (text +:+ block).
Proof.
  intros Hkeys. unfold groupBlock.
  destruct (len ops >? 0).
  - destruct (opLines_appends group ops od
                (text +:+ nl +:+ group +:+ ":" +:+ nl) Hkeys) as (lines & ->).
    eexists. rewrite string_app_assoc. reflexivity.
  - exists "". now rewrite string_app_empty_r.
Qed.

Lemma missedBlock_appends missed text :
  exists block, missedBlock missed text = text +:+ block.
Proof.
  unfold missedBlock. destruct (len missed >? 0).
  - assert (Hfold : forall l t, exists b,
               fold_left (fun t line => t +:+ line +:+ nl) l t = t +:+ b).
    { induction l as [| x l IH]; intros t.
      - exists "". cbn. now rewrite string_app_empty_r.
      - cbn [fold_left]. destruct (IH (t +:+ x +:+ nl)) as (b & ->).
        eexists. rewrite string_app_assoc. reflexivity. }
    destruct (Hfold missed (text +:+ nl +:+ "Incorrect Answers:" +:+ nl)) as (b & ->).
    eexists. rewrite string_app_assoc. reflexivity.
  - exists "". now rewrite string_app_empty_r.
Qed.

(** The text of the results page never panics, whatever the history and
    the order in which the map is visited; it opens with the score line
    and, when the time is used up, with the banner before it. *)
Lemma resultsText_shape (m : model) :
  exists rest,
    resultsText m =
      Ok ((if timeRemaining m <=? 0 then banner else "") +:+
          "Final Score: " +:+
          itoa (st_correct (gatherStats 0 (answers m) noStats)) +:+ " / " +:+
          itoa (st_total (gatherStats 0 (answers m) noStats)) +:+ nl +:+ rest).
Proof.
  unfold resultsText.
  set (st := gatherStats 0 (answers m) noStats).
  set (score := "Final Score: " +:+ itoa (st_correct st) +:+ " / " +:+
                itoa (st_total st) +:+ nl).
  assert (Hscore : exists r1 text1,
    (if st_total st >? 0
     then match div64 (st_totalDuration st) (st_total st) with
          | Ok avgTotal =>
              Ok (score +:+ "Avg time (overall): " +:+
                  Sprintf_seconds avgTotal +:+ "s" +:+ nl)
          | Panic why => Panic why
          | OutOfFuel => OutOfFuel
          end
     else Ok score) = Ok text1 /\ text1 = score +:+ r1).
  { destruct (Z.gtb_spec (st_total st) 0) as [Hpos | _].
    - unfold div64. destruct (Z.eqb_spec (st_total st) 0); [lia |].
      eexists _, _. split; reflexivity.
    - exists "", score. split; [reflexivity | now rewrite string_app_empty_r]. }
  destruct Hscore as (r1 & text1 & -> & ->).
  rewrite groupOps_spec. cbn [app].
  assert (Hkeys : forall op,
             In op (range_order (st_opDurations st)) ->
             exists t ts, st_opDurations st !! op = Some (t :: ts)).
  { intros op Hin. apply gatherStats_nonempty.
    apply list_elem_of_In in Hin. rewrite range_order_keys in Hin.
    apply list_elem_of_fmap in Hin as ([k v] & -> & Hkv).
    apply elem_of_map_to_list in Hkv. cbn. eauto. }
  match goal with
  | |- context [groupBlock "Arithmetic" ?ops ?od ?t] =>
      destruct (groupBlock_appends "Arithmetic" ops od t) as (b1 & ->);
      [intros op Hin; apply Hkeys;
       apply list_elem_of_In in Hin; apply list_elem_of_filter in Hin as [_ Hin];
       apply list_elem_of_In; exact Hin |]
  end.
  match goal with
  | |- context [groupBlock "Algebra" ?ops ?od ?t] =>
      destruct (groupBlock_appends "Algebra" ops od t) as (b2 & ->);
      [intros op Hin; apply Hkeys;
       apply list_elem_of_In in Hin; apply list_elem_of_filter in Hin as [_ Hin];
       apply list_elem_of_In; exact Hin |]
  end.
  destruct (missedBlock_appends (st_missed st) (((score +:+ r1) +:+ b1) +:+ b2))
    as (b3 & ->).
  exists (r1 +:+ b1 +:+ b2 +:+ b3 +:+ nl +:+ "[←] to play again").
  f_equal. subst score.
  destruct (timeRemaining m <=? 0);
    rewrite ?string_app_assoc; reflexivity.
Qed.

(** In every reachable state [View] returns a frame: the fuse frame it
    indexes exists and no average divides by zero, whatever the order in
    which the map of durations is visited. *)
Theorem reachable_View_never_panics :
  forall m : model, reachable m -> exists frame, View m = Ok frame.
Proof.
  intros m Hreach. unfold View.
  destruct (state m =? stateMenu); [eauto |].
  destruct (state m =? stateTimeSelect); [eauto |].
  destruct (state m =? stateRunning).
  - unfold runningText, slice_at.
    destruct (reachable_session_invariants m Hreach) as ((Hframes & Hidx) & _).
    rewrite Hframes. change (len (fuseFrames initialModel)) with 4.
    destruct (Z.ltb_spec (fuseFrameIndex m) 0) as [Hneg | _]; [lia |].
    destruct (Z.leb_spec 4 (fuseFrameIndex m)) as [Hbig | _]; [lia |].
    cbn [orb].
    destruct (lookup_lt_is_Some_2 (fuseFrames initialModel)
                (Z.to_nat (fuseFrameIndex m)) ltac:(cbn; lia)) as [glyph ->].
    eauto.
  - destruct (state m =? stateResults); [| eauto].
    destruct (resultsText_shape m) as (rest & ->). eauto.
Qed.

(** The results page of a reachable state always opens with the time's
    up banner, followed by the score line: the page is only ever
    reached with the time used up. *)
Theorem results_page_opens_with_banner :
  forall m : model,
    reachable m ->
    state m = stateResults ->
    exists rest,
      View m =
        Ok (clearScreen +:+
            RenderPadded
              (banner +:+ "Final Score: " +:+
               itoa (st_correct (gatherStats 0 (answers m) noStats)) +:+ " / " +:+
               itoa (st_total (gatherStats 0 (answers m) noStats)) +:+ nl +:+
               rest)).
Proof.
  intros m Hreach Hstate.
  destruct (reachable_session_invariants m Hreach) as (_ & _ & _ & Hexpired).
  specialize (Hexpired Hstate).
  unfold View. rewrite Hstate. cbn [Z.eqb stateResults stateMenu stateTimeSelect
                                     stateRunning Pos.eqb].
  destruct (resultsText_shape m) as (rest & ->).
  destruct (Z.leb_spec (timeRemaining m) 0) as [_ | Hpos]; [| lia].
  eauto.
Qed.

End ViewProperties.

(** ** The shape of the countdown bar *)

Section CountdownBarShape.

Context `{Float64} `{Lipgloss}.

(** The loop from column [i]: blanks once [filled] is passed, otherwise
    blocks up to the column before [filled], the fuse there, and blanks
    after it. *)
Lemma barLoop_shape steps :
  forall i filled barColor fuseChar,
    0 <= i -> i + Z.of_nat steps <= Int64.max_int ->
    0 <= filled <= Int64.max_int ->
    barLoop steps i filled barColor fuseChar =
      if filled <=? i then replicate steps cellSpace
      else if i + Z.of_nat steps <? filled
           then replicate steps (cellBlock barColor)
           else (replicate (Z.to_nat (filled - 1 - i)) (cellBlock barColor) ++
                 [cellFuse fuseChar] ++
                 replicate (Z.to_nat (i + Z.of_nat steps - filled)) cellSpace)%list.
Proof.
  induction steps as [| steps IH]; intros i filled barColor fuseChar Hi Hmax Hfilled.
  - cbn [barLoop replicate].
    destruct (Z.leb_spec filled i); [reflexivity |].
    destruct (Z.ltb_spec (i + Z.of_nat 0) filled); [reflexivity | lia].
  - cbn [barLoop].
    assert (Hsub : Int64.sub filled 1 = filled - 1).
    { apply Int64Facts.sub_small.
      unfold Int64.in_range, Int64.min_int, Int64.max_int in *. lia. }
    assert (Hadd : Int64.add i 1 = i + 1).
    { apply Int64Facts.add_small.
      unfold Int64.in_range, Int64.min_int, Int64.max_int in *. lia. }
    rewrite Hsub, Hadd, (IH (i + 1)) by lia.
    destruct (Z.eqb_spec i (filled - 1)) as [Heq | Hne].
    + destruct (Z.leb_spec filled i); [lia |].
      destruct (Z.ltb_spec (i + Z.of_nat (S steps)) filled); [lia |].
      destruct (Z.leb_spec filled (i + 1)); [| lia].
      replace (Z.to_nat (filled - 1 - i)) with 0%nat by lia.
      replace (Z.to_nat (i + Z.of_nat (S steps) - filled)) with steps by lia.
      reflexivity.
    + destruct (Z.ltb_spec i filled) as [Hlt | Hge].
      * destruct (Z.leb_spec filled i); [lia |].
        destruct (Z.leb_spec filled (i + 1)); [lia |].
        destruct (Z.ltb_spec (i + 1 + Z.of_nat steps) filled);
          destruct (Z.ltb_spec (i + Z.of_nat (S steps)) filled); try lia.
        -- reflexivity.
        -- replace (Z.to_nat (filled - 1 - i))
             with (S (Z.to_nat (filled - 1 - (i + 1)))) by lia.
           replace (Z.to_nat (i + Z.of_nat (S steps) - filled))
             with (Z.to_nat (i + 1 + Z.of_nat steps - filled)) by lia.
           reflexivity.
      * destruct (Z.leb_spec filled i); [| lia].
        destruct (Z.leb_spec filled (i + 1)); [| lia].
        reflexivity.
Qed.

(** The bar is [filled - 1] blocks in the bar colour, then the fuse
    glyph, then blanks up to [width]; with nothing filled it is all
    blanks.  So the fuse sits on the last filled column and there is
    exactly one fuse whenever anything is filled. *)
Theorem countdown_bar_shape :
  forall timeRemaining totalTime width adjust flashColorOverride fuseChar,
    0 <= width <= Int64.max_int ->
    let filled := barFilled timeRemaining totalTime width adjust in
    let barColor := barColorOf timeRemaining totalTime flashColorOverride in
    barCells timeRemaining totalTime width adjust flashColorOverride fuseChar =
      if filled =? 0 then replicate (Z.to_nat width) cellSpace
      else (replicate (Z.to_nat (filled - 1)) (cellBlock barColor) ++
            [cellFuse fuseChar] ++
            replicate (Z.to_nat (width - filled)) cellSpace)%list.
Proof.
  intros timeRemaining totalTime width adjust flashColorOverride fuseChar Hw.
  cbn zeta. unfold barCells.
  pose proof (barFilled_range timeRemaining totalTime width adjust ltac:(lia)) as Hf.
  rewrite barLoop_shape by lia.
  set (filled := barFilled timeRemaining totalTime width adjust) in *.
  destruct (Z.eqb_spec filled 0) as [-> | Hne].
  - reflexivity.
  - destruct (Z.leb_spec filled 0); [lia |].
    destruct (Z.ltb_spec (0 + Z.of_nat (Z.to_nat width)) filled); [lia |].
    replace (filled - 1 - 0) with (filled - 1) by lia.
    replace (0 + Z.of_nat (Z.to_nat width) - filled) with (width - filled) by lia.
    reflexivity.
Qed.

End CountdownBarShape.

(** ** The further properties on the reference collaborators *)

Import ReferenceViews.

Lemma runMsgs_reachable `{Collaborators} fuel msgs :
  forall (m : model) w m' trace w',
    reachable m ->
    runMsgs fuel m msgs w = Ok (m', trace, w') ->
    reachable m'.
Proof.
  induction msgs as [| msg msgs IH]; intros m w m' trace w' Hreach Hrun.
  - injection Hrun as <- _ _. exact Hreach.
  - cbn [runMsgs] in Hrun.
    destruct (Update fuel m msg w) as [[[m1 cmds] w1] | |] eqn:Hstep;
      try discriminate Hrun.
    destruct (runMsgs fuel m1 msgs w1) as [[[m2 tr] w2] | |] eqn:Hrest;
      try discriminate Hrun.
    injection Hrun as <- _ _.
    exact (IH _ _ _ _ _ (reachable_step _ _ _ _ _ _ _ Hreach Hstep) Hrest).
Qed.

Lemma started_reachable : reachable Samples.started.
Proof.
  unfold Samples.started.
  destruct (Update 1 Reference.sampleTimeSelect Reference.enter
              (Reference.world_of [3; 7; 1; 42])) as [[[m cmds] w] | |] eqn:Hrun.
  - exact (reachable_step _ _ _ _ _ _ _ sampleTimeSelect_reachable Hrun).
  - apply reachable_init.
  - apply reachable_init.
Qed.

Lemma started_state : state Samples.started = stateRunning.
Proof. vm_compute. reflexivity. Qed.

Lemma expired_reachable : reachable Samples.expired.
Proof.
  unfold Samples.expired.
  destruct (runMsgs 1 Samples.started (map tickMsg (replicate 30 0))
              (Reference.world_of [])) as [[[m trace] w] | |] eqn:Hrun.
  - exact (runMsgs_reachable _ _ _ _ _ _ _ started_reachable Hrun).
  - apply reachable_init.
  - apply reachable_init.
Qed.

Lemma expired_state : state Samples.expired = stateResults.
Proof. vm_compute. reflexivity. Qed.

(** In every reachable state the state value is one of the four, the
    time limit is 0 (before the first episode) or one of the four
    durations, and outside an episode, in the Menu and on the duration
    list, the history and the used set are empty. *)
Theorem reachable_states_are_well_formed :
  forall `{Collaborators} (m : model),
    reachable m ->
    valid_state m /\
    In (timeLimit m) [0; 30; 60; 90; 120] /\
    (state m = stateMenu \/ state m = stateTimeSelect ->
     answers m = [] /\ usedQuestions m = ∅).
Proof.
  intros C m Hreach.
  destruct (reachable_invariant m Hreach) as [Hvalid Hclean].
  destruct (reachable_timeLimit m Hreach) as [Hlim _].
  split; [exact Hvalid |]. split; [exact Hlim | exact Hclean].
Qed.

Lemma reachable_states_are_well_formed_witness :
  valid_state Samples.started /\
  In (timeLimit Samples.started) [0; 30; 60; 90; 120] /\
  (state Samples.started = stateMenu \/ state Samples.started = stateTimeSelect ->
   answers Samples.started = [] /\ usedQuestions Samples.started = ∅).
Proof.
  exact (reachable_states_are_well_formed Samples.started started_reachable).
Defined.

Lemma Update_follows_transitions_witness :
  exists m' cmds w',
    Update 0 initialModel Reference.enter (Reference.world_of []) =
      Ok (m', cmds, w') /\
    (state m' = state initialModel \/
     transition (state initialModel) Reference.enter (state m')).
Proof.
  assert (Hobs : Samples.ok_state
                   (Update 0 initialModel Reference.enter (Reference.world_of []))
                 = Some stateTimeSelect) by (vm_compute; reflexivity).
  destruct (Update 0 initialModel Reference.enter (Reference.world_of []))
    as [[[m' cmds] w'] | |] eqn:Hrun; try discriminate Hobs.
  exists m', cmds, w'. split; [reflexivity |].
  exact (Update_follows_transitions _ _ _ _ _ _ _ Hrun).
Defined.

Lemma reachable_time_within_budget_witness :
  Second <= timeRemaining Samples.started <= timeLimit Samples.started * Second.
Proof.
  destruct (reachable_time_within_budget Samples.started started_reachable)
    as [Hrunning _].
  destruct (Hrunning started_state) as (_ & _ & Hbudget).
  apply Hbudget. vm_compute. discriminate.
Defined.

Lemma reachable_ids_registered_witness :
  UniqueID (currentQ Samples.started) ∈ usedQuestions Samples.started.
Proof.
  exact (proj1 (reachable_ids_registered Samples.started started_reachable
                  (or_introl started_state))).
Defined.


Lemma reachable_Update_never_panics_witness :
  Update 0 Samples.started fuseTickMsg (Reference.world_of []) <>
  Panic "integer divide by zero".
Proof.
  exact (reachable_Update_never_panics Samples.started 0 fuseTickMsg
           (Reference.world_of []) "integer divide by zero" started_reachable).
Defined.

Lemma flash_timeout_brings_fresh_question_witness :
  exists m' cmds w',
    Update 1 Samples.started flashDoneMsg (Reference.world_of [0; 2; 3; 0]) =
      Ok (m', cmds, w') /\
    UniqueID (currentQ m') <> UniqueID (currentQ Samples.started) /\
    usedQuestions m' =
      {[UniqueID (currentQ m')]} ∪ usedQuestions Samples.started.
Proof.
  assert (Hobs : Samples.ok_state
                   (Update 1 Samples.started flashDoneMsg
                      (Reference.world_of [0; 2; 3; 0]))
                 = Some stateRunning) by (vm_compute; reflexivity).
  destruct (Update 1 Samples.started flashDoneMsg (Reference.world_of [0; 2; 3; 0]))
    as [[[m' cmds] w'] | |] eqn:Hrun; try discriminate Hobs.
  exists m', cmds, w'. split; [reflexivity |].
  destruct (flash_timeout_brings_fresh_question _ _ _ _ _ _
              started_reachable started_state Hrun)
    as (_ & _ & Hdiff & _ & Hused & _).
  split; [exact Hdiff | exact Hused].
Defined.

Lemma flash_timeout_returns_witness :
  exists m' cmds w',
    Update 1 (Reference.sampleRunning (30 * Second) "" false) flashDoneMsg
      (Reference.world_of [0; 2; 3; 0]) = Ok (m', cmds, w').
Proof.
  apply (flash_timeout_returns (Reference.sampleRunning (30 * Second) "" false) 0
           (Reference.world_of [0; 2; 3; 0])).
  - reflexivity.
  - exists "1st Grade|0". split.
    + vm_compute. reflexivity.
    + intros Hin.
      change ("1st Grade|0" ∈ ({["1st Grade|42"]} : gset string)) in Hin.
      apply elem_of_singleton in Hin. discriminate Hin.
Defined.

Lemma ticks_run_the_clock_out_witness :
  let m := Reference.sampleRunning (2 * Second) "" false in
  exists m' trace w',
    runMsgs 0 m (map tickMsg [0; 0]) (Reference.world_of []) = Ok (m', trace, w') /\
    state m' = stateResults /\
    timeRemaining m' = 0 /\
    stdout w' = (stdout (Reference.world_of []) ++ [bell])%list /\
    answers m' = answers m /\ currentQ m' = currentQ m /\
    usedQuestions m' = usedQuestions m.
Proof.
  intros m.
  apply (ticks_run_the_clock_out 1 0 m [0; 0] (Reference.world_of [])).
  - reflexivity.
  - reflexivity.
  - reflexivity.
  - reflexivity.
  - vm_compute. discriminate.
Defined.

Lemma scored_answer_suspends_the_clock_witness :
  let m := Reference.sampleRunning (30 * Second) "4" false in
  exists m' trace w',
    runMsgs 0 m (Reference.enter :: map tickMsg [0; 0; 0]) (Reference.world_of []) =
      Ok (m', trace, w') /\
    state m' = stateRunning /\
    suspendTick m' = true /\
    timeRemaining m' = scoredTime (4 =? Answer (currentQ m)) m /\
    currentQ m' = currentQ m /\
    length (answers m') = S (length (answers m)) /\
    stdout w' = stdout (Reference.world_of []).
Proof.
  intros m.
  apply (scored_answer_suspends_the_clock 0 m (mkKey KeyEnter "enter")
           (Reference.world_of []) 4 [0; 0; 0]).
  - reflexivity.
  - reflexivity.
  - reflexivity.
  - vm_compute. reflexivity.
Defined.


Lemma leaving_an_episode_clears_it_witness :
  let m := Reference.sampleRunning (30 * Second) "4" true in
  exists m',
    Update 0 m (Reference.key KeyRunes "q") (Reference.world_of []) =
      Ok (m', [], Reference.world_of []) /\
    state m' = stateMenu /\ answers m' = [] /\ usedQuestions m' = ∅ /\
    suspendTick m' = true /\ flashActive m' = true.
Proof.
  intros m.
  destruct (leaving_an_episode_clears_it 0 m (mkKey KeyRunes "q")
              (Reference.world_of []))
    as (m' & Hrun & Hs & Ha & Hu & _ & _ & _ & _ & _ & _ & _ & Hfa & Hsu & _).
  - left. split; reflexivity.
  - exists m'. repeat split; assumption.
Defined.

Lemma starting_an_episode_keeps_flash_state_witness :
  let m := set_suspendTick true (set_flashActive true Reference.sampleTimeSelect) in
  exists m' cmds w',
    Update 1 m Reference.enter (Reference.world_of [3; 7; 1; 42]) =
      Ok (m', cmds, w') /\
    state m' = stateRunning /\
    suspendTick m' = true /\ flashActive m' = true.
Proof.
  intros m.
  assert (Hobs : Samples.ok_state
                   (Update 1 m Reference.enter (Reference.world_of [3; 7; 1; 42]))
                 = Some stateRunning) by (vm_compute; reflexivity).
  destruct (Update 1 m Reference.enter (Reference.world_of [3; 7; 1; 42]))
    as [[[m' cmds] w'] | |] eqn:Hrun; try discriminate Hobs.
  injection Hobs as Hstate'.
  exists m', cmds, w'. split; [reflexivity |]. split; [exact Hstate' |].
  destruct (starting_an_episode_keeps_flash_state 1 m (mkKey KeyEnter "enter")
              _ _ _ _ eq_refl eq_refl Hrun Hstate')
    as (_ & _ & _ & Hfa & Hsu & _).
  split; [exact Hsu | exact Hfa].
Defined.

Lemma results_count_and_list_missed_witness :
  let st := gatherStats 0 Samples.history noStats in
  st_total st = 3 /\ st_correct st = 2 /\
  st_missed st =
    ["  Question #2: x + 3 = 5. What is x?" +:+ nl +:+
     "    Your Answer: 3" +:+ nl +:+
     "    Correct Answer: 2"].
Proof.
  destruct (results_count_and_list_missed Samples.history)
    as (Ht & Hc & _ & Hm & _).
  - vm_compute. discriminate.
  - cbn zeta. rewrite Ht, Hc, Hm. repeat split.
Defined.

Lemma results_group_durations_by_op_witness :
  let od := st_opDurations (gatherStats 0 Samples.history noStats) in
  default [] (od !! "subtraction") = [2 * Second; 6 * Second] /\
  exists avg, div64 (sum64 (default [] (od !! "subtraction")))
                (len (default [] (od !! "subtraction"))) = Ok avg.
Proof.
  destruct (results_group_durations_by_op Samples.history "subtraction")
    as (Hd & Hk & Havg).
  cbn zeta. split.
  - rewrite Hd. vm_compute. reflexivity.
  - apply Havg, Hk.
    exists (mkAnswerRecord
              (mkQuestion "9 - 1 = ?" 8 "subtraction" "1st Grade|8")
              true (6 * Second) "8").
    split; [right; right; left; reflexivity | reflexivity].
Defined.

Lemma reachable_View_never_panics_witness :
  exists frame, View Samples.started = Ok frame.
Proof.
  exact (reachable_View_never_panics Samples.started started_reachable).
Defined.

Lemma results_page_opens_with_banner_witness :
  exists rest,
    View Samples.expired =
      Ok (clearScreen +:+
          RenderPadded
            (banner +:+ "Final Score: " +:+
             itoa (st_correct (gatherStats 0 (answers Samples.expired) noStats)) +:+
             " / " +:+
             itoa (st_total (gatherStats 0 (answers Samples.expired) noStats)) +:+
             nl +:+ rest)).
Proof.
  exact (results_page_opens_with_banner Samples.expired
           expired_reachable expired_state).
Defined.

Lemma countdown_bar_shape_witness :
  barCells 29 30 30 1 "" "*" =
    if barFilled 29 30 30 1 =? 0 then replicate (Z.to_nat 30) cellSpace
    else (replicate (Z.to_nat (barFilled 29 30 30 1 - 1))
            (cellBlock (barColorOf 29 30 "")) ++
          [cellFuse "*"] ++
          replicate (Z.to_nat (30 - barFilled 29 30 30 1)) cellSpace)%list.
Proof.
  apply (countdown_bar_shape 29 30 30 1 "" "*"). vm_compute.
  split; discriminate.
Defined.
